(** * DevAssist (nau.py): extension orchestration and aggregation pipeline

    A shallow embedding of [src/nau.py] and of the entry of the GitHub
    connector's [collect_data] ([src/extensions/github/run.py]).

    - Python values that travel through the configuration file and the
      collected data are JSON-like values ([pyval], numbers being
      integers); truthiness follows Python's rules for them.
    - Python dictionaries keep insertion order, so a [dict] is an association
      list; [setitem] replaces in place or appends, as [d[k] = v] does.
    - Methods that log, print, call a connector or a backend, or may raise,
      live in a small monad [M]: a trace of events is threaded through, and
      a computation ends in [Ok], [Raise] (a Python [Exception]) or
      [SysExit] ([sys.exit], which [except Exception] does not catch).
    - Everything outside the repository (the file system, the imported
      connector modules, [json], the three completion libraries) is a field
      of the record [World].  A library call returns or raises an
      [Exception]; the code of a connector (the body of its module, its
      [initialize], its [collect_data]) may also end in [sys.exit]. *)

From Stdlib Require Import String Ascii List Bool ZArith Lia.
Import ListNotations.
Local Open Scope string_scope.

Set Implicit Arguments.
Local Set Warnings "-register-all".

(** ** Python values *)

Inductive pyval : Type :=
| PNone
| PBool (b : bool)
| PInt (z : Z)
| PStr (s : string)
| PList (l : list pyval)
| PDict (d : list (string * pyval)).

(** [bool(v)], as used by [if v:] and [not v]. *)
Definition truthy (v : pyval) : bool :=
  match v with
  | PNone => false
  | PBool b => b
  | PInt z => negb (Z.eqb z 0)
  | PStr s => negb (String.eqb s "")
  | PList l => match l with [] => false | _ :: _ => true end
  | PDict d => match d with [] => false | _ :: _ => true end
  end.

(** [type(v).__name__], used in the messages of attribute and type errors. *)
Definition type_name (v : pyval) : string :=
  match v with
  | PNone => "NoneType"
  | PBool _ => "bool"
  | PInt _ => "int"
  | PStr _ => "str"
  | PList _ => "list"
  | PDict _ => "dict"
  end.

(** [v == s] for a string literal [s]. *)
Definition eq_str (v : pyval) (s : string) : bool :=
  match v with
  | PStr s' => String.eqb s' s
  | _ => false
  end.

(** ** Dictionaries with string keys, in insertion order *)

Definition dict (A : Type) : Type := list (string * A).

Section Dict.
Context {A : Type}.

(** [d[k]] when present. *)
Fixpoint lookup (d : dict A) (k : string) : option A :=
  match d with
  | [] => None
  | (k', v) :: d' => if String.eqb k k' then Some v else lookup d' k
  end.

(** [d.get(k, default)]. *)
Definition get (d : dict A) (k : string) (default : A) : A :=
  match lookup d k with
  | Some v => v
  | None => default
  end.

(** [d[k] = v]: an existing key keeps its position. *)
Fixpoint setitem (k : string) (v : A) (d : dict A) : dict A :=
  match d with
  | [] => [(k, v)]
  | (k', v') :: d' =>
      if String.eqb k k' then (k', v) :: d' else (k', v') :: setitem k v d'
  end.

Definition keys (d : dict A) : list string := map fst d.

(** [{**base, **extra}]: the entries of [extra] are assigned in order. *)
Definition update (base extra : dict A) : dict A :=
  fold_left (fun d kv => setitem (fst kv) (snd kv) d) extra base.

(** [k in d]. *)
Definition contains (d : dict A) (k : string) : bool :=
  match lookup d k with
  | Some _ => true
  | None => false
  end.
End Dict.

(** ** Effects *)

(** An instance of Python's [Exception]; [exn_msg] is [str(e)]. *)
Record exn : Type := Exception { exn_msg : string }.

(** What a call into a library does: it returns, or it raises an
    [Exception], the class the handlers of [nau.py] catch. *)
Inductive result (A : Type) : Type :=
| Returns (a : A)
| Raises (e : exn).
Arguments Returns {A} a.
Arguments Raises {A} e.

Inductive level : Type := INFO | WARNING | ERROR.

(** The three summarization backends. *)
Inductive backend : Type := Local | Claude | OpenAI.

Inductive event : Type :=
| Log (lvl : level) (msg : string)          (* logger.info / warning / error *)
| Generate (b : backend) (prompt : string)  (* the completion call of a backend *)
| Print (text : string).                    (* print(text) *)

Inductive outcome (A : Type) : Type :=
| Ok (a : A)
| Raise (e : exn)
| SysExit (code : Z).
Arguments Ok {A} a.
Arguments Raise {A} e.
Arguments SysExit {A} code.

Definition M (A : Type) : Type := list event -> outcome A * list event.

Definition ret {A} (a : A) : M A := fun t => (Ok a, t).

Definition bind {A B} (c : M A) (k : A -> M B) : M B :=
  fun t =>
  match c t with
  | (Ok a, t') => k a t'
  | (Raise e, t') => (Raise e, t')
  | (SysExit n, t') => (SysExit n, t')
  end.

Declare Scope py_scope.
Delimit Scope py_scope with py.
Notation "x <- c ;; k" := (bind c (fun x => k))
  (at level 61, c at next level, right associativity) : py_scope.
Notation "c ;;; k" := (bind c (fun _ => k))
  (at level 61, right associativity) : py_scope.
Local Open Scope py_scope.

Definition emit (e : event) : M unit := fun t => (Ok tt, (t ++ [e])%list).
Definition logger (lvl : level) (msg : string) : M unit := emit (Log lvl msg).
Definition print (text : string) : M unit := emit (Print text).
Definition raise {A} (e : exn) : M A := fun t => (Raise e, t).
Definition sys_exit {A} (code : Z) : M A := fun t => (SysExit code, t).

(** A call into outside code: its exception, if any, is raised here. *)
Definition call {A} (r : result A) : M A :=
  match r with
  | Returns a => ret a
  | Raises e => raise e
  end.

(** A call into the code of a connector.  Such code may, besides returning
    or raising an [Exception], end in [sys.exit]: [SystemExit], like
    [KeyboardInterrupt], is not an [Exception], so it passes every handler
    of [nau.py].  What the code does is an [outcome], which takes effect at
    the point of the call. *)
Definition run_code {A} (o : outcome A) : M A := fun t => (o, t).

(** Code that returns or raises, seen as connector code. *)
Definition of_result {A} (r : result A) : outcome A :=
  match r with
  | Returns a => Ok a
  | Raises e => Raise e
  end.

(** [try: body  except Exception as e: handler e]. *)
Definition try_except {A} (body : M A) (handler : exn -> M A) : M A :=
  fun t =>
  match body t with
  | (Raise e, t') => handler e t'
  | r => r
  end.

(** [v.get(k, default)] on a value that may not be a dictionary. *)
Definition py_get (v : pyval) (k : string) (default : pyval) : M pyval :=
  match v with
  | PDict d => ret (get d k default)
  | _ => raise (Exception ("'" ++ type_name v ++ "' object has no attribute 'get'"))
  end.

(** [v.items()]. *)
Definition py_items (v : pyval) : M (list (string * pyval)) :=
  match v with
  | PDict d => ret d
  | _ => raise (Exception ("'" ++ type_name v ++ "' object has no attribute 'items'"))
  end.

(** The dictionary display [{**base, **v}]. *)
Definition py_unpack (base : dict pyval) (v : pyval) : M (dict pyval) :=
  match v with
  | PDict d => ret (update base d)
  | _ => raise (Exception ("'" ++ type_name v ++ "' object is not a mapping"))
  end.

(** ** Connector modules *)

(** An imported connector module: its module-level variables and the two
  functions of the connector contract, each present or not ([hasattr]). *)
Record pymodule : Type := {
  globals : Type;
  state : globals;
  mod_initialize : option (pyval -> globals -> outcome globals);
  mod_collect_data : option (globals -> outcome pyval)
}.

Definition with_state (m : pymodule) (g : globals m) : pymodule :=
  {| globals := globals m;
   state := g;
   mod_initialize := mod_initialize m;
   mod_collect_data := mod_collect_data m |}.

(** The two places an implementation [<name>.py] is looked up in:
  [Path(__file__).parent / "extensions"] and [EXTENSIONS_DIR]. *)
Inductive path : Type :=
| BuiltinExtensions (file : string)
| UserExtensions (file : string).

(** ** The data classes *)

Module AIConfig.
Record t : Type := {
  provider : pyval;
  model : pyval;
  api_key : pyval;
  api_url : pyval;
  local_model_path : pyval
}.

Definition from_dict (data : pyval) : M t :=
  provider <- py_get data "provider" (PStr "local") ;;
  model <- py_get data "model" (PStr "llama3") ;;
  api_key <- py_get data "api_key" PNone ;;
  api_url <- py_get data "api_url" PNone ;;
  local_model_path <- py_get data "local_model_path" PNone ;;
  ret {| provider := provider; model := model; api_key := api_key;
         api_url := api_url; local_model_path := local_model_path |}.
End AIConfig.

Module Extension.
Record t : Type := {
  name : pyval;
  enabled : pyval;
  config : pyval;
  module : option pymodule
}.

Definition from_dict (data : dict pyval) : t :=
  {| name := get data "name" (PStr "");
     enabled := get data "enabled" (PBool true);
     config := get data "config" (PDict []);
     module := None |}.

(** [extension.module = m]. *)
Definition set_module (e : t) (m : pymodule) : t :=
  {| name := name e; enabled := enabled e; config := config e;
     module := Some m |}.
End Extension.

(** ** The outside world *)

Record World : Type := {
  (* str(CONFIG_FILE) and str(Path.home() / ".cache" / "devassist" / "models" / "llama3") *)
  config_file : string;
  default_model_path : string;
  (* CONFIG_DIR.mkdir(...), EXTENSIONS_DIR.mkdir(...) *)
  mkdir_config_dir : result unit;
  mkdir_extensions_dir : result unit;
  (* CONFIG_FILE.exists() (the answer, or the OSError of the underlying
     stat), json.load of the file, json.dump into it *)
  config_file_exists : result bool;
  json_load : result pyval;
  json_dump : pyval -> result unit;
  (* whether llama_cpp, anthropic, openai can be imported *)
  package_installed : backend -> bool;
  (* path.exists() for an implementation file: the answer, or the OSError
     of the underlying stat (a name too long for the file system, say) *)
  path_exists : path -> result bool;
  (* spec_from_file_location(modname, path), module_from_spec, exec_module:
     the body of the connector's module is executed *)
  exec_module : string -> path -> outcome pymodule;
  (* json.dumps(data, indent=2) and str(v) of a value that is not a string *)
  json_dumps : pyval -> string;
  py_repr : pyval -> string;
  (* Path(model_path).exists() *)
  model_path_exists : pyval -> result bool;
  (* Llama(model_path=...)(prompt, ...)["choices"][0]["text"] *)
  llama : pyval -> string -> result string;
  (* anthropic.Anthropic(api_key).messages.create(model, ...).content[0].text *)
  anthropic_messages_create : pyval -> pyval -> string -> result string;
  (* openai.ChatCompletion.create(model, ...).choices[0].message.content *)
  openai_chat_completion_create : pyval -> pyval -> string -> result string
}.

(** ** The application object *)

Record DevAssist : Type := {
  config : pyval;
  ai_config : option AIConfig.t;
  extensions : dict Extension.t;
  initialized : bool
}.

(** [DevAssist.__init__]. *)
Definition init : DevAssist :=
  {| config := PDict []; ai_config := None; extensions := []; initialized := false |}.

Definition set_config (self : DevAssist) (c : pyval) : DevAssist :=
  {| config := c; ai_config := ai_config self;
     extensions := extensions self; initialized := initialized self |}.

Definition set_ai_config (self : DevAssist) (a : AIConfig.t) : DevAssist :=
  {| config := config self; ai_config := Some a;
     extensions := extensions self; initialized := initialized self |}.

Definition set_extensions (self : DevAssist) (e : dict Extension.t) : DevAssist :=
  {| config := config self; ai_config := ai_config self;
     extensions := e; initialized := initialized self |}.

Definition set_initialized (self : DevAssist) (b : bool) : DevAssist :=
  {| config := config self; ai_config := ai_config self;
     extensions := extensions self; initialized := b |}.

Definition nl : string := String (ascii_of_nat 10) EmptyString.

(** [s * n]. *)
Fixpoint repeat_string (s : string) (n : nat) : string :=
  match n with
  | O => ""
  | S n' => s ++ repeat_string s n'
  end.

Definition package_name (b : backend) : string :=
  match b with
  | Local => "llama_cpp"
  | Claude => "anthropic"
  | OpenAI => "openai"
  end.

Section Methods.
Variable W : World.

(** [f"{v}"]. *)
Definition format (v : pyval) : string :=
  match v with
  | PStr s => s
  | _ => py_repr W v
  end.

(** [import llama_cpp], [import anthropic], [import openai]. *)
Definition import_package (b : backend) : M unit :=
  if package_installed W b then ret tt
  else raise (Exception ("No module named '" ++ package_name b ++ "'")).

Definition create_default_config : pyval :=
  PDict [
    ("ai", PDict [
       ("provider", PStr "local");
       ("model", PStr "llama3");
       ("local_model_path", PStr (default_model_path W))]);
    ("extensions", PDict [
       ("github", PDict [
          ("enabled", PBool true);
          ("config", PDict [("token", PStr ""); ("repositories", PList [])])]);
       ("jira", PDict [
          ("enabled", PBool true);
          ("config", PDict [("url", PStr ""); ("username", PStr "");
                            ("api_token", PStr ""); ("projects", PList [])])]);
       ("slack", PDict [
          ("enabled", PBool true);
          ("config", PDict [("token", PStr ""); ("channels", PList [])])])])].

Definition save_config (self : DevAssist) : M unit :=
  try_except
    (call (json_dump W (config self)) ;;;
     logger INFO ("Configuration saved to " ++ config_file W))
    (fun e => logger ERROR ("Error saving configuration: " ++ exn_msg e)).

Definition load_config (self : DevAssist) : M DevAssist :=
  self <- (file_exists <- call (config_file_exists W) ;;
           if (file_exists : bool) then
             try_except
               (c <- call (json_load W) ;;
                logger INFO ("Configuration loaded from " ++ config_file W) ;;;
                ret (set_config self c))
               (fun e =>
                  logger ERROR ("Error loading configuration: " ++ exn_msg e) ;;;
                  ret (set_config self create_default_config))
           else
             logger INFO "Configuration file not found, creating default" ;;;
             let self := set_config self create_default_config in
             save_config self ;;;
             ret self) ;;
  ai <- py_get (config self) "ai" (PDict []) ;;
  ai_config <- AIConfig.from_dict ai ;;
  ret (set_ai_config self ai_config).

(** [self.ai_config.<field>]; [ai_config] is [None] before [load_config]. *)
Definition the_ai_config (self : DevAssist) (field : string) : M AIConfig.t :=
  match ai_config self with
  | Some c => ret c
  | None => raise (Exception ("'NoneType' object has no attribute '" ++ field ++ "'"))
  end.

Definition load_ai_provider (self : DevAssist) : M unit :=
  c <- the_ai_config self "provider" ;;
  let provider := AIConfig.provider c in
  if eq_str provider "local" then
    try_except
      (import_package Local ;;; logger INFO "Using local Llama model")
      (fun _ =>
         logger ERROR "llama-cpp-python not installed. Install with: pip install llama-cpp-python" ;;;
         sys_exit 1)
  else if eq_str provider "claude" then
    try_except
      (import_package Claude ;;; logger INFO "Using Claude API")
      (fun _ =>
         logger ERROR "anthropic package not installed. Install with: pip install anthropic" ;;;
         sys_exit 1)
  else if eq_str provider "openai" then
    try_except
      (import_package OpenAI ;;; logger INFO "Using OpenAI API")
      (fun _ =>
         logger ERROR "openai package not installed. Install with: pip install openai" ;;;
         sys_exit 1)
  else
    logger ERROR ("Unknown AI provider: " ++ format provider) ;;;
    sys_exit 1.

Definition _load_extension_module (extension : Extension.t) (p : path) : M Extension.t :=
  try_except
    (module <- run_code (exec_module W ("devassist.extensions." ++ format (Extension.name extension)) p) ;;
     module <- match mod_initialize module with
               | Some initialize =>
                   g <- run_code (initialize (Extension.config extension) (state module)) ;;
                   ret (with_state module g)
               | None => ret module
               end ;;
     logger INFO ("Loaded extension: " ++ format (Extension.name extension)) ;;;
     ret (Extension.set_module extension module))
    (fun e =>
       logger ERROR ("Error loading extension " ++ format (Extension.name extension)
                       ++ ": " ++ exn_msg e) ;;;
       ret extension).

Definition builtin_path (name : string) : path := BuiltinExtensions (name ++ ".py").
Definition user_path (name : string) : path := UserExtensions (name ++ ".py").

(** One round of the [for] loop of [load_extensions]; the result is
    [self.extensions] after it. *)
Definition load_extension (exts : dict Extension.t) (name : string) (config : pyval)
  : M (dict Extension.t) :=
  data <- py_unpack [("name", PStr name)] config ;;
  let ext_config := Extension.from_dict data in
  if negb (truthy (Extension.enabled ext_config)) then
    logger INFO ("Extension " ++ name ++ " is disabled, skipping") ;;;
    ret exts
  else
    builtin_exists <- call (path_exists W (builtin_path name)) ;;
    if (builtin_exists : bool) then
      ext_config <- _load_extension_module ext_config (builtin_path name) ;;
      ret (setitem name ext_config exts)
    else
      user_exists <- call (path_exists W (user_path name)) ;;
      if (user_exists : bool) then
        ext_config <- _load_extension_module ext_config (user_path name) ;;
        ret (setitem name ext_config exts)
      else
        logger WARNING ("Extension " ++ name ++ " not found") ;;;
        ret exts.

Fixpoint load_extensions_loop (items : list (string * pyval)) (exts : dict Extension.t)
  : M (dict Extension.t) :=
  match items with
  | [] => ret exts
  | (name, config) :: items' =>
      exts <- load_extension exts name config ;;
      load_extensions_loop items' exts
  end.

Definition load_extensions (self : DevAssist) : M DevAssist :=
  extensions_config <- py_get (config self) "extensions" (PDict []) ;;
  items <- py_items extensions_config ;;
  exts <- load_extensions_loop items (extensions self) ;;
  ret (set_extensions self exts).

Definition initialize (self : DevAssist) : M DevAssist :=
  if initialized self then ret self
  else
    call (mkdir_config_dir W) ;;;
    call (mkdir_extensions_dir W) ;;;
    self <- load_config self ;;
    load_ai_provider self ;;;
    self <- load_extensions self ;;
    let self := set_initialized self true in
    logger INFO "DevAssist initialized" ;;;
    ret self.

(** The [+=] loop of [_format_prompt] over [context.items()]. *)
Definition add_source (context_str : string) (item : string * pyval) : string :=
  let context_str := context_str ++ ("=== " ++ fst item ++ " ===" ++ nl) in
  context_str ++ (json_dumps W (snd item) ++ nl ++ nl).

Definition _format_prompt (prompt : string) (context : option (dict pyval)) : string :=
  match context with
  | None => prompt
  | Some [] => prompt
  | Some items =>
      let context_str := fold_left add_source items ("Context:" ++ nl) in
      context_str ++ nl ++ "Task: " ++ prompt ++ nl ++ nl ++ "Response:"
  end.

(** [a or b]. *)
Definition py_or (a b : pyval) : pyval := if truthy a then a else b.

Definition _query_local_llama (self : DevAssist) (prompt : string) : M string :=
  try_except
    (import_package Local ;;;
     c <- the_ai_config self "local_model_path" ;;
     let model_path := AIConfig.local_model_path c in
     missing <- (if negb (truthy model_path) then ret true
                 else b <- call (model_path_exists W model_path) ;; ret (negb b)) ;;
     if (missing : bool) then
       ret "Error: Local model path not configured or model file not found"
     else
       emit (Generate Local prompt) ;;;
       call (llama W model_path prompt))
    (fun e =>
       logger ERROR ("Error querying local model: " ++ exn_msg e) ;;;
       ret ("Error querying local model: " ++ exn_msg e)).

Definition _query_claude (self : DevAssist) (prompt : string) : M string :=
  try_except
    (import_package Claude ;;;
     c <- the_ai_config self "api_key" ;;
     let api_key := AIConfig.api_key c in
     if negb (truthy api_key) then
       ret "Error: Claude API key not configured"
     else
       let model := py_or (AIConfig.model c) (PStr "claude-3-7-sonnet-20250219") in
       emit (Generate Claude prompt) ;;;
       call (anthropic_messages_create W api_key model prompt))
    (fun e =>
       logger ERROR ("Error querying Claude API: " ++ exn_msg e) ;;;
       ret ("Error querying Claude API: " ++ exn_msg e)).

Definition _query_openai (self : DevAssist) (prompt : string) : M string :=
  try_except
    (import_package OpenAI ;;;
     c <- the_ai_config self "api_key" ;;
     let api_key := AIConfig.api_key c in
     if negb (truthy api_key) then
       ret "Error: OpenAI API key not configured"
     else
       let model := py_or (AIConfig.model c) (PStr "gpt-4") in
       emit (Generate OpenAI prompt) ;;;
       call (openai_chat_completion_create W api_key model prompt))
    (fun e =>
       logger ERROR ("Error querying OpenAI API: " ++ exn_msg e) ;;;
       ret ("Error querying OpenAI API: " ++ exn_msg e)).

Definition query_ai (self : DevAssist) (prompt : string) (context : option (dict pyval))
  : M string :=
  c <- the_ai_config self "provider" ;;
  let provider := AIConfig.provider c in
  let formatted_prompt := _format_prompt prompt context in
  if eq_str provider "local" then _query_local_llama self formatted_prompt
  else if eq_str provider "claude" then _query_claude self formatted_prompt
  else if eq_str provider "openai" then _query_openai self formatted_prompt
  else
    logger ERROR ("Unknown AI provider: " ++ format provider) ;;;
    ret "Error: Unable to query AI model".

(** One round of the [for] loop of [collect_data]; the result is [data]
    after it.  A module object is truthy, so [not extension.module] holds
    exactly when no module was attached. *)
Definition collect_extension (data : dict pyval) (name : string) (extension : Extension.t)
  : M (dict pyval) :=
  if negb (truthy (Extension.enabled extension)) then ret data
  else
    match Extension.module extension with
    | None => ret data
    | Some module =>
        try_except
          (match mod_collect_data module with
           | Some collect =>
               extension_data <- run_code (collect (state module)) ;;
               if truthy extension_data then ret (setitem name extension_data data)
               else ret data
           | None => ret data
           end)
          (fun e =>
             logger ERROR ("Error collecting data from " ++ name ++ ": " ++ exn_msg e) ;;;
             ret data)
    end.

Fixpoint collect_data_loop (items : list (string * Extension.t)) (data : dict pyval)
  : M (dict pyval) :=
  match items with
  | [] => ret data
  | (name, extension) :: items' =>
      data <- collect_extension data name extension ;;
      collect_data_loop items' data
  end.

Definition collect_data (self : DevAssist) : M (dict pyval) :=
  collect_data_loop (extensions self) [].

Definition summary_prompt : string :=
  "You are an AI assistant for developers. Analyze the following data from different developer tools and provide a concise summary focusing on:" ++ nl ++
  "1. Important tasks and their priorities" ++ nl ++
  "2. Pending code reviews that need attention" ++ nl ++
  "3. Messages that require responses" ++ nl ++
  "4. Any blocking issues that should be addressed immediately" ++ nl ++
  nl ++
  "Please format the output in a clear, readable way with sections for each category.".

Definition process_data (self : DevAssist) (data : dict pyval) : M string :=
  match data with
  | [] => ret "No data collected from extensions."
  | _ :: _ => query_ai self summary_prompt (Some data)
  end.

Definition run (self : DevAssist) : M unit :=
  self <- initialize self ;;
  data <- collect_data self ;;
  summary <- process_data self data ;;
  print (nl ++ repeat_string "=" 80) ;;;
  print " DEVELOPER ASSISTANT SUMMARY " ;;;
  print (repeat_string "=" 80 ++ nl) ;;;
  print summary ;;;
  print (nl ++ repeat_string "=" 80).

End Methods.

(** ** The GitHub connector: [initialize] and the entry of [collect_data] *)

Module GitHub.

(** The module-level variables [_config] and [_session]; a session is
    identified by the token its headers carry. *)
Record vars : Type := {
  _config : pyval;
  _session : option pyval
}.

Definition initial : vars := {| _config := PDict []; _session := None |}.

Definition initialize (config : pyval) (g : vars) : result vars :=
  match config with
  | PDict d =>
      let token := get d "token" PNone in
      if negb (truthy token) then
        Returns {| _config := config; _session := _session g |}
      else
        Returns {| _config := config; _session := Some token |}
  | _ => Raises (Exception ("'" ++ type_name config ++ "' object has no attribute 'get'"))
  end.

Section Collect.
(** The rest of [collect_data], after the guard: the requests to the API. *)
Variable fetch : pyval -> pyval -> result pyval.

Definition collect_data (g : vars) : result pyval :=
  match _session g with
  | None => Returns (PDict [("error", PStr "GitHub extension not properly initialized")])
  | Some session => fetch session (_config g)
  end.

(** The module object right after its body was executed. *)
Definition module : pymodule :=
  {| globals := vars;
     state := initial;
     mod_initialize := Some (fun config g => of_result (initialize config g));
     mod_collect_data := Some (fun g => of_result (collect_data g)) |}.
End Collect.

End GitHub.

(** ** Loops that assign into a dictionary *)

(** [d[name] = v] when the round produced a value [v], nothing otherwise. *)
Definition assign {A} (name : string) (o : option A) (d : dict A) : dict A :=
  match o with
  | Some v => setitem name v d
  | None => d
  end.

(** A [for name, x in items] loop whose rounds assign [f name x]. *)
Definition assign_all {A B} (f : string -> B -> option A)
    (items : list (string * B)) (d : dict A) : dict A :=
  fold_left (fun d item => assign (fst item) (f (fst item) (snd item)) d) items d.

(** ** Specification-level views of the aggregator *)

(** What one connector contributes to a round: the value its [collect_data]
    returned, if the connector is enabled, its module is loaded and defines
    [collect_data], the call returned, and the value is truthy. *)
Definition collected (extension : Extension.t) : option pyval :=
  if truthy (Extension.enabled extension) then
    match Extension.module extension with
    | Some module =>
        match mod_collect_data module with
        | Some collect =>
            match collect (state module) with
            | Ok v => if truthy v then Some v else None
            | Raise _ => None
            | SysExit _ => None
            end
        | None => None
        end
    | None => None
    end
  else None.

(** The exception a connector's [collect_data] raised in this round. *)
Definition collect_failure (extension : Extension.t) : option exn :=
  if truthy (Extension.enabled extension) then
    match Extension.module extension with
    | Some module =>
        match mod_collect_data module with
        | Some collect =>
            match collect (state module) with
            | Ok _ => None
            | Raise e => Some e
            | SysExit _ => None
            end
        | None => None
        end
    | None => None
    end
  else None.

(** The status with which a connector's [collect_data] ends the process in
    this round, when the call is made and ends in [sys.exit]. *)
Definition collect_exit (extension : Extension.t) : option Z :=
  if truthy (Extension.enabled extension) then
    match Extension.module extension with
    | Some module =>
        match mod_collect_data module with
        | Some collect =>
            match collect (state module) with
            | Ok _ => None
            | Raise _ => None
            | SysExit code => Some code
            end
        | None => None
        end
    | None => None
    end
  else None.

Definition collect_log (name : string) (extension : Extension.t) : list event :=
  match collect_failure extension with
  | Some e => [Log ERROR ("Error collecting data from " ++ name ++ ": " ++ exn_msg e)]
  | None => []
  end.

Definition collected_items (items : list (string * Extension.t)) (data : dict pyval)
  : dict pyval :=
  assign_all (fun _ extension => collected extension) items data.

Definition collect_logs (items : list (string * Extension.t)) : list event :=
  flat_map (fun item => collect_log (fst item) (snd item)) items.

(** No connector of [items] ends the round in [sys.exit]: every
    [collect_data] call that is made returns or raises an [Exception]. *)
Definition completes (items : list (string * Extension.t)) : Prop :=
  forall name extension, In (name, extension) items -> collect_exit extension = None.


(** ** A concrete world, for the examples *)

Module Example.

(** A connector with one item to report. *)
Definition healthy : pymodule :=
  {| globals := unit;
     state := tt;
     mod_initialize := Some (fun _ g => Ok g);
     mod_collect_data := Some (fun _ => Ok (PDict [("items", PList [PInt 1])])) |}.

(** A connector whose collection succeeds with nothing to report. *)
Definition quiet : pymodule :=
  {| globals := unit;
     state := tt;
     mod_initialize := Some (fun _ g => Ok g);
     mod_collect_data := Some (fun _ => Ok (PDict [])) |}.

(** A connector whose collection times out. *)
Definition broken : pymodule :=
  {| globals := unit;
     state := tt;
     mod_initialize := None;
     mod_collect_data := Some (fun _ => Raise (Exception "timed out")) |}.

(** A connector whose [initialize] raises. *)
Definition badinit : pymodule :=
  {| globals := unit;
     state := tt;
     mod_initialize := Some (fun _ _ => Raise (Exception "no credentials"));
     mod_collect_data := Some (fun _ => Ok (PDict [("items", PList [])])) |}.

(** A connector that gives up with [sys.exit(2)] when asked for data. *)
Definition leaver : pymodule :=
  {| globals := unit;
     state := tt;
     mod_initialize := None;
     mod_collect_data := Some (fun _ => SysExit 2) |}.

Definition github : pymodule :=
  GitHub.module (fun _ _ => Returns (PDict [("pull_requests", PList [PInt 7])])).

(** The implementation files, with what executing each one does; the body
    of [setup.py] ends in [sys.exit(3)]. *)
Definition files (p : path) : option (outcome pymodule) :=
  match p with
  | BuiltinExtensions file =>
      if String.eqb file "healthy.py" then Some (Ok healthy)
      else if String.eqb file "quiet.py" then Some (Ok quiet)
      else if String.eqb file "broken.py" then Some (Ok broken)
      else if String.eqb file "badinit.py" then Some (Ok badinit)
      else if String.eqb file "github.py" then Some (Ok github)
      else if String.eqb file "syntax.py" then Some (Raise (Exception "invalid syntax"))
      else if String.eqb file "both.py" then Some (Ok healthy)
      else if String.eqb file "setup.py" then Some (SysExit 3)
      else None
  | UserExtensions file =>
      if String.eqb file "both.py" then Some (Ok quiet)
      else if String.eqb file "mine.py" then Some (Ok healthy)
      else None
  end.

Definition file_name (p : path) : string :=
  match p with
  | BuiltinExtensions file => file
  | UserExtensions file => file
  end.

(** [str(path)] in the example worlds. *)
Definition location (p : path) : string :=
  match p with
  | BuiltinExtensions file => "/opt/devassist/extensions/" ++ file
  | UserExtensions file => "/home/dev/.devassist/extensions/" ++ file
  end.

(** [path.exists()] in the example worlds: a file name of more than 255
    characters is refused by the file system. *)
Definition exists_file (p : path) : result bool :=
  if Nat.ltb 255 (String.length (file_name p)) then
    Raises (Exception ("[Errno 36] File name too long: '" ++ location p ++ "'"))
  else
    Returns (match files p with Some _ => true | None => false end).

(** The world in which the configuration file holds [cfg]. *)
Definition world (cfg : pyval) : World :=
  {| config_file := "/home/dev/.devassist/config.json";
     default_model_path := "/home/dev/.cache/devassist/models/llama3";
     mkdir_config_dir := Returns tt;
     mkdir_extensions_dir := Returns tt;
     config_file_exists := Returns true;
     json_load := Returns cfg;
     json_dump := fun _ => Returns tt;
     package_installed := fun _ => true;
     path_exists := exists_file;
     exec_module := fun _ p =>
       match files p with
       | Some r => r
       | None => Raise (Exception "No such file or directory")
       end;
     json_dumps := fun _ => "{...}";
     py_repr := fun v => type_name v;
     model_path_exists := fun _ => Returns true;
     llama := fun _ _ => Returns "local summary";
     anthropic_messages_create := fun _ _ _ => Returns "claude summary";
     openai_chat_completion_create := fun _ _ _ => Raises (Exception "connection reset") |}.

(** An entry of the ["extensions"] section of the configuration. *)
Definition entry (enabled : bool) (config : dict pyval) : pyval :=
  PDict [("enabled", PBool enabled); ("config", PDict config)].

Definition ai (provider : string) (api_key : pyval) : pyval :=
  PDict [("provider", PStr provider); ("model", PStr ""); ("api_key", api_key)].

(** A loaded extension, as [load_extensions] leaves it. *)
Definition loaded (name : string) (m : pymodule) : string * Extension.t :=
  (name, {| Extension.name := PStr name; Extension.enabled := PBool true;
            Extension.config := PDict []; Extension.module := Some m |}).

(** An application object with two loaded connectors: one reports data,
    the other succeeds with nothing to report. *)
Definition healthy_and_quiet : DevAssist :=
  set_extensions init [loaded "healthy" healthy; loaded "quiet" quiet].

(** GitHub was loaded without a token; the other connector is healthy. *)
Definition github_without_token : DevAssist :=
  set_extensions init [loaded "github" github; loaded "healthy" healthy].

(** One connector times out, the other is healthy. *)
Definition broken_and_healthy : DevAssist :=
  set_extensions init [loaded "broken" broken; loaded "healthy" healthy].

(** A healthy connector, then one that exits, then another healthy one. *)
Definition healthy_leaver_healthy : DevAssist :=
  set_extensions init [loaded "healthy" healthy; loaded "leaver" leaver;
                       loaded "mine" healthy].

(** A configuration with a healthy connector, a disabled one whose
    implementation exists in both locations, one that is in neither, one
    whose file does not execute and one whose [initialize] raises. *)
Definition extensions_section : list (string * pyval) :=
  [("healthy", entry true []);
   ("both", entry false []);
   ("ghost", entry true []);
   ("syntax", entry true []);
   ("badinit", entry true [])].

Definition configuration (provider : string) (api_key : pyval) : pyval :=
  PDict [("ai", ai provider api_key); ("extensions", PDict extensions_section)].

(** A configuration whose only connector is switched off. *)
Definition all_disabled (provider : string) (api_key : pyval) : pyval :=
  PDict [("ai", ai provider api_key);
         ("extensions", PDict [("healthy", entry false [])])].

(** A configuration whose only connector is healthy. *)
Definition one_healthy (provider : string) (api_key : pyval) : pyval :=
  PDict [("ai", ai provider api_key);
         ("extensions", PDict [("healthy", entry true [])])].

End Example.

(** ** Specification-level views of the loader *)

Section LoaderViews.
Variable W : World.

(** [ext_config] as the loop of [load_extensions] builds it for the entry
    [name: e] of the configuration. *)
Definition spec_of (name : string) (e : dict pyval) : Extension.t :=
  Extension.from_dict (update [("name", PStr name)] e).

(** The implementation file the loop settles on: the built-in one when it
    exists, else the user's, else none; or the [OSError] of the existence
    check that failed. *)
Definition located (name : string) : result (option path) :=
  match path_exists W (builtin_path name) with
  | Returns true => Returns (Some (builtin_path name))
  | Returns false =>
      match path_exists W (user_path name) with
      | Returns true => Returns (Some (user_path name))
      | Returns false => Returns None
      | Raises x => Raises x
      end
  | Raises x => Raises x
  end.

(** Executing the file at [p] and calling the module's [initialize], when it
    has one, with the connector's configuration block. *)
Definition load_result (extension : Extension.t) (p : path) : outcome pymodule :=
  match exec_module W ("devassist.extensions." ++ format W (Extension.name extension)) p with
  | Ok module =>
      match mod_initialize module with
      | Some initialize =>
          match initialize (Extension.config extension) (state module) with
          | Ok g => Ok (with_state module g)
          | Raise e => Raise e
          | SysExit code => SysExit code
          end
      | None => Ok module
      end
  | Raise e => Raise e
  | SysExit code => SysExit code
  end.

(** One round of the loop for the entry [name: e]: how the round ends, with
    the entry it registers, if any, and the lines it logs. *)
Definition activation (name : string) (e : dict pyval)
  : outcome (option Extension.t) * list event :=
  let ext_config := spec_of name e in
  if negb (truthy (Extension.enabled ext_config)) then
    (Ok None, [Log INFO ("Extension " ++ name ++ " is disabled, skipping")])
  else
    match located name with
    | Returns (Some p) =>
        match load_result ext_config p with
        | Ok module =>
            (Ok (Some (Extension.set_module ext_config module)),
             [Log INFO ("Loaded extension: " ++ format W (Extension.name ext_config))])
        | Raise x =>
            (Ok (Some ext_config),
             [Log ERROR ("Error loading extension " ++ format W (Extension.name ext_config)
                           ++ ": " ++ exn_msg x)])
        | SysExit code => (SysExit code, [])
        end
    | Returns None => (Ok None, [Log WARNING ("Extension " ++ name ++ " not found")])
    | Raises x => (Raise x, [])
    end.

(** The entry a round registers, when the round comes to its end. *)
Definition registered (name : string) (e : dict pyval) : option Extension.t :=
  match fst (activation name e) with
  | Ok o => o
  | Raise _ => None
  | SysExit _ => None
  end.

(** The configuration entries that are mappings, unwrapped. *)
Fixpoint mappings (items : list (string * pyval)) : list (string * dict pyval) :=
  match items with
  | [] => []
  | (name, PDict e) :: items' => (name, e) :: mappings items'
  | _ :: items' => mappings items'
  end.

Definition activated (items : list (string * dict pyval)) (exts : dict Extension.t)
  : dict Extension.t :=
  assign_all registered items exts.

Definition activation_log (items : list (string * dict pyval)) : list event :=
  flat_map (fun item => snd (activation (fst item) (snd item))) items.

(** Every round of the loop over [items] comes to its end: each entry is a
    mapping, and for an enabled one the existence checks return and the
    connector's code, if a file is found, does not end in [sys.exit]. *)
Definition settles (items : list (string * pyval)) : Prop :=
  forall name entry, In (name, entry) items ->
    exists e o, entry = PDict e /\ fst (activation name e) = Ok o.

End LoaderViews.

(** Every entry of the ["extensions"] section is a mapping. *)
Definition well_formed (items : list (string * pyval)) : Prop :=
  forall name entry, In (name, entry) items -> exists e, entry = PDict e.

(** The entries of the ["extensions"] section of a configuration. *)
Definition entries (cfg : pyval) : list (string * pyval) :=
  match cfg with
  | PDict c =>
      match get c "extensions" (PDict []) with
      | PDict es => es
      | _ => []
      end
  | _ => []
  end.

(** Every entry the configuration has for [name] is switched off. *)
Definition disabled (cfg : pyval) (name : string) : Prop :=
  forall e, In (name, PDict e) (entries cfg) ->
            truthy (Extension.enabled (spec_of name e)) = false.

(** ** Specification-level views of the backends and of the driver *)

(** The backend a provider value stands for, in the spec's words a function
    of [AIConfig.backend] alone; to be compared with the dispatch of
    [query_ai]. *)
Definition selected (provider : pyval) : option backend :=
  if eq_str provider "local" then Some Local
  else if eq_str provider "claude" then Some Claude
  else if eq_str provider "openai" then Some OpenAI
  else None.

(** The backends whose completion call was made, in order. *)
Definition generates (events : list event) : list backend :=
  flat_map (fun ev => match ev with Generate b _ => [b] | _ => [] end) events.

(** The completion call of a backend under a given configuration. *)
Definition completion (W : World) (c : AIConfig.t) (b : backend) (prompt : string)
  : result string :=
  match b with
  | Local => llama W (AIConfig.local_model_path c) prompt
  | Claude =>
      anthropic_messages_create W (AIConfig.api_key c)
        (py_or (AIConfig.model c) (PStr "claude-3-7-sonnet-20250219")) prompt
  | OpenAI =>
      openai_chat_completion_create W (AIConfig.api_key c)
        (py_or (AIConfig.model c) (PStr "gpt-4")) prompt
  end.

(** What a backend answers when its completion call raises [x]. *)
Definition query_error (b : backend) (x : exn) : string :=
  match b with
  | Local => "Error querying local model: " ++ exn_msg x
  | Claude => "Error querying Claude API: " ++ exn_msg x
  | OpenAI => "Error querying OpenAI API: " ++ exn_msg x
  end.

(** What a backend answers when it lacks its configuration: the model path
    for the local one, the API key for the remote ones. *)
Definition not_configured (b : backend) : string :=
  match b with
  | Local => "Error: Local model path not configured or model file not found"
  | Claude => "Error: Claude API key not configured"
  | OpenAI => "Error: OpenAI API key not configured"
  end.

(** [AIConfig.from_dict] on a mapping. *)
Definition ai_config_of (d : dict pyval) : AIConfig.t :=
  {| AIConfig.provider := get d "provider" (PStr "local");
     AIConfig.model := get d "model" (PStr "llama3");
     AIConfig.api_key := get d "api_key" PNone;
     AIConfig.api_url := get d "api_url" PNone;
     AIConfig.local_model_path := get d "local_model_path" PNone |}.

(** The line [load_ai_provider] logs for the backend it found. *)
Definition using_line (b : backend) : string :=
  match b with
  | Local => "Using local Llama model"
  | Claude => "Using Claude API"
  | OpenAI => "Using OpenAI API"
  end.

(** The exception of [import <package>] when the package is missing. *)
Definition import_error (b : backend) : exn :=
  Exception ("No module named '" ++ package_name b ++ "'").

(** The completion call itself, and what is answered around it. *)
Definition generated (W : World) (c : AIConfig.t) (b : backend) (prompt : string)
  : string * list event :=
  match completion W c b prompt with
  | Returns text => (text, [Generate b prompt])
  | Raises x => (query_error b x, [Generate b prompt; Log ERROR (query_error b x)])
  end.

(** The answer of backend [b] to a prompt, with the events it leaves. *)
Definition answer (W : World) (c : AIConfig.t) (b : backend) (prompt : string)
  : string * list event :=
  if package_installed W b then
    match b with
    | Local =>
        if truthy (AIConfig.local_model_path c) then
          match model_path_exists W (AIConfig.local_model_path c) with
          | Returns true => generated W c Local prompt
          | Returns false => (not_configured Local, [])
          | Raises x => (query_error Local x, [Log ERROR (query_error Local x)])
          end
        else (not_configured Local, [])
    | _ =>
        if truthy (AIConfig.api_key c) then generated W c b prompt
        else (not_configured b, [])
    end
  else (query_error b (import_error b), [Log ERROR (query_error b (import_error b))]).

(** A computation that makes no completion call. *)
Definition silent {A} (c : M A) : Prop :=
  forall t, generates (snd (c t)) = generates t.

(** The five [print] calls of [run] around a summary. *)
Definition printed (summary : string) : list event :=
  [Print (nl ++ repeat_string "=" 80);
   Print " DEVELOPER ASSISTANT SUMMARY ";
   Print (repeat_string "=" 80 ++ nl);
   Print summary;
   Print (nl ++ repeat_string "=" 80)].

(** The strings of a list, one after the other. *)
Fixpoint join (l : list string) : string :=
  match l with
  | [] => ""
  | s :: l' => s ++ join l'
  end.

(** The section [_format_prompt] writes for one source of the context. *)
Definition section_text (W : World) (item : string * pyval) : string :=
  "=== " ++ fst item ++ " ===" ++ nl ++ json_dumps W (snd item) ++ nl ++ nl.

(** ** Further specification-level views of the driver *)

(** The [AIConfig] read from the default configuration. *)
Definition default_ai_config (W : World) : AIConfig.t :=
  {| AIConfig.provider := PStr "local";
     AIConfig.model := PStr "llama3";
     AIConfig.api_key := PNone;
     AIConfig.api_url := PNone;
     AIConfig.local_model_path := PStr (default_model_path W) |}.

(** What [save_config] logs. *)
Definition save_log (W : World) (c : pyval) : event :=
  match json_dump W c with
  | Returns _ => Log INFO ("Configuration saved to " ++ config_file W)
  | Raises x => Log ERROR ("Error saving configuration: " ++ exn_msg x)
  end.

(** The connectors that contribute to a round, with their values, in the
    order of [self.extensions]. *)
Definition successes (items : list (string * Extension.t)) : dict pyval :=
  flat_map (fun item => match collected (snd item) with
                        | Some v => [(fst item, v)]
                        | None => []
                        end) items.

(** Backend [b] has what it needs to make its completion call. *)
Definition ready (W : World) (c : AIConfig.t) (b : backend) : Prop :=
  package_installed W b = true /\
  match b with
  | Local =>
      truthy (AIConfig.local_model_path c) = true /\
      model_path_exists W (AIConfig.local_model_path c) = Returns true
  | _ => truthy (AIConfig.api_key c) = true
  end.

(** ** More concrete worlds *)

Module Scenario.

(** A world given by the state of the configuration file ([None] when it
    does not exist), whether it can be written, and the packages installed;
    implementation files are those of [Example.files]. *)
Definition world (file : option (result pyval)) (writable : bool)
    (installed : backend -> bool) : World :=
  {| config_file := "/home/dev/.devassist/config.json";
     default_model_path := "/home/dev/.cache/devassist/models/llama3";
     mkdir_config_dir := Returns tt;
     mkdir_extensions_dir := Returns tt;
     config_file_exists := Returns (match file with Some _ => true | None => false end);
     json_load := match file with
                  | Some r => r
                  | None => Raises (Exception "No such file or directory")
                  end;
     json_dump := fun _ => if writable then Returns tt
                           else Raises (Exception "Permission denied");
     package_installed := installed;
     path_exists := Example.exists_file;
     exec_module := fun _ p =>
       match Example.files p with
       | Some r => r
       | None => Raise (Exception "No such file or directory")
       end;
     json_dumps := fun _ => "{...}";
     py_repr := fun v => type_name v;
     model_path_exists := fun _ => Returns false;
     llama := fun _ _ => Returns "local summary";
     anthropic_messages_create := fun _ _ _ => Returns "claude summary";
     openai_chat_completion_create := fun _ _ _ => Raises (Exception "connection reset") |}.

Definition only (b : backend) (b' : backend) : bool :=
  match b, b' with
  | Local, Local | Claude, Claude | OpenAI, OpenAI => true
  | _, _ => false
  end.

End Scenario.

(** ** Python operations used by the connectors *)

(** Sequencing of calls that return or raise. *)
Definition and_then {A B} (r : result A) (k : A -> result B) : result B :=
  match r with
  | Returns a => k a
  | Raises e => Raises e
  end.

Declare Scope result_scope.
Delimit Scope result_scope with result.
Notation "x <~ r ;; k" := (and_then r (fun x => k))
  (at level 61, r at next level, right associativity) : result_scope.

(** [v.get(k, default)], the raising made explicit. *)
Definition getr (v : pyval) (k : string) (default : pyval) : result pyval :=
  match v with
  | PDict d => Returns (get d k default)
  | _ => Raises (Exception ("'" ++ type_name v ++ "' object has no attribute 'get'"))
  end.

(** [s.rstrip(ch)] for a single character [ch]. *)
Fixpoint rstrip (ch : ascii) (s : string) : string :=
  match s with
  | EmptyString => EmptyString
  | String c s' =>
      match rstrip ch s' with
      | EmptyString => if Ascii.eqb c ch then EmptyString else String c EmptyString
      | r => String c r
      end
  end.

(** [v.rstrip("/")]: only strings have the method. *)
Definition py_rstrip_slash (v : pyval) : result string :=
  match v with
  | PStr s => Returns (rstrip "/"%char s)
  | _ => Raises (Exception ("'" ++ type_name v ++ "' object has no attribute 'rstrip'"))
  end.

(** [for x in v]: the elements of a list, the keys of a dictionary; what
    Python does for any other value is left to [other]. *)
Definition iterate (other : pyval -> result (list pyval)) (v : pyval)
  : result (list pyval) :=
  match v with
  | PList l => Returns l
  | PDict d => Returns (map (fun kv => PStr (fst kv)) d)
  | _ => other v
  end.

(** [v[k]] for a string [k]: a missing key is a [KeyError], whose text is
    the key in quotes; what Python answers for a value that is not a
    dictionary is left to [other]. *)
Definition getitem (other : pyval -> string -> result pyval) (v : pyval) (k : string)
  : result pyval :=
  match v with
  | PDict d =>
      match lookup d k with
      | Some x => Returns x
      | None => Raises (Exception ("'" ++ k ++ "'"))
      end
  | _ => other v k
  end.

(** [v[0]]: the first element of a non-empty list; anything else is left
    to [other]. *)
Definition first_item (other : pyval -> result pyval) (v : pyval) : result pyval :=
  match v with
  | PList (x :: _) => Returns x
  | _ => other v
  end.

(** ** The Jira connector *)

Module Jira.

Section Connector.
(** [str(v)] of a value that is not a string. *)
Variable repr : pyval -> string.
(** Iteration, subscripting and [v[0]] outside lists and dictionaries. *)
Variable iter_other : pyval -> result (list pyval).
Variable subscript_other : pyval -> string -> result pyval.
Variable first_other : pyval -> result pyval.
(** [base64.b64encode(s.encode()).decode()]. *)
Variable b64 : string -> string.
(** [session.get(url, params=params)], [raise_for_status()] and [json()]. *)
Variable http : pyval -> string -> dict pyval -> result pyval.

(** The module-level variables; a session is identified by its
    [Authorization] header. *)
Record vars : Type := {
  _config : pyval;
  _session : option pyval
}.

Definition initial : vars := {| _config := PDict []; _session := None |}.

Local Open Scope result_scope.

(** [f"{v}"]. *)
Definition fmt (v : pyval) : string :=
  match v with
  | PStr s => s
  | _ => repr v
  end.

Definition initialize (config : pyval) (g : vars) : result vars :=
  url <~ getr config "url" PNone ;;
  username <~ getr config "username" PNone ;;
  api_token <~ getr config "api_token" PNone ;;
  if negb (truthy url && truthy username && truthy api_token) then
    Returns {| _config := config; _session := _session g |}
  else
    let auth := b64 (fmt username ++ ":" ++ fmt api_token) in
    Returns {| _config := config; _session := Some (PStr ("Basic " ++ auth)) |}.

Section Requests.
Variable g : vars.

(** [_session.get(...)] with the checks on the response. *)
Definition request (url : string) (params : dict pyval) : result pyval :=
  match _session g with
  | Some session => http session url params
  | None => Raises (Exception "'NoneType' object has no attribute 'get'")
  end.

Definition format_issue (issue : pyval) : result pyval :=
  fields <~ getr issue "fields" (PDict []) ;;
  assignee <~ getr fields "assignee" PNone ;;
  let assignee := py_or assignee (PDict []) in
  assignee_name <~ getr assignee "displayName" (PStr "Unassigned") ;;
  status <~ getr fields "status" PNone ;;
  let status := py_or status (PDict []) in
  status_name <~ getr status "name" (PStr "Unknown") ;;
  priority <~ getr fields "priority" PNone ;;
  let priority := py_or priority (PDict []) in
  priority_name <~ getr priority "name" (PStr "None") ;;
  id <~ getr issue "id" PNone ;;
  key <~ getr issue "key" PNone ;;
  summary <~ getr fields "summary" PNone ;;
  description <~ getr fields "description" PNone ;;
  created <~ getr fields "created" PNone ;;
  updated <~ getr fields "updated" PNone ;;
  duedate <~ getr fields "duedate" PNone ;;
  url <~ getr (_config g) "url" (PStr "") ;;
  base <~ py_rstrip_slash url ;;
  key' <~ getr issue "key" PNone ;;
  let result :=
    [("id", id); ("key", key); ("summary", summary); ("description", description);
     ("status", status_name); ("priority", priority_name); ("assignee", assignee_name);
     ("created", created); ("updated", updated); ("due_date", duedate);
     ("url", PStr (base ++ "/browse/" ++ fmt key'))] in
  issue_type <~ getr fields "issuetype" PNone ;;
  let issue_type := py_or issue_type (PDict []) in
  issue_type_name <~ getr issue_type "name" (PStr "Unknown") ;;
  let result := setitem "issue_type" issue_type_name result in
  labels <~ getr fields "labels" (PList []) ;;
  let result := setitem "labels" labels result in
  epic_link <~ getr fields "customfield_10014" PNone ;;
  let result := if truthy epic_link then setitem "epic" epic_link result else result in
  story_points <~ getr fields "customfield_10002" PNone ;;
  let result := if truthy story_points then setitem "story_points" story_points result
                else result in
  Returns (PDict result).

(** [[format_issue(issue) for issue in issues]]: the first failure ends the
    comprehension. *)
Fixpoint format_issues (issues : list pyval) : result (list pyval) :=
  match issues with
  | [] => Returns []
  | issue :: issues' =>
      formatted <~ format_issue issue ;;
      rest <~ format_issues issues' ;;
      Returns (formatted :: rest)
  end.

Local Open Scope py_scope.

Definition get_assigned_issues (jira_url : string) (username : pyval) : M (list pyval) :=
  try_except
    (let jql := "assignee = '" ++ fmt username
                  ++ "' AND resolution = Unresolved ORDER BY priority DESC, updated DESC" in
     let url := jira_url ++ "/rest/api/2/search" in
     data <- call (request url [("jql", PStr jql); ("maxResults", PInt 50)]) ;;
     issues <- call (and_then (getr data "issues" (PList [])) (iterate iter_other)) ;;
     call (format_issues issues))
    (fun e =>
       logger ERROR ("Error fetching assigned issues: " ++ exn_msg e) ;;;
       ret []).

Definition get_watching_issues (jira_url : string) (username : pyval) : M (list pyval) :=
  try_except
    (let jql := "watcher = '" ++ fmt username
                  ++ "' AND resolution = Unresolved ORDER BY updated DESC" in
     let url := jira_url ++ "/rest/api/2/search" in
     data <- call (request url [("jql", PStr jql); ("maxResults", PInt 20)]) ;;
     issues <- call (and_then (getr data "issues" (PList [])) (iterate iter_other)) ;;
     call (format_issues issues))
    (fun e =>
       logger ERROR ("Error fetching watching issues: " ++ exn_msg e) ;;;
       ret []).

(** [{**format_issue(issue), "sprint": sprint_name}] for each issue. *)
Fixpoint sprint_entries (sprint_name : pyval) (issues : list pyval) : result (list pyval) :=
  match issues with
  | [] => Returns []
  | issue :: issues' =>
      and_then (format_issue issue) (fun formatted =>
      and_then (match formatted with
                | PDict d => Returns (PDict (setitem "sprint" sprint_name d))
                | _ => Raises (Exception ("'" ++ type_name formatted
                                            ++ "' object is not a mapping"))
                end) (fun entry =>
      and_then (sprint_entries sprint_name issues') (fun rest =>
      Returns (entry :: rest))))
  end.

Definition get_sprint_issues (jira_url : string) (project : pyval) : M (list pyval) :=
  try_except
    (let url := jira_url ++ "/rest/agile/1.0/board" in
     response <- call (request url [("projectKeyOrId", project)]) ;;
     boards <- call (getr response "values" (PList [])) ;;
     if negb (truthy boards) then
       logger WARNING ("No boards found for project " ++ fmt project) ;;;
       ret []
     else
       board <- call (first_item first_other boards) ;;
       board_id <- call (getitem subscript_other board "id") ;;
       let url := jira_url ++ "/rest/agile/1.0/board/" ++ fmt board_id ++ "/sprint" in
       response <- call (request url [("state", PStr "active")]) ;;
       sprints <- call (getr response "values" (PList [])) ;;
       if negb (truthy sprints) then
         logger WARNING ("No active sprints found for board " ++ fmt board_id) ;;;
         ret []
       else
         sprint <- call (first_item first_other sprints) ;;
         sprint_id <- call (getitem subscript_other sprint "id") ;;
         let url := jira_url ++ "/rest/agile/1.0/sprint/" ++ fmt sprint_id ++ "/issue" in
         data <- call (request url [("maxResults", PInt 100)]) ;;
         sprint' <- call (first_item first_other sprints) ;;
         sprint_name <- call (getitem subscript_other sprint' "name") ;;
         issues <- call (and_then (getr data "issues" (PList [])) (iterate iter_other)) ;;
         call (sprint_entries sprint_name issues))
    (fun e =>
       logger ERROR ("Error fetching sprint issues for project " ++ fmt project
                       ++ ": " ++ exn_msg e) ;;;
       ret []).

(** One entry of the comprehension of [get_recent_activity]. *)
Definition activity_entry (jira_url : string) (issue : pyval) : result pyval :=
  and_then (getitem subscript_other issue "id") (fun id =>
  and_then (getitem subscript_other issue "key") (fun key =>
  and_then (getitem subscript_other issue "fields") (fun fields =>
  and_then (getitem subscript_other fields "summary") (fun summary =>
  and_then (getitem subscript_other issue "fields") (fun fields' =>
  and_then (getitem subscript_other fields' "updated") (fun updated =>
  and_then (getitem subscript_other issue "key") (fun key' =>
  Returns (PDict [("id", id); ("key", key); ("summary", summary); ("updated", updated);
                  ("type", PStr "issue_update");
                  ("url", PStr (jira_url ++ "/browse/" ++ fmt key'))])))))))).

Fixpoint activity_entries (jira_url : string) (issues : list pyval) : result (list pyval) :=
  match issues with
  | [] => Returns []
  | issue :: issues' =>
      and_then (activity_entry jira_url issue) (fun entry =>
      and_then (activity_entries jira_url issues') (fun rest =>
      Returns (entry :: rest)))
  end.

Definition get_recent_activity (jira_url : string) (username : pyval) : M (list pyval) :=
  try_except
    (let url := jira_url ++ "/activity" in
     let params := [("streams", PStr ("user IS " ++ fmt username)); ("maxResults", PInt 20)] in
     call (request url params) ;;;
     let jql := "updatedBy = '" ++ fmt username ++ "' OR commentedBy = '" ++ fmt username
                  ++ "' ORDER BY updated DESC" in
     let url := jira_url ++ "/rest/api/2/search" in
     data <- call (request url [("jql", PStr jql); ("maxResults", PInt 10)]) ;;
     issues <- call (and_then (getr data "issues" (PList [])) (iterate iter_other)) ;;
     call (activity_entries jira_url issues))
    (fun e =>
       logger ERROR ("Error fetching recent activity: " ++ exn_msg e) ;;;
       ret []).

(** The loop over the projects: [result["sprint_issues"].extend(...)]. *)
Fixpoint extend_sprint_issues (jira_url : string) (projects : list pyval)
    (sprint_issues : list pyval) : M (list pyval) :=
  match projects with
  | [] => ret sprint_issues
  | project :: projects' =>
      found <- get_sprint_issues jira_url project ;;
      extend_sprint_issues jira_url projects'
        (match found with
         | [] => sprint_issues
         | _ :: _ => sprint_issues ++ found
         end)%list
  end.

(** [collect_data].  The searches return lists, so the guards
    [if assigned_issues:], [if watching_issues:] and [if activity:] only
    decide between an empty list left in place and a non-empty one
    assigned. *)
Definition collect_data : M pyval :=
  match _session g with
  | None => ret (PDict [("error", PStr "Jira extension not properly initialized")])
  | Some _ =>
      url <- call (getr (_config g) "url" (PStr "")) ;;
      jira_url <- call (py_rstrip_slash url) ;;
      username <- call (getr (_config g) "username" PNone) ;;
      projects <- call (getr (_config g) "projects" (PList [])) ;;
      assigned_issues <- get_assigned_issues jira_url username ;;
      watching_issues <- get_watching_issues jira_url username ;;
      projects <- call (iterate iter_other projects) ;;
      sprint_issues <- extend_sprint_issues jira_url projects [] ;;
      activity <- get_recent_activity jira_url username ;;
      ret (PDict [("assigned_issues", PList assigned_issues);
                  ("watching_issues", PList watching_issues);
                  ("sprint_issues", PList sprint_issues);
                  ("recent_activity", PList activity)])
  end.

End Requests.
End Connector.

End Jira.

(** A sub-object of an issue that [format_issue] can read: missing or
    otherwise falsy, or a mapping. *)
Definition falsy_or_mapping (v : pyval) : Prop :=
  truthy v = false \/ exists d, v = PDict d.

(** The keys of every formatted issue, in order. *)
Definition issue_keys : list string :=
  ["id"; "key"; "summary"; "description"; "status"; "priority"; "assignee";
   "created"; "updated"; "due_date"; "url"; "issue_type"; "labels"].

(** [(v or {}).get(key, default)] for a sub-object that can be read. *)
Definition sub_name (v : pyval) (key : string) (default : pyval) : pyval :=
  match py_or v (PDict []) with
  | PDict d => get d key default
  | _ => default
  end.

(** A computation that does not end the process. *)
Definition no_exit {A} (c : M A) : Prop :=
  forall t n t', c t <> (SysExit n, t').

(** A computation that returns, whatever the trace. *)
Definition returns {A} (c : M A) : Prop :=
  forall t, exists a t', c t = (Ok a, t').

(** ** A Jira server, for the examples *)

Module JiraExample.

Definition not_iterable (v : pyval) : result (list pyval) :=
  Raises (Exception ("'" ++ type_name v ++ "' object is not iterable")).

Definition not_subscriptable (v : pyval) (k : string) : result pyval :=
  Raises (Exception ("'" ++ type_name v ++ "' object is not subscriptable")).

Definition no_first_item (v : pyval) : result pyval :=
  Raises (Exception "list index out of range").

(** A stand-in for the Base64 encoding. *)
Definition b64 (s : string) : string := "b64:" ++ s.

Definition config : pyval :=
  PDict [("url", PStr "https://jira.example.com/"); ("username", PStr "dev");
         ("api_token", PStr "secret"); ("projects", PList [PStr "CORE"])].

Definition vars : Jira.vars :=
  {| Jira._config := config; Jira._session := Some (PStr "Basic b64:dev:secret") |}.

(** An issue with no assignee, a status, and an estimate of 0 points. *)
Definition open_issue : dict pyval :=
  [("id", PStr "10001"); ("key", PStr "CORE-1");
   ("fields", PDict [("summary", PStr "Fix login");
                     ("assignee", PNone);
                     ("status", PDict [("name", PStr "In Progress")]);
                     ("customfield_10014", PStr "CORE-EPIC");
                     ("customfield_10002", PInt 0)])].

(** An issue whose fields came back as text. *)
Definition odd_issue : pyval :=
  PDict [("id", PStr "10002"); ("key", PStr "CORE-2"); ("fields", PStr "n/a")].

(** The server answers every search with the two issues above and has no
    board. *)
Definition http (session : pyval) (url : string) (params : dict pyval) : result pyval :=
  if String.eqb url "https://jira.example.com/rest/api/2/search" then
    Returns (PDict [("issues", PList [PDict open_issue; odd_issue])])
  else if String.eqb url "https://jira.example.com/rest/agile/1.0/board" then
    Returns (PDict [("values", PList [])])
  else Raises (Exception "404 Client Error").

End JiraExample.

(** ** The GitHub connector: the requests and the rest of [collect_data] *)

(** [s.split("/")]: [cur] is the part being read. *)
Fixpoint split_slash (s : string) (cur : string) : list string :=
  match s with
  | EmptyString => [cur]
  | String c s' =>
      if Ascii.eqb c "/"%char then cur :: split_slash s' ""
      else split_slash s' (cur ++ String c "")
  end.

(** [try: c] with the outcome as a value. *)
Definition attempt {A} (c : M A) : M (A + exn) :=
  try_except (a <- c ;; ret (inl a)) (fun e => ret (inr e)).

Module GitHubApi.

Section Connector.
(** [str(v)] of a value that is not a string. *)
Variable repr : pyval -> string.
(** Iteration, subscripting and membership outside lists and dictionaries. *)
Variable iter_other : pyval -> result (list pyval).
Variable subscript_other : pyval -> string -> result pyval.
Variable contains_other : pyval -> string -> result bool.
(** The [ValueError] of unpacking [n] parts into [owner, repo_name]. *)
Variable unpack_error : nat -> exn.
(** [session.get(url, params=params)], [raise_for_status()] and [json()]. *)
Variable http : pyval -> string -> dict pyval -> result pyval.
(** [(datetime.now() - timedelta(days=7)).isoformat()]. *)
Variable since : string.

Variable g : GitHub.vars.

Definition API_BASE : string := "https://api.github.com".

(** [f"{v}"]. *)
Definition fmt (v : pyval) : string :=
  match v with
  | PStr s => s
  | _ => repr v
  end.

Definition request (url : string) (params : dict pyval) : result pyval :=
  match GitHub._session g with
  | Some session => http session url params
  | None => Raises (Exception "'NoneType' object has no attribute 'get'")
  end.

Definition get_pull_requests (owner repo : string) : M pyval :=
  try_except
    (let url := API_BASE ++ "/repos/" ++ owner ++ "/" ++ repo ++ "/pulls" in
     call (request url [("state", PStr "open")]))
    (fun e =>
       logger ERROR ("Error fetching pull requests for " ++ owner ++ "/" ++ repo
                       ++ ": " ++ exn_msg e) ;;;
       ret (PList [])).

(** One entry of the comprehension of [get_pr_reviews]. *)
Definition review_entry (review : pyval) : result pyval :=
  and_then (getitem subscript_other review "user") (fun user =>
  and_then (getitem subscript_other user "login") (fun login =>
  and_then (getitem subscript_other review "state") (fun state =>
  and_then (getitem subscript_other review "submitted_at") (fun submitted_at =>
  Returns (PDict [("user", login); ("state", state); ("submitted_at", submitted_at)]))))).

Fixpoint review_entries (reviews : list pyval) : result (list pyval) :=
  match reviews with
  | [] => Returns []
  | review :: reviews' =>
      and_then (review_entry review) (fun entry =>
      and_then (review_entries reviews') (fun rest =>
      Returns (entry :: rest)))
  end.

Definition get_pr_reviews (owner repo : string) (pr_number : pyval) : M pyval :=
  try_except
    (let url := API_BASE ++ "/repos/" ++ owner ++ "/" ++ repo ++ "/pulls/"
                  ++ fmt pr_number ++ "/reviews" in
     reviews <- call (request url []) ;;
     reviews <- call (iterate iter_other reviews) ;;
     entries <- call (review_entries reviews) ;;
     ret (PList entries))
    (fun e =>
       logger ERROR ("Error fetching reviews for PR #" ++ fmt pr_number ++ " in "
                       ++ owner ++ "/" ++ repo ++ ": " ++ exn_msg e) ;;;
       ret (PList [])).

Definition get_issues (owner repo : string) : M pyval :=
  try_except
    (let url := API_BASE ++ "/repos/" ++ owner ++ "/" ++ repo ++ "/issues" in
     call (request url [("state", PStr "open")]))
    (fun e =>
       logger ERROR ("Error fetching issues for " ++ owner ++ "/" ++ repo
                       ++ ": " ++ exn_msg e) ;;;
       ret (PList [])).

Definition get_notifications : M pyval :=
  try_except
    (let url := API_BASE ++ "/notifications" in
     call (request url [("all", PStr "false"); ("since", PStr since)]))
    (fun e =>
       logger ERROR ("Error fetching notifications: " ++ exn_msg e) ;;;
       ret (PList [])).

(** [owner, repo_name = repo.split("/")]. *)
Definition split_repo (repo : pyval) : result (string * string) :=
  match repo with
  | PStr s =>
      match split_slash s "" with
      | [owner; repo_name] => Returns (owner, repo_name)
      | parts => Raises (unpack_error (length parts))
      end
  | _ => Raises (Exception ("'" ++ type_name repo ++ "' object has no attribute 'split'"))
  end.

(** The dictionary appended to [result["pull_requests"]] for one pull
    request. *)
Definition pull_request_entry (repo : pyval) (owner repo_name : string) (pr : pyval)
  : M pyval :=
  number <- call (getitem subscript_other pr "number") ;;
  title <- call (getitem subscript_other pr "title") ;;
  html_url <- call (getitem subscript_other pr "html_url") ;;
  created_at <- call (getitem subscript_other pr "created_at") ;;
  updated_at <- call (getitem subscript_other pr "updated_at") ;;
  user <- call (getitem subscript_other pr "user") ;;
  login <- call (getitem subscript_other user "login") ;;
  state <- call (getitem subscript_other pr "state") ;;
  number' <- call (getitem subscript_other pr "number") ;;
  reviews <- get_pr_reviews owner repo_name number' ;;
  draft <- call (getr pr "draft" (PBool false)) ;;
  ret (PDict [("repo", repo); ("id", number); ("title", title); ("url", html_url);
              ("created_at", created_at); ("updated_at", updated_at); ("user", login);
              ("state", state); ("reviews", reviews); ("is_draft", draft)]).

(** [[label["name"] for label in labels]]. *)
Fixpoint label_names (labels : list pyval) : result (list pyval) :=
  match labels with
  | [] => Returns []
  | label :: labels' =>
      and_then (getitem subscript_other label "name") (fun name =>
      and_then (label_names labels') (fun rest =>
      Returns (name :: rest)))
  end.

(** ["pull_request" in issue]. *)
Definition is_pull_request (issue : pyval) : result bool :=
  match issue with
  | PDict d => Returns (contains d "pull_request")
  | _ => contains_other issue "pull_request"
  end.

(** One round of the loop over the issues: nothing for a pull request, else
    the dictionary appended to [result["issues"]]. *)
Definition issue_entry (repo : pyval) (issue : pyval) : result (option pyval) :=
  and_then (is_pull_request issue) (fun skip =>
  if (skip : bool) then Returns None
  else
    and_then (getitem subscript_other issue "number") (fun number =>
    and_then (getitem subscript_other issue "title") (fun title =>
    and_then (getitem subscript_other issue "html_url") (fun html_url =>
    and_then (getitem subscript_other issue "created_at") (fun created_at =>
    and_then (getitem subscript_other issue "updated_at") (fun updated_at =>
    and_then (getitem subscript_other issue "user") (fun user =>
    and_then (getitem subscript_other user "login") (fun login =>
    and_then (getitem subscript_other issue "state") (fun state =>
    and_then (getitem subscript_other issue "labels") (fun labels =>
    and_then (iterate iter_other labels) (fun labels =>
    and_then (label_names labels) (fun names =>
    Returns (Some (PDict [("repo", repo); ("id", number); ("title", title);
                          ("url", html_url); ("created_at", created_at);
                          ("updated_at", updated_at); ("user", login);
                          ("state", state); ("labels", PList names)])))))))))))))).

(** The loop [for pr in prs: result["pull_requests"].append(...)]: what has
    been appended stays when a round raises. *)
Fixpoint append_pull_requests (repo : pyval) (owner repo_name : string)
    (prs : list pyval) (acc : list pyval) : M (list pyval * option exn) :=
  match prs with
  | [] => ret (acc, None)
  | pr :: prs' =>
      r <- attempt (pull_request_entry repo owner repo_name pr) ;;
      match r with
      | inl entry => append_pull_requests repo owner repo_name prs' (acc ++ [entry])
      | inr e => ret (acc, Some e)
      end
  end.

Fixpoint append_issues (repo : pyval) (issues : list pyval) (acc : list pyval)
  : list pyval * option exn :=
  match issues with
  | [] => (acc, None)
  | issue :: issues' =>
      match issue_entry repo issue with
      | Returns (Some entry) => append_issues repo issues' (acc ++ [entry])
      | Returns None => append_issues repo issues' acc
      | Raises e => (acc, Some e)
      end
  end.

(** The two lists of [result] filled by the loop over the repositories. *)
Definition lists : Type := (list pyval * list pyval)%type.

(** The handler of the [try] around one repository. *)
Definition failed (repo : pyval) (e : exn) (acc : lists) : M lists :=
  logger ERROR ("Error fetching data for " ++ fmt repo ++ ": " ++ exn_msg e) ;;;
  ret acc.

(** One round of the loop over the repositories. *)
Definition repo_round (repo : pyval) (acc : lists) : M lists :=
  match split_repo repo with
  | Raises e => failed repo e acc
  | Returns (owner, repo_name) =>
      prs <- get_pull_requests owner repo_name ;;
      r <- (if truthy prs then
              match iterate iter_other prs with
              | Returns items => append_pull_requests repo owner repo_name items (fst acc)
              | Raises e => ret (fst acc, Some e)
              end
            else ret (fst acc, None)) ;;
      match r with
      | (pull_requests, Some e) => failed repo e (pull_requests, snd acc)
      | (pull_requests, None) =>
          issues <- get_issues owner repo_name ;;
          let r := if truthy issues then
                     match iterate iter_other issues with
                     | Returns items => append_issues repo items (snd acc)
                     | Raises e => (snd acc, Some e)
                     end
                   else (snd acc, None) in
          match r with
          | (issues, Some e) => failed repo e (pull_requests, issues)
          | (issues, None) => ret (pull_requests, issues)
          end
      end
  end.

Fixpoint repo_rounds (repos : list pyval) (acc : lists) : M lists :=
  match repos with
  | [] => ret acc
  | repo :: repos' =>
      acc <- repo_round repo acc ;;
      repo_rounds repos' acc
  end.

(** The dictionary appended to [result["notifications"]]. *)
Definition notification_entry (notification : pyval) : result pyval :=
  and_then (getitem subscript_other notification "id") (fun id =>
  and_then (getitem subscript_other notification "repository") (fun repository =>
  and_then (getitem subscript_other repository "full_name") (fun full_name =>
  and_then (getitem subscript_other notification "subject") (fun subject =>
  and_then (getitem subscript_other subject "title") (fun title =>
  and_then (getitem subscript_other notification "reason") (fun reason =>
  and_then (getitem subscript_other notification "updated_at") (fun updated_at =>
  and_then (getitem subscript_other notification "subject") (fun subject' =>
  and_then (getitem subscript_other subject' "url") (fun url =>
  and_then (getitem subscript_other notification "subject") (fun subject'' =>
  and_then (getitem subscript_other subject'' "type") (fun kind =>
  Returns (PDict [("id", id); ("repo", full_name); ("subject", title); ("reason", reason);
                  ("updated_at", updated_at); ("url", url); ("type", kind)])))))))))))).

Fixpoint notification_entries (notifications : list pyval) : result (list pyval) :=
  match notifications with
  | [] => Returns []
  | notification :: notifications' =>
      and_then (notification_entry notification) (fun entry =>
      and_then (notification_entries notifications') (fun rest =>
      Returns (entry :: rest)))
  end.

(** [collect_data] after its guard on the session. *)
Definition collect : M pyval :=
  repositories <- call (getr (GitHub._config g) "repositories" (PList [])) ;;
  (if negb (truthy repositories) then logger WARNING "No repositories configured"
   else ret tt) ;;;
  repos <- call (iterate iter_other repositories) ;;
  acc <- repo_rounds repos ([], []) ;;
  notifications <- get_notifications ;;
  entries <- (if truthy notifications then
                items <- call (iterate iter_other notifications) ;;
                call (notification_entries items)
              else ret []) ;;
  ret (PDict [("pull_requests", PList (fst acc));
              ("issues", PList (snd acc));
              ("notifications", PList entries)]).

End Connector.

End GitHubApi.

(** The number of ["/"] in a string. *)
Fixpoint count_slash (s : string) : nat :=
  match s with
  | EmptyString => 0
  | String c s' => (if Ascii.eqb c "/"%char then 1 else 0) + count_slash s'
  end.

(** ** The Slack connector: [is_important_message] *)

(** [needle in hay] for two strings. *)
Fixpoint substring (needle hay : string) : bool :=
  String.prefix needle hay ||
  match hay with
  | EmptyString => false
  | String _ hay' => substring needle hay'
  end.

Module Slack.

Section Connector.
(** [s.lower()]. *)
Variable lower : string -> string.
(** [a == b] on values. *)
Variable py_eq : pyval -> pyval -> bool.
(** Iteration, [len] and membership outside lists and dictionaries, and
    [v > 0] outside numbers. *)
Variable iter_other : pyval -> result (list pyval).
Variable len_other : pyval -> result nat.
Variable in_other : pyval -> pyval -> result bool.
Variable positive_other : pyval -> result bool.
(** The module-level [_config]. *)
Variable _config : pyval.

Local Open Scope result_scope.

(** [len(v)]. *)
Definition py_len (v : pyval) : result nat :=
  match v with
  | PList l => Returns (length l)
  | PDict d => Returns (length d)
  | _ => len_other v
  end.

(** [v > 0]. *)
Definition positive (v : pyval) : result bool :=
  match v with
  | PInt z => Returns (Z.ltb 0 z)
  | PBool b => Returns b
  | _ => positive_other v
  end.

(** [x in container]. *)
Definition py_in (x container : pyval) : result bool :=
  match container with
  | PList l => Returns (existsb (py_eq x) l)
  | _ => in_other x container
  end.

Definition marking_reactions : list string :=
  ["important"; "alert"; "warning"; "fire"; "exclamation"].

Definition urgent_keywords : list string :=
  ["urgent"; "asap"; "important"; "critical"; "deadline"; "help"; "broken"; "failed";
   "error"].

(** The loop over the reactions: [true] as soon as one has a marking
    name. *)
Fixpoint marked (reactions : list pyval) : result bool :=
  match reactions with
  | [] => Returns false
  | reaction :: reactions' =>
      name <~ getr reaction "name" PNone ;;
      if existsb (eq_str name) marking_reactions then Returns true
      else marked reactions'
  end.

Definition is_important_message (message user_id : pyval) : result bool :=
  reactions <~ getr message "reactions" PNone ;;
  has_reactions <~ (if truthy reactions then
                      reactions' <~ getr message "reactions" (PList []) ;;
                      n <~ py_len reactions' ;;
                      Returns (Nat.ltb 0 n)
                    else Returns false) ;;
  if (has_reactions : bool) then Returns true
  else
    reactions <~ getr message "reactions" (PList []) ;;
    reactions <~ iterate iter_other reactions ;;
    by_reaction <~ marked reactions ;;
    if (by_reaction : bool) then Returns true
    else
      text <~ getr message "text" (PStr "") ;;
      text <~ match text with
              | PStr s => Returns (lower s)
              | _ => Raises (Exception ("'" ++ type_name text
                                          ++ "' object has no attribute 'lower'"))
              end ;;
      if existsb (fun keyword => substring keyword text) urgent_keywords then Returns true
      else
        thread_ts <~ getr message "thread_ts" PNone ;;
        in_thread <~ (if truthy thread_ts then
                        reply_count <~ getr message "reply_count" (PInt 0) ;;
                        positive reply_count
                      else Returns false) ;;
        if (in_thread : bool) then Returns true
        else
          managers <~ getr _config "managers" (PList []) ;;
          user <~ getr message "user" PNone ;;
          from_manager <~ py_in user managers ;;
          Returns from_manager.

End Connector.

End Slack.

(** ** A GitHub server, for the examples *)

Module GitHubExample.

Definition unpack_error (n : nat) : exn :=
  Exception "wrong number of values to unpack (expected 2)".

Definition vars : GitHub.vars :=
  {| GitHub._config := PDict [("token", PStr "ghp_1");
                              ("repositories", PList [PStr "octo/app"])];
     GitHub._session := Some (PStr "ghp_1") |}.

(** An item of the issues answer that is in fact a pull request, and that
    has none of the fields of an issue. *)
Definition pull_request_item : dict pyval :=
  [("pull_request", PDict [("url", PStr "https://api.github.com/repos/octo/app/pulls/7")])].

Definition issue_item : pyval :=
  PDict [("number", PInt 3); ("title", PStr "Crash on start");
         ("html_url", PStr "https://github.com/octo/app/issues/3");
         ("created_at", PStr "2025-01-01"); ("updated_at", PStr "2025-01-02");
         ("user", PDict [("login", PStr "ana")]); ("state", PStr "open");
         ("labels", PList [PDict [("name", PStr "bug")]])].

(** A notification without its repository. *)
Definition bare_notification : pyval := PDict [("id", PStr "1")].

Definition http (session : pyval) (url : string) (params : dict pyval) : result pyval :=
  if String.eqb url "https://api.github.com/repos/octo/app/issues" then
    Returns (PList [PDict pull_request_item; issue_item])
  else if String.eqb url "https://api.github.com/notifications" then
    Returns (PList [bare_notification])
  else Raises (Exception "404 Client Error").

End GitHubExample.

(** ** [install_extension] *)

Definition dq : string := String (ascii_of_nat 34) EmptyString.

(** The lines of the template, [{name}] filled in and the doubled braces
    undone, as [template.format(name=extension_name)] gives them. *)
Definition template_lines (name : string) : list string :=
  ["#!/usr/bin/env python3";
   "    " ++ dq ++ dq ++ dq;
   "    DevAssist Extension: " ++ name;
   "    " ++ dq ++ dq ++ dq;
   "";
   "    import logging";
   "    from typing import Dict, Any";
   "";
   "    logger = logging.getLogger(" ++ dq ++ "devassist.extensions." ++ name ++ dq ++ ")";
   "";
   "    def initialize(config: Dict[str, Any]):";
   "        " ++ dq ++ dq ++ dq ++ "Initialize the extension with the given configuration"
     ++ dq ++ dq ++ dq;
   "        logger.info(" ++ dq ++ "Initializing " ++ name ++ " extension" ++ dq ++ ")";
   "        # TODO: Implement initialization";
   "        ";
   "    def collect_data() -> Dict[str, Any]:";
   "        " ++ dq ++ dq ++ dq ++ "Collect data from the service" ++ dq ++ dq ++ dq;
   "        logger.info(" ++ dq ++ "Collecting data from " ++ name ++ dq ++ ")";
   "        # TODO: Implement data collection";
   "        ";
   "        # Example:";
   "        return {";
   "            " ++ dq ++ "items" ++ dq ++ ": [";
   "                # Your data here";
   "            ]";
   "        }"].

(** Every line ends in a newline; the closing quotes of the literal sit
    after four spaces. *)
Definition template (name : string) : string :=
  join (map (fun line => line ++ nl) (template_lines name)) ++ "    ".

Section InstallExtension.
Variable W : World.
(** [open(path, 'w')] and [f.write(text)]; [str(path)]. *)
Variable write_text : path -> string -> result unit.
Variable path_str : path -> string.
(** [name in v] and [v[name] = x] for a value [v] that is not a
    dictionary. *)
Variable in_other : string -> pyval -> result bool.
Variable setitem_error : pyval -> exn.

(** [extension_name in extensions]. *)
Definition configured (extension_name : string) (extensions : pyval) : result bool :=
  match extensions with
  | PDict es => Returns (contains es extension_name)
  | _ => in_other extension_name extensions
  end.

(** The entry written for a new extension. *)
Definition new_entry : pyval := PDict [("enabled", PBool true); ("config", PDict [])].

(** The three statements that add the extension to [app.config]. *)
Definition add_to_config (cfg : pyval) (extension_name : string) : M pyval :=
  match cfg with
  | PDict c =>
      let c := if contains c "extensions" then c else setitem "extensions" (PDict []) c in
      match get c "extensions" PNone with
      | PDict es =>
          ret (PDict (setitem "extensions" (PDict (setitem extension_name new_entry es)) c))
      | other => raise (setitem_error other)
      end
  | _ => raise (Exception ("argument of type '" ++ type_name cfg ++ "' is not iterable"))
  end.

(** [install_extension]; the result is the application object after it. *)
Definition install_extension (app : DevAssist) (extension_name : string) : M DevAssist :=
  app <- initialize W app ;;
  print ("Installing extension: " ++ extension_name) ;;;
  let extension_file := user_path extension_name in
  file_exists <- call (path_exists W extension_file) ;;
  if (file_exists : bool) then
    print ("Extension " ++ extension_name ++ " already exists") ;;;
    ret app
  else
    call (write_text extension_file (template extension_name)) ;;;
    print ("Extension template created at " ++ path_str extension_file) ;;;
    print "Edit this file to implement your extension functionality" ;;;
    extensions <- py_get (config app) "extensions" (PDict []) ;;
    present <- call (configured extension_name extensions) ;;
    if (present : bool) then ret app
    else
      cfg <- add_to_config (config app) extension_name ;;
      let app := set_config app cfg in
      save_config W app ;;;
      print ("Added " ++ extension_name ++ " to configuration") ;;;
      ret app.

End InstallExtension.

(** ** Concrete parameters for the examples of the connectors *)

Module InstallExample.

Definition path_str (p : path) : string :=
  match p with
  | BuiltinExtensions file => "/opt/devassist/extensions/" ++ file
  | UserExtensions file => "/home/dev/.devassist/extensions/" ++ file
  end.

Definition writable (p : path) (text : string) : result unit := Returns tt.

Definition read_only (p : path) (text : string) : result unit :=
  Raises (Exception "Permission denied").

Definition not_a_container (name : string) (v : pyval) : result bool :=
  Raises (Exception ("argument of type '" ++ type_name v ++ "' is not iterable")).

Definition no_item_assignment (v : pyval) : exn :=
  Exception ("'" ++ type_name v ++ "' object does not support item assignment").

End InstallExample.

Module SlackExample.

(** Lowercasing of the letters A to Z. *)
Definition lower_ascii (c : ascii) : ascii :=
  let n := nat_of_ascii c in
  if (Nat.leb 65 n && Nat.leb n 90)%bool then ascii_of_nat (n + 32) else c.

Fixpoint lower (s : string) : string :=
  match s with
  | EmptyString => EmptyString
  | String c s' => String (lower_ascii c) (lower s')
  end.

Definition py_eq (a b : pyval) : bool :=
  match a, b with
  | PStr x, PStr y => String.eqb x y
  | _, _ => false
  end.

Definition not_iterable (v : pyval) : result (list pyval) :=
  Raises (Exception ("'" ++ type_name v ++ "' object is not iterable")).

Definition no_len (v : pyval) : result nat :=
  Raises (Exception ("object of type '" ++ type_name v ++ "' has no len()")).

Definition not_a_container (x v : pyval) : result bool :=
  Raises (Exception ("argument of type '" ++ type_name v ++ "' is not iterable")).

Definition not_ordered (v : pyval) : result bool :=
  Raises (Exception ("'>' not supported between instances of '" ++ type_name v
                       ++ "' and 'int'")).

End SlackExample.

(** ** The Slack connector: the requests, [format_message] and [collect_data] *)

Module SlackApi.

(** The module-level variables; a session is identified by its token. *)
Record vars : Type := {
  _config : pyval;
  _session : option pyval
}.

(** The four lists of [result]. *)
Record lists : Type := {
  mentions : list pyval;
  direct_messages : list pyval;
  unread_channels : list pyval;
  important_messages : list pyval
}.

Section Connector.
(** [str(v)] of a value that is not a string; [s.lower()]; [a == b]. *)
Variable repr : pyval -> string.
Variable lower : string -> string.
Variable py_eq : pyval -> pyval -> bool.
(** Iteration, subscripting, [len], membership and [v > 0] outside the
    values the connector expects; the [TypeError] of adding a count that
    is not a number. *)
Variable iter_other : pyval -> result (list pyval).
Variable subscript_other : pyval -> string -> result pyval.
Variable len_other : pyval -> result nat.
Variable in_other : pyval -> pyval -> result bool.
Variable positive_other : pyval -> result bool.
Variable add_error : pyval -> exn.
(** [session.get(url, params=params)], [raise_for_status()] and [json()]. *)
Variable http : pyval -> string -> dict pyval -> result pyval.
(** [str(time.time() - 86400)] and
    [datetime.fromtimestamp(float(ts)).isoformat()]. *)
Variable oldest : string.
Variable iso_time : pyval -> result string.

Variable g : vars.

Local Open Scope result_scope.

(** [f"{v}"]. *)
Definition fmt (v : pyval) : string :=
  match v with
  | PStr s => s
  | _ => repr v
  end.

Definition request (url : string) (params : dict pyval) : result pyval :=
  match _session g with
  | Some session => http session url params
  | None => Raises (Exception "'NoneType' object has no attribute 'get'")
  end.

Definition get_channel_type (conversation : pyval) : result string :=
  is_im <~ getr conversation "is_im" PNone ;;
  if truthy is_im then Returns "direct_message"
  else
    is_mpim <~ getr conversation "is_mpim" PNone ;;
    if truthy is_mpim then Returns "group_message"
    else
      is_private <~ getr conversation "is_private" PNone ;;
      if truthy is_private then Returns "private_channel"
      else Returns "public_channel".

Definition get_channel_url (channel_id : pyval) : result string :=
  team_id <~ getr (_config g) "team_id" (PStr "T0123456789") ;;
  Returns ("https://slack.com/app_redirect?channel=" ++ fmt channel_id
             ++ "&team=" ++ fmt team_id).

(** The timestamp goes through [replace], which only strings have, and
    then into the URL as it was given. *)
Definition get_message_url (channel_id timestamp : pyval) : result string :=
  team_id <~ getr (_config g) "team_id" (PStr "T0123456789") ;;
  match timestamp with
  | PStr ts =>
      Returns ("https://slack.com/app_redirect?channel=" ++ fmt channel_id
                 ++ "&message_ts=" ++ ts ++ "&team=" ++ fmt team_id)
  | _ => Raises (Exception ("'" ++ type_name timestamp
                              ++ "' object has no attribute 'replace'"))
  end.

(** [sum(reaction.get("count", 0) for reaction in reactions)]. *)
Fixpoint sum_counts (reactions : list pyval) (total : Z) : result Z :=
  match reactions with
  | [] => Returns total
  | reaction :: reactions' =>
      count <~ getr reaction "count" (PInt 0) ;;
      match count with
      | PInt z => sum_counts reactions' (total + z)
      | PBool b => sum_counts reactions' (total + (if b then 1 else 0))
      | _ => Raises (add_error count)
      end
  end.

Definition format_message (message channel_id channel_name : pyval) : result pyval :=
  ts <~ getr message "ts" (PStr "0") ;;
  thread_ts <~ getr message "thread_ts" PNone ;;
  user <~ getr message "user" PNone ;;
  text <~ getr message "text" (PStr "") ;;
  time <~ iso_time ts ;;
  attachments <~ getr message "attachments" (PList []) ;;
  n <~ Slack.py_len len_other attachments ;;
  reactions <~ getr message "reactions" (PList []) ;;
  reactions <~ iterate iter_other reactions ;;
  reaction_count <~ sum_counts reactions 0 ;;
  url <~ get_message_url channel_id ts ;;
  let formatted :=
    [("id", ts); ("channel_id", channel_id); ("channel_name", channel_name);
     ("user", user); ("text", text); ("timestamp", ts); ("time", PStr time);
     ("has_attachments", PBool (Nat.ltb 0 n)); ("reaction_count", PInt reaction_count);
     ("url", PStr url)] in
  if truthy thread_ts then
    let formatted := setitem "is_thread" (PBool true) formatted in
    let formatted := setitem "thread_id" thread_ts formatted in
    reply_count <~ getr message "reply_count" (PInt 0) ;;
    let formatted := setitem "reply_count" reply_count formatted in
    thread_url <~ get_message_url channel_id thread_ts ;;
    Returns (PDict (setitem "thread_url" (PStr thread_url) formatted))
  else
    Returns (PDict (setitem "is_thread" (PBool false) formatted)).

Definition skipped_subtypes : list string :=
  ["bot_message"; "channel_join"; "channel_leave"].

(** [needle in text] for the mention. *)
Definition mentioned (needle : string) (text : pyval) : result bool :=
  match text with
  | PStr s => Returns (substring needle s)
  | PList l => Returns (existsb (py_eq (PStr needle)) l)
  | _ => in_other (PStr needle) text
  end.

(** One round of the loop over the messages of a conversation. *)
Definition message_round (user_id conversation channel_id channel_name message : pyval)
    (res : lists) : result lists :=
  subtype <~ getr message "subtype" PNone ;;
  if existsb (eq_str subtype) skipped_subtypes then Returns res
  else
    text <~ getr message "text" (PStr "") ;;
    is_mention <~ mentioned ("<@" ++ fmt user_id ++ ">") text ;;
    res <~ (if (is_mention : bool) then
                 formatted <~ format_message message channel_id channel_name ;;
                 Returns {| mentions := mentions res ++ [formatted];
                            direct_messages := direct_messages res;
                            unread_channels := unread_channels res;
                            important_messages := important_messages res |}
               else Returns res) ;;
    is_im <~ getr conversation "is_im" PNone ;;
    res <~ (if truthy is_im then
                 formatted <~ format_message message channel_id channel_name ;;
                 Returns {| mentions := mentions res;
                            direct_messages := direct_messages res ++ [formatted];
                            unread_channels := unread_channels res;
                            important_messages := important_messages res |}
               else Returns res) ;;
    important <~ Slack.is_important_message lower py_eq iter_other len_other in_other
                   positive_other (_config g) message user_id ;;
    if (important : bool) then
      formatted <~ format_message message channel_id channel_name ;;
      Returns {| mentions := mentions res;
                 direct_messages := direct_messages res;
                 unread_channels := unread_channels res;
                 important_messages := important_messages res ++ [formatted] |}
    else Returns res.

Fixpoint message_rounds (user_id conversation channel_id channel_name : pyval)
    (messages : list pyval) (res : lists) : result lists :=
  match messages with
  | [] => Returns res
  | message :: messages' =>
      res <~ message_round user_id conversation channel_id channel_name message res ;;
      message_rounds user_id conversation channel_id channel_name messages' res
  end.

Local Open Scope py_scope.

Definition get_user_id : M pyval :=
  try_except
    (data <- call (request "https://slack.com/api/auth.test" []) ;;
     ok <- call (getr data "ok" PNone) ;;
     if truthy ok then call (getr data "user_id" PNone)
     else
       error <- call (getr data "error" PNone) ;;
       logger ERROR ("Slack API error: " ++ fmt error) ;;;
       ret PNone)
    (fun e =>
       logger ERROR ("Error getting user ID: " ++ exn_msg e) ;;;
       ret PNone).

Definition get_conversations (user_id : pyval) : M pyval :=
  try_except
    (let params := [("types", PStr "public_channel,private_channel,mpim,im");
                    ("exclude_archived", PStr "true");
                    ("limit", PInt 100)] in
     data <- call (request "https://slack.com/api/conversations.list" params) ;;
     ok <- call (getr data "ok" PNone) ;;
     if truthy ok then call (getr data "channels" (PList []))
     else
       error <- call (getr data "error" PNone) ;;
       logger ERROR ("Slack API error: " ++ fmt error) ;;;
       ret (PList []))
    (fun e =>
       logger ERROR ("Error getting conversations: " ++ exn_msg e) ;;;
       ret (PList [])).

Definition get_channel_history (channel_id : pyval) : M pyval :=
  try_except
    (let params := [("channel", channel_id); ("limit", PInt 50);
                    ("oldest", PStr oldest)] in
     data <- call (request "https://slack.com/api/conversations.history" params) ;;
     ok <- call (getr data "ok" PNone) ;;
     if truthy ok then call (getr data "messages" (PList []))
     else
       error <- call (getr data "error" PNone) ;;
       logger ERROR ("Slack API error: " ++ fmt error) ;;;
       ret (PList []))
    (fun e =>
       logger ERROR ("Error getting channel history: " ++ exn_msg e) ;;;
       ret (PList [])).

(** Whether the loop passes over a conversation: a channel list is
    configured, the name is not in it, and the conversation is not a direct
    message. *)
Definition filtered_out (channels channel_name conversation : pyval) : result bool :=
  if truthy channels then
    and_then (Slack.py_in py_eq in_other channel_name channels) (fun listed =>
    if (listed : bool) then Returns false
    else and_then (getr conversation "is_im" PNone) (fun is_im =>
         Returns (negb (truthy is_im))))
  else Returns false.

(** The entry appended to [result["unread_channels"]]. *)
Definition unread_entry (conversation channel_id channel_name : pyval) : result pyval :=
  and_then (getr conversation "unread_count" (PInt 0)) (fun unread_count =>
  and_then (get_channel_type conversation) (fun type_of =>
  and_then (get_channel_url channel_id) (fun url =>
  Returns (PDict [("id", channel_id); ("name", channel_name);
                  ("unread_count", unread_count); ("type", PStr type_of);
                  ("url", PStr url)])))).

(** One round of the loop over the conversations. *)
Definition conversation_round (user_id channels conversation : pyval) (res : lists)
  : M lists :=
  channel_id <- call (getitem subscript_other conversation "id") ;;
  channel_name <- call (getr conversation "name" (PStr "DM")) ;;
  skip <- call (filtered_out channels channel_name conversation) ;;
  if (skip : bool) then ret res
  else
    unread_count <- call (getr conversation "unread_count" (PInt 0)) ;;
    unread <- call (Slack.positive positive_other unread_count) ;;
    res <- (if (unread : bool) then
                 entry <- call (unread_entry conversation channel_id channel_name) ;;
                 ret {| mentions := mentions res;
                        direct_messages := direct_messages res;
                        unread_channels := unread_channels res ++ [entry];
                        important_messages := important_messages res |}
               else ret res) ;;
    messages <- get_channel_history channel_id ;;
    messages <- call (iterate iter_other messages) ;;
    call (message_rounds user_id conversation channel_id channel_name messages res).

Fixpoint conversation_rounds (user_id channels : pyval) (conversations : list pyval)
    (res : lists) : M lists :=
  match conversations with
  | [] => ret res
  | conversation :: conversations' =>
      res <- conversation_round user_id channels conversation res ;;
      conversation_rounds user_id channels conversations' res
  end.

Definition collect_data : M pyval :=
  match _session g with
  | None => ret (PDict [("error", PStr "Slack extension not properly initialized")])
  | Some _ =>
      user_id <- get_user_id ;;
      if negb (truthy user_id) then
        logger ERROR "Could not get Slack user ID" ;;;
        ret (PDict [("error", PStr "Could not get Slack user ID")])
      else
        channels <- call (getr (_config g) "channels" (PList [])) ;;
        conversations <- get_conversations user_id ;;
        (if negb (truthy conversations) then logger WARNING "No conversations found"
         else ret tt) ;;;
        conversations <- call (iterate iter_other conversations) ;;
        res <- conversation_rounds user_id channels conversations
                    {| mentions := []; direct_messages := [];
                       unread_channels := []; important_messages := [] |} ;;
        ret (PDict [("mentions", PList (mentions res));
                    ("direct_messages", PList (direct_messages res));
                    ("unread_channels", PList (unread_channels res));
                    ("important_messages", PList (important_messages res))])
  end.

End Connector.

End SlackApi.

(** A Slack workspace whose token has been revoked: every request is
    refused. *)
Module SlackApiExample.

Definition vars : SlackApi.vars :=
  {| SlackApi._config := PDict [("token", PStr "xoxp-1");
                                ("channels", PList [PStr "general"])];
     SlackApi._session := Some (PStr "xoxp-1") |}.

Definition add_error (v : pyval) : exn :=
  Exception ("unsupported operand type(s) for +: 'int' and '" ++ type_name v ++ "'").

Definition http (session : pyval) (url : string) (params : dict pyval) : result pyval :=
  Raises (Exception "401 Client Error").

Definition oldest : string := "1735689600.0".

(** A stand-in for the conversion of a timestamp. *)
Definition iso_time (ts : pyval) : result string :=
  match ts with
  | PStr _ => Returns "2025-01-02T00:00:00"
  | _ => Raises (Exception "float() argument must be a string or a real number")
  end.

Definition empty : SlackApi.lists :=
  {| SlackApi.mentions := []; SlackApi.direct_messages := [];
     SlackApi.unread_channels := []; SlackApi.important_messages := [] |}.

(** A bot message whose text is null. *)
Definition bot_message : dict pyval :=
  [("subtype", PStr "bot_message"); ("text", PNone); ("ts", PStr "1735776000.000000")].

Definition direct_message : pyval :=
  PDict [("user", PStr "U2"); ("text", PStr "lunch?"); ("ts", PStr "1735776000.000000")].

Definition direct_conversation : pyval :=
  PDict [("id", PStr "D1"); ("is_im", PBool true)].

(** A channel that is not on the configured list. *)
Definition random_channel : dict pyval :=
  [("id", PStr "C2"); ("name", PStr "random"); ("unread_count", PInt 4)].

End SlackApiExample.

(** * Properties *)

Local Arguments String.append : simpl never.

(** ** Dictionaries *)

Section DictFacts.
Context {A : Type}.
Implicit Types (d : dict A) (k : string) (v : A).

Lemma lookup_setitem_eq d k v : lookup (setitem k v d) k = Some v.
Proof.
  induction d as [|[k' v'] d IH]; simpl.
  - now rewrite String.eqb_refl.
  - destruct (String.eqb k k') eqn:E; simpl; rewrite E; auto.
Qed.

Lemma lookup_setitem_ne d k k' v :
  k <> k' -> lookup (setitem k v d) k' = lookup d k'.
Proof.
  intros Hne. induction d as [|[k0 v0] d IH]; simpl.
  - destruct (String.eqb k' k) eqn:E; auto.
    apply String.eqb_eq in E. congruence.
  - destruct (String.eqb k k0) eqn:E; simpl.
    + apply String.eqb_eq in E. subst k0.
      destruct (String.eqb k' k) eqn:E'; auto.
      apply String.eqb_eq in E'. congruence.
    + now rewrite IH.
Qed.

Lemma lookup_None_keys d k : lookup d k = None <-> ~ In k (keys d).
Proof.
  induction d as [|[k' v'] d IH]; simpl.
  - tauto.
  - destruct (String.eqb k k') eqn:E.
    + apply String.eqb_eq in E. subst. split; [discriminate | tauto].
    + apply String.eqb_neq in E. rewrite IH. split.
      * intros H [H'|H']; [congruence | tauto].
      * tauto.
Qed.

Lemma contains_keys d k : contains d k = true <-> In k (keys d).
Proof.
  unfold contains. pose proof (lookup_None_keys d k) as H.
  destruct (lookup d k); split; intros H'; auto; try discriminate.
  - destruct (in_dec string_dec k (keys d)); auto.
    apply H in n. discriminate.
  - apply H in H'; tauto.
Qed.

Lemma keys_setitem d k v k' :
  In k' (keys (setitem k v d)) <-> k' = k \/ In k' (keys d).
Proof.
  induction d as [|[k0 v0] d IH]; simpl.
  - intuition.
  - destruct (String.eqb k k0) eqn:E; simpl.
    + apply String.eqb_eq in E. subst. intuition.
    + rewrite IH. intuition.
Qed.

(** An assignment to a key that is present keeps the keys and their order. *)
Lemma keys_setitem_present d k v :
  In k (keys d) -> keys (setitem k v d) = keys d.
Proof.
  induction d as [|[k0 v0] d IH]; simpl; [tauto|].
  intros H. destruct (String.eqb k k0) eqn:E; simpl; auto.
  apply String.eqb_neq in E. f_equal. apply IH. intuition congruence.
Qed.

Lemma keys_setitem_fresh d k v :
  ~ In k (keys d) -> keys (setitem k v d) = (keys d ++ [k])%list.
Proof.
  induction d as [|[k0 v0] d IH]; simpl; auto.
  intros H. destruct (String.eqb k k0) eqn:E; simpl.
  - apply String.eqb_eq in E. subst. tauto.
  - f_equal. apply IH. tauto.
Qed.

Lemma lookup_In d k v : lookup d k = Some v -> In (k, v) d.
Proof.
  induction d as [|[k' v'] d IH]; simpl; [discriminate|].
  destruct (String.eqb k k') eqn:E.
  - apply String.eqb_eq in E. intros [= ->]. subst. auto.
  - auto.
Qed.

Lemma In_lookup d k v : NoDup (keys d) -> In (k, v) d -> lookup d k = Some v.
Proof.
  induction d as [|[k' v'] d IH]; simpl; [tauto|].
  intros Hnd [H|H]; inversion Hnd; subst.
  - injection H as -> ->. now rewrite String.eqb_refl.
  - destruct (String.eqb k k') eqn:E; auto.
    apply String.eqb_eq in E. subst. exfalso. apply H2.
    change k' with (fst (k', v)). now apply in_map.
Qed.

(** [{**base, **extra}] read at a key: the last entry of [extra] for it,
    else what [base] has. *)
Lemma lookup_update_absent (base extra : dict A) k :
  ~ In k (keys extra) -> lookup (update base extra) k = lookup base k.
Proof.
  unfold update. revert base.
  induction extra as [|[k' v'] extra IH]; simpl; intros base H; auto.
  rewrite IH by tauto. apply lookup_setitem_ne. intuition.
Qed.

Lemma lookup_update_present (base extra : dict A) k v :
  NoDup (keys extra) -> lookup extra k = Some v ->
  lookup (update base extra) k = Some v.
Proof.
  unfold update. revert base.
  induction extra as [|[k' v'] extra IH]; simpl; intros base Hnd H; [discriminate|].
  inversion Hnd; subst.
  destruct (String.eqb k k') eqn:E.
  - apply String.eqb_eq in E. subst k'. injection H as ->.
    fold (update (setitem k v base) extra).
    rewrite lookup_update_absent by assumption. apply lookup_setitem_eq.
  - now apply IH.
Qed.

End DictFacts.

(** ** Loops that assign into a dictionary *)

Section AssignAll.
Context {A B : Type}.
Variable f : string -> B -> option A.

Lemma assign_all_app items1 items2 (d : dict A) :
  assign_all f (items1 ++ items2) d = assign_all f items2 (assign_all f items1 d).
Proof. unfold assign_all. apply fold_left_app. Qed.

Lemma assign_all_cons name x items (d : dict A) :
  assign_all f ((name, x) :: items) d = assign_all f items (assign name (f name x) d).
Proof. reflexivity. Qed.

(** The keys after the loop: those before it, and the names of the rounds
    that produced a value. *)
Lemma assign_all_keys items : forall (d : dict A) k,
  In k (keys (assign_all f items d)) <->
  In k (keys d) \/ exists x v, In (k, x) items /\ f k x = Some v.
Proof.
  induction items as [|[name x] items IH]; intros d k.
  - simpl. split; [tauto | intros [H|(y & v & [] & _)]; exact H].
  - rewrite assign_all_cons, IH. split.
    + intros [H|(y & v & Hin & Hf)].
      * unfold assign in H. destruct (f name x) as [v|] eqn:Hf.
        -- apply keys_setitem in H. destruct H as [->|H]; [right|left; exact H].
           exists x, v. split; [now left | exact Hf].
        -- now left.
      * right. exists y, v. split; [now right | exact Hf].
    + intros [H|(y & v & [Heq|Hin] & Hf)].
      * left. unfold assign. destruct (f name x); auto.
        apply keys_setitem. now right.
      * injection Heq as -> ->. left. unfold assign. rewrite Hf.
        apply keys_setitem. now left.
      * right. exists y, v. auto.
Qed.

Lemma assign_all_agree items k : forall (d d' : dict A),
  lookup d k = lookup d' k ->
  lookup (assign_all f items d) k = lookup (assign_all f items d') k.
Proof.
  induction items as [|[n x] items IH]; intros d d' H; auto.
  rewrite !assign_all_cons. apply IH. unfold assign.
  destruct (f n x) as [v|]; auto.
  destruct (string_dec n k) as [->|Hne].
  - now rewrite !lookup_setitem_eq.
  - now rewrite !lookup_setitem_ne.
Qed.

(** Rounds under other names do not touch the entry of [k]. *)
Lemma assign_all_untouched items k : forall (d : dict A),
  ~ In k (keys items) -> lookup (assign_all f items d) k = lookup d k.
Proof.
  induction items as [|[n x] items IH]; intros d H; auto.
  rewrite assign_all_cons, IH by (simpl in H; tauto).
  unfold assign. destruct (f n x); auto.
  apply lookup_setitem_ne. simpl in H. tauto.
Qed.

(** The entry of a name after the loop is decided by its last round. *)
Lemma assign_all_lookup items1 name x items2 (d : dict A) :
  ~ In name (keys items2) ->
  lookup (assign_all f (items1 ++ (name, x) :: items2) d) name =
  match f name x with
  | Some v => Some v
  | None => lookup (assign_all f items1 d) name
  end.
Proof.
  intros H. rewrite assign_all_app, assign_all_cons, assign_all_untouched by exact H.
  unfold assign. destruct (f name x); auto using lookup_setitem_eq.
Qed.

(** Taking one round out changes nothing under any other name. *)
Lemma assign_all_other items1 name x items2 (d : dict A) other :
  other <> name ->
  lookup (assign_all f (items1 ++ (name, x) :: items2) d) other =
  lookup (assign_all f (items1 ++ items2) d) other.
Proof.
  intros Hne. rewrite !assign_all_app, assign_all_cons.
  apply assign_all_agree. unfold assign.
  destruct (f name x); auto.
  apply lookup_setitem_ne. congruence.
Qed.

Lemma assign_all_skip items1 name x items2 (d : dict A) :
  f name x = None ->
  assign_all f (items1 ++ (name, x) :: items2) d = assign_all f (items1 ++ items2) d.
Proof.
  intros H. rewrite !assign_all_app, assign_all_cons. now rewrite H.
Qed.

End AssignAll.

(** ** The monad *)

Lemma bind_Ok {A B} (c : M A) (k : A -> M B) t b t' :
  bind c k t = (Ok b, t') ->
  exists a t1, c t = (Ok a, t1) /\ k a t1 = (Ok b, t').
Proof.
  unfold bind. destruct (c t) as [[a| |] t1]; try discriminate. eauto.
Qed.

(** ** The aggregator: [collect_data] *)

(** A round of the loop whose connector does not end the process. *)
Lemma collect_extension_eq data name extension t :
  collect_exit extension = None ->
  collect_extension data name extension t =
  (Ok (assign name (collected extension) data), (t ++ collect_log name extension)%list).
Proof.
  unfold collect_extension, collected, collect_log, collect_failure, collect_exit.
  destruct (truthy (Extension.enabled extension)); simpl;
    [| intros _; unfold ret; now rewrite app_nil_r].
  destruct (Extension.module extension) as [m|];
    [| intros _; unfold ret; now rewrite app_nil_r].
  unfold try_except.
  destruct (mod_collect_data m) as [collect|];
    [| intros _; unfold ret; simpl; now rewrite app_nil_r].
  unfold bind, run_code. destruct (collect (state m)) as [v|e|code]; simpl.
  - intros _. unfold ret. destruct (truthy v); simpl; now rewrite app_nil_r.
  - reflexivity.
  - discriminate.
Qed.

(** A connector that ends in [sys.exit] takes the round with it: the
    handler of the loop does not see a [SystemExit]. *)
Lemma collect_extension_exit data name extension code t :
  collect_exit extension = Some code ->
  collect_extension data name extension t = (SysExit code, t).
Proof.
  unfold collect_extension, collect_exit.
  destruct (truthy (Extension.enabled extension)); simpl; [|discriminate].
  destruct (Extension.module extension) as [m|]; [|discriminate].
  unfold try_except.
  destruct (mod_collect_data m) as [collect|]; [|discriminate].
  unfold bind, run_code. destruct (collect (state m)) as [v|e|n]; try discriminate.
  now intros [= ->].
Qed.

Lemma completes_cons name extension items :
  completes ((name, extension) :: items) <->
  collect_exit extension = None /\ completes items.
Proof.
  unfold completes. split.
  - intros H. split; [apply (H name); now left|].
    intros n x Hin. apply (H n). now right.
  - intros [H1 H2] n x [[= <- <-]|Hin]; [exact H1 | now apply (H2 n)].
Qed.

Lemma completes_app items1 items2 :
  completes (items1 ++ items2) <-> completes items1 /\ completes items2.
Proof.
  unfold completes. split.
  - intros H. split; intros n x Hin; apply (H n); apply in_or_app; auto.
  - intros [H1 H2] n x Hin. apply in_app_or in Hin.
    destruct Hin as [Hin|Hin]; [now apply (H1 n) | now apply (H2 n)].
Qed.

Lemma collect_data_loop_eq items : forall data t,
  completes items ->
  collect_data_loop items data t =
  (Ok (collected_items items data), (t ++ collect_logs items)%list).
Proof.
  induction items as [|[name extension] items IH]; intros data t Hc; simpl.
  - unfold ret. now rewrite app_nil_r.
  - apply completes_cons in Hc. destruct Hc as [Hx Hc].
    unfold bind. rewrite collect_extension_eq by exact Hx. rewrite IH by exact Hc.
    simpl. now rewrite app_assoc.
Qed.

(** A round that returns met no connector that exits. *)
Lemma collect_data_loop_Ok items : forall data t data' t',
  collect_data_loop items data t = (Ok data', t') -> completes items.
Proof.
  induction items as [|[name extension] items IH]; intros data t data' t' H.
  - intros n x [].
  - simpl in H. apply bind_Ok in H. destruct H as (d1 & t1 & H1 & H2).
    apply completes_cons. split; [|eapply IH; exact H2].
    destruct (collect_exit extension) as [code|] eqn:E; [|reflexivity].
    rewrite (@collect_extension_exit data name extension code t E) in H1. discriminate.
Qed.

(** The round ends at the first connector that exits; the connectors after
    it are not asked. *)
Lemma collect_data_loop_exit items1 name extension items2 code : forall data t,
  completes items1 ->
  collect_exit extension = Some code ->
  collect_data_loop (items1 ++ (name, extension) :: items2) data t =
  (SysExit code, (t ++ collect_logs items1)%list).
Proof.
  induction items1 as [|[n x] items1 IH]; intros data t Hc Hx; simpl.
  - unfold bind. rewrite (@collect_extension_exit data name extension code t Hx). now rewrite app_nil_r.
  - apply completes_cons in Hc. destruct Hc as [Hn Hc].
    unfold bind. rewrite collect_extension_eq by exact Hn.
    rewrite IH by assumption. now rewrite app_assoc.
Qed.

(** Unfolding [collected]. *)
Lemma collected_Some extension v :
  collected extension = Some v <->
  truthy (Extension.enabled extension) = true /\
  exists module collect,
    Extension.module extension = Some module /\
    mod_collect_data module = Some collect /\
    collect (state module) = Ok v /\
    truthy v = true.
Proof.
  unfold collected. split.
  - destruct (truthy (Extension.enabled extension)); [|discriminate].
    destruct (Extension.module extension) as [m|]; [|discriminate].
    destruct (mod_collect_data m) as [c|] eqn:Hc; [|discriminate].
    destruct (c (state m)) as [w|e|n] eqn:Hr; try discriminate.
    destruct (truthy w) eqn:Hw; [|discriminate].
    intros [= <-]. split; auto. exists m, c. auto.
  - intros (-> & m & c & -> & -> & -> & ->). reflexivity.
Qed.

(** Unfolding [collect_exit]. *)
Lemma collect_exit_Some extension code :
  collect_exit extension = Some code <->
  truthy (Extension.enabled extension) = true /\
  exists module collect,
    Extension.module extension = Some module /\
    mod_collect_data module = Some collect /\
    collect (state module) = SysExit code.
Proof.
  unfold collect_exit. split.
  - destruct (truthy (Extension.enabled extension)); [|discriminate].
    destruct (Extension.module extension) as [m|]; [|discriminate].
    destruct (mod_collect_data m) as [c|] eqn:Hc; [|discriminate].
    destruct (c (state m)) as [w|e|n] eqn:Hr; try discriminate.
    intros [= <-]. split; auto. exists m, c. auto.
  - intros (-> & m & c & -> & -> & ->). reflexivity.
Qed.

(** C1 (as amended).  [collect_data] returns exactly when none of the
    [collect_data] calls it makes ends in [sys.exit], which its handler
    does not catch.  When it returns, a name is a key of its result exactly
    when [self.extensions] holds under that name an extension that is
    enabled, whose module is loaded and defines [collect_data], whose call
    returned without raising, and whose returned value is truthy.  A
    collection that succeeds with an empty value is left out; any non-empty
    value is kept, an error marker included. *)
Theorem collect_data_keys (self : DevAssist) (t : list event) :
  ((exists data t', collect_data self t = (Ok data, t')) <->
   completes (extensions self)) /\
  forall data t',
    collect_data self t = (Ok data, t') ->
    forall name,
      contains data name = true <->
      exists extension module collect v,
        In (name, extension) (extensions self) /\
        truthy (Extension.enabled extension) = true /\
        Extension.module extension = Some module /\
        mod_collect_data module = Some collect /\
        collect (state module) = Ok v /\
        truthy v = true.
Proof.
  unfold collect_data. split.
  - split.
    + intros (data & t' & H). exact (@collect_data_loop_Ok _ _ _ _ _ H).
    + intros Hc. rewrite collect_data_loop_eq by exact Hc. eauto.
  - intros data t' H. pose proof (@collect_data_loop_Ok _ _ _ _ _ H) as Hc.
    rewrite collect_data_loop_eq in H by exact Hc. injection H as <- _.
    intros name. unfold collected_items.
    rewrite contains_keys, assign_all_keys. simpl. split.
    + intros [[]|(e & v & Hin & Hv)].
      apply collected_Some in Hv. destruct Hv as (He & m & c & Hm & Hcd & Hr & Hv).
      exists e, m, c, v. repeat split; assumption.
    + intros (e & m & c & v & Hin & He & Hm & Hcd & Hr & Hv).
      right. exists e, v. split; auto. apply collected_Some. split; auto.
      exists m, c. auto.
Qed.

(** C1, as stated, fails: with one connector that reports data and one that
    is enabled, loaded and whose [collect_data] returns successfully with an
    empty value, the second is not a key of the result. *)
Lemma collect_data_drops_empty_success :
  exists data t' extension module collect v,
    collect_data Example.healthy_and_quiet [] = (Ok data, t') /\
    contains data "healthy" = true /\
    In ("quiet", extension) (extensions Example.healthy_and_quiet) /\
    truthy (Extension.enabled extension) = true /\
    Extension.module extension = Some module /\
    mod_collect_data module = Some collect /\
    collect (state module) = Ok v /\
    contains data "quiet" = false.
Proof.
  simpl. do 2 eexists. exists (snd (Example.loaded "quiet" Example.quiet)).
  exists Example.quiet. do 2 eexists.
  repeat split; try reflexivity.
  right. left. reflexivity.
Qed.

(** The error marker of an uninitialized connector is a non-empty value:
    it is stored under the connector's name. *)
Lemma collect_data_keeps_error_marker :
  fst (collect_data Example.github_without_token []) =
  Ok [("github", PDict [("error", PStr "GitHub extension not properly initialized")]);
      ("healthy", PDict [("items", PList [PInt 1])])].
Proof. reflexivity. Qed.

(** A connector that ends in [sys.exit] is not isolated: the round ends
    with it, the data of the connectors before it is dropped and the
    connectors after it are not asked. *)
Lemma collect_data_exit_ends_round self t items1 name extension items2 code :
  extensions self = (items1 ++ (name, extension) :: items2)%list ->
  completes items1 ->
  collect_exit extension = Some code ->
  collect_data self t = (SysExit code, (t ++ collect_logs items1)%list).
Proof.
  intros Hext Hc Hx. unfold collect_data. rewrite Hext.
  now apply collect_data_loop_exit.
Qed.

Lemma collect_data_exit_example :
  collect_data Example.healthy_leaver_healthy [] = (SysExit 2, []).
Proof. reflexivity. Qed.

Lemma collect_logs_app items1 items2 :
  collect_logs (items1 ++ items2) = (collect_logs items1 ++ collect_logs items2)%list.
Proof. unfold collect_logs. now rewrite flat_map_app. Qed.

(** C3 (as amended).  In a round in which no [collect_data] call ends in
    [sys.exit], whatever else one connector's call does, the round returns
    and the entry under every other name is what it would be without that
    connector.  A connector whose call raises contributes nothing (the
    whole result is the one of the round without it), and the failure is
    logged.  A connector that returns an error marker, or any other truthy
    value, is not left out: the value is stored under its name. *)
Theorem collect_data_isolation (self : DevAssist) (t : list event)
    (items1 items2 : list (string * Extension.t))
    (name : string) (extension : Extension.t)
    (module : pymodule) (collect : globals module -> outcome pyval) :
  extensions self = (items1 ++ (name, extension) :: items2)%list ->
  truthy (Extension.enabled extension) = true ->
  Extension.module extension = Some module ->
  mod_collect_data module = Some collect ->
  (forall code, collect (state module) <> SysExit code) ->
  completes (items1 ++ items2) ->
  exists data t1 without t2,
    collect_data self t = (Ok data, t1) /\
    collect_data (set_extensions self (items1 ++ items2)%list) t = (Ok without, t2) /\
    (forall other, other <> name -> lookup data other = lookup without other) /\
    (forall e, collect (state module) = Raise e ->
       data = without /\
       In (Log ERROR ("Error collecting data from " ++ name ++ ": " ++ exn_msg e)) t1) /\
    (forall v, collect (state module) = Ok v -> truthy v = true ->
       ~ In name (keys items2) -> lookup data name = Some v).
Proof.
  intros Hext Hen Hm Hc Hstay Hrest. unfold collect_data. simpl. rewrite Hext.
  assert (Hx : collect_exit extension = None).
  { unfold collect_exit. rewrite Hen, Hm, Hc.
    destruct (collect (state module)) as [v|e|code] eqn:E; auto.
    now destruct (Hstay code). }
  assert (Hall : completes (items1 ++ (name, extension) :: items2)).
  { apply completes_app in Hrest. destruct Hrest as [H1 H2].
    apply completes_app. split; [exact H1|]. apply completes_cons. auto. }
  rewrite !collect_data_loop_eq by assumption. do 4 eexists.
  split; [reflexivity|]. split; [reflexivity|].
  split; [|split].
  - intros other Hne. now apply assign_all_other.
  - intros e Hr.
    assert (Hnone : collected extension = None).
    { unfold collected. now rewrite Hen, Hm, Hc, Hr. }
    split; [now apply assign_all_skip|].
    rewrite collect_logs_app. simpl. apply in_or_app. right.
    apply in_or_app. right. apply in_or_app. left.
    unfold collect_log, collect_failure. rewrite Hen, Hm, Hc, Hr. now left.
  - intros v Hr Hv Hnot.
    unfold collected_items. rewrite assign_all_lookup by assumption.
    unfold collected. now rewrite Hen, Hm, Hc, Hr, Hv.
Qed.

Lemma collect_data_isolation_witness :
  exists data t1,
    collect_data Example.broken_and_healthy [] = (Ok data, t1) /\
    lookup data "healthy" = Some (PDict [("items", PList [PInt 1])]) /\
    lookup data "broken" = None /\
    In (Log ERROR "Error collecting data from broken: timed out") t1.
Proof.
  destruct (@collect_data_isolation Example.broken_and_healthy [] []
              [Example.loaded "healthy" Example.healthy] "broken"
              (snd (Example.loaded "broken" Example.broken)) Example.broken
              (fun _ => Raise (Exception "timed out"))
              eq_refl eq_refl eq_refl eq_refl)
    as (data & t1 & without & t2 & H1 & H2 & Hother & Hraise & _).
  - discriminate.
  - intros n x [[= <- <-]|[]]. reflexivity.
  - destruct (Hraise (Exception "timed out") eq_refl) as [-> Hlog].
    exists without, t1. split; [exact H1|].
    vm_compute in H1. injection H1 as <- <-.
    split; [reflexivity|]. split; [reflexivity|]. now left.
Defined.

(** C3, as stated, fails for a connector that returns an error: GitHub,
    loaded without a token, returns its error marker, and the marker is a
    key of the result instead of the connector being left out. *)
Lemma collect_data_error_return_not_omitted :
  GitHub.collect_data (fun _ _ => Returns (PDict [])) (state Example.github) =
    Returns (PDict [("error", PStr "GitHub extension not properly initialized")]) /\
  exists data t',
    collect_data Example.github_without_token [] = (Ok data, t') /\
    contains data "github" = true.
Proof.
  split; [reflexivity|]. do 2 eexists. split; reflexivity.
Qed.


(** ** The loader: [load_extensions] *)

Section Loader.
Variable W : World.

Lemma _load_extension_module_eq extension p t :
  _load_extension_module W extension p t =
  match load_result W extension p with
  | Ok module =>
      (Ok (Extension.set_module extension module),
       (t ++ [Log INFO ("Loaded extension: " ++ format W (Extension.name extension))])%list)
  | Raise x =>
      (Ok extension,
       (t ++ [Log ERROR ("Error loading extension " ++ format W (Extension.name extension)
                           ++ ": " ++ exn_msg x)])%list)
  | SysExit code => (SysExit code, t)
  end.
Proof.
  unfold _load_extension_module, load_result, try_except, bind, run_code.
  destruct (exec_module W _ p) as [m|x|code]; simpl; try reflexivity.
  destruct (mod_initialize m) as [f|]; simpl; [|reflexivity].
  destruct (f _ _) as [g|x|code]; reflexivity.
Qed.

(** One round of the loop, whatever it does. *)
Lemma load_extension_eq exts name e t :
  load_extension W exts name (PDict e) t =
  (match fst (activation W name e) with
   | Ok o => Ok (assign name o exts)
   | Raise x => Raise x
   | SysExit code => SysExit code
   end,
   (t ++ snd (activation W name e))%list).
Proof.
  unfold load_extension, activation, located, py_unpack.
  unfold bind at 1. unfold ret at 1. fold (spec_of name e).
  destruct (truthy (Extension.enabled (spec_of name e))); simpl; [|reflexivity].
  unfold bind at 1. unfold call at 1.
  destruct (path_exists W (builtin_path name)) as [[|]|x]; simpl.
  - unfold bind. rewrite _load_extension_module_eq.
    destruct (load_result W _ _); simpl; now rewrite ?app_nil_r.
  - unfold bind at 1. unfold call at 1.
    destruct (path_exists W (user_path name)) as [[|]|x]; simpl.
    + unfold bind. rewrite _load_extension_module_eq.
      destruct (load_result W _ _); simpl; now rewrite ?app_nil_r.
    + reflexivity.
    + unfold raise. now rewrite app_nil_r.
  - unfold raise. now rewrite app_nil_r.
Qed.

(** A round that comes to its end. *)
Lemma load_extension_Ok exts name e o t :
  fst (activation W name e) = Ok o ->
  load_extension W exts name (PDict e) t =
  (Ok (assign name (registered W name e) exts), (t ++ snd (activation W name e))%list).
Proof.
  intros H. rewrite load_extension_eq. unfold registered. now rewrite H.
Qed.

Lemma settles_cons name entry items :
  settles W ((name, entry) :: items) <->
  (exists e o, entry = PDict e /\ fst (activation W name e) = Ok o) /\ settles W items.
Proof.
  unfold settles. split.
  - intros H. split; [apply (H name); now left|].
    intros n x Hin. apply (H n). now right.
  - intros [H1 H2] n x [[= <- <-]|Hin]; [exact H1 | now apply (H2 n)].
Qed.

Lemma settles_well_formed items : settles W items -> well_formed items.
Proof. intros H name entry Hin. destruct (H name entry Hin) as (e & _ & -> & _). eauto. Qed.

Lemma load_extensions_loop_eq items : forall exts t,
  settles W items ->
  load_extensions_loop W items exts t =
  (Ok (activated W (mappings items) exts),
   (t ++ activation_log W (mappings items))%list).
Proof.
  induction items as [|[name entry] items IH]; intros exts t Hs; simpl.
  - unfold ret. now rewrite app_nil_r.
  - apply settles_cons in Hs. destruct Hs as [(e & o & -> & Ho) Hs].
    unfold bind. rewrite (load_extension_Ok exts name e t Ho).
    rewrite IH by exact Hs. simpl. now rewrite <- app_assoc.
Qed.

(** The loop over a list whose first part settles: what is left is the
    loop over the rest. *)
Lemma load_extensions_loop_app items1 items2 : forall exts t,
  settles W items1 ->
  load_extensions_loop W (items1 ++ items2) exts t =
  load_extensions_loop W items2 (activated W (mappings items1) exts)
    (t ++ activation_log W (mappings items1))%list.
Proof.
  induction items1 as [|[name entry] items1 IH]; intros exts t Hs; simpl.
  - now rewrite app_nil_r.
  - apply settles_cons in Hs. destruct Hs as [(e & o & -> & Ho) Hs].
    unfold bind at 1. rewrite (load_extension_Ok exts name e t Ho).
    rewrite IH by exact Hs. simpl. now rewrite <- app_assoc.
Qed.

Lemma mappings_In items name e :
  In (name, PDict e) items <-> In (name, e) (mappings items).
Proof.
  induction items as [|[n entry] items IH]; simpl; [tauto|].
  destruct entry as [| | | | |d]; simpl; rewrite <- IH.
  1-5: split; [intros [H|H]; [discriminate H | exact H] | now right].
  split; (intros [[= -> ->]|H]; [now left | now right]).
Qed.

Lemma mappings_app items1 items2 :
  mappings (items1 ++ items2) = (mappings items1 ++ mappings items2)%list.
Proof.
  induction items1 as [|[n entry] items1 IH]; simpl; auto.
  destruct entry; simpl; now rewrite ?IH.
Qed.

Lemma mappings_keys items name :
  In name (keys (mappings items)) -> In name (keys items).
Proof.
  induction items as [|[n entry] items IH]; simpl; auto.
  destruct entry; simpl; tauto.
Qed.

(** A loop that comes to its end met only rounds that do. *)
Lemma load_extensions_loop_Ok items : forall exts t exts' t',
  load_extensions_loop W items exts t = (Ok exts', t') -> settles W items.
Proof.
  induction items as [|[name entry] items IH]; intros exts t exts' t' H.
  - intros n en [].
  - simpl in H. apply bind_Ok in H. destruct H as (exts1 & t1 & H1 & H2).
    apply settles_cons. split; [|eapply IH; exact H2].
    destruct entry as [| | | | |e]; try discriminate H1.
    rewrite load_extension_eq in H1.
    destruct (fst (activation W name e)) as [o|x|code] eqn:E; try discriminate H1.
    eauto.
Qed.

Lemma activation_log_In items name e ev :
  In (name, e) items -> In ev (snd (activation W name e)) ->
  In ev (activation_log W items).
Proof.
  intros H Hev. unfold activation_log. apply in_flat_map.
  exists (name, e). auto.
Qed.

(** Only enabled connectors are ever registered. *)
Lemma registered_enabled name e extension :
  registered W name e = Some extension ->
  truthy (Extension.enabled (spec_of name e)) = true.
Proof.
  unfold registered, activation.
  destruct (truthy (Extension.enabled (spec_of name e))); auto.
  discriminate.
Qed.


(** The fields of the extension built for an entry that has no ["name"] key
    of its own. *)
Lemma spec_of_fields name e :
  NoDup (keys e) -> ~ In "name" (keys e) ->
  Extension.name (spec_of name e) = PStr name /\
  Extension.enabled (spec_of name e) = get e "enabled" (PBool true) /\
  Extension.config (spec_of name e) = get e "config" (PDict []) /\
  Extension.module (spec_of name e) = None.
Proof.
  intros Hnd Hname. unfold spec_of, Extension.from_dict, get. simpl.
  assert (Hl : forall k, k <> "name" ->
            lookup (update [("name", PStr name)] e) k = lookup e k).
  { intros k Hk. destruct (lookup e k) as [v|] eqn:E.
    - now apply lookup_update_present.
    - rewrite lookup_update_absent by now apply lookup_None_keys.
      simpl. destruct (String.eqb k "name") eqn:E'; auto.
      apply String.eqb_eq in E'. contradiction. }
  rewrite lookup_update_absent by exact Hname.
  rewrite !Hl by discriminate. simpl. auto.
Qed.

(** A ["name"] key inside the entry replaces the name the entry is
    configured under; the registry key stays the configured name. *)
Lemma spec_of_name_override name e v :
  NoDup (keys e) -> lookup e "name" = Some v ->
  Extension.name (spec_of name e) = v.
Proof.
  intros Hnd H. unfold spec_of, Extension.from_dict, get. simpl.
  now rewrite lookup_update_present with (v := v).
Qed.

(** C9 (as amended).  The extension record built for a connector spec
    [name, enabled, config] carries that name, that enabled flag and that
    config.  It is stored only for a spec that is enabled and whose
    implementation is found: then, unless the connector's code ends in
    [sys.exit], reading [self.extensions[name]] back yields that triple,
    whatever was registered under the name before is overwritten in place,
    and the entries under other names are untouched.  A spec that is
    switched off, or for which no file is found, is not stored: the
    registry is left as it was, an earlier registration under the name
    included.  An entry that has a ["name"] key of its own gives the record
    that value as its name. *)
Theorem registry_read_after_write exts name enabled config t :
  (Extension.name (spec_of name [("enabled", enabled); ("config", config)]) = PStr name /\
   Extension.enabled (spec_of name [("enabled", enabled); ("config", config)]) = enabled /\
   Extension.config (spec_of name [("enabled", enabled); ("config", config)]) = config) /\
  (truthy enabled = true ->
   forall p,
   located W name = Returns (Some p) ->
   (forall code,
      load_result W (spec_of name [("enabled", enabled); ("config", config)]) p
      <> SysExit code) ->
   exists exts' t' extension,
     load_extension W exts name (PDict [("enabled", enabled); ("config", config)]) t
       = (Ok exts', t') /\
     lookup exts' name = Some extension /\
     Extension.name extension = PStr name /\
     Extension.enabled extension = enabled /\
     Extension.config extension = config /\
     (forall other, other <> name -> lookup exts' other = lookup exts other) /\
     (In name (keys exts) -> keys exts' = keys exts)) /\
  (truthy enabled = false ->
   load_extension W exts name (PDict [("enabled", enabled); ("config", config)]) t
   = (Ok exts, (t ++ [Log INFO ("Extension " ++ name ++ " is disabled, skipping")])%list)) /\
  (truthy enabled = true ->
   located W name = Returns None ->
   load_extension W exts name (PDict [("enabled", enabled); ("config", config)]) t
   = (Ok exts, (t ++ [Log WARNING ("Extension " ++ name ++ " not found")])%list)) /\
  (forall own,
     Extension.name (spec_of name [("name", own); ("enabled", enabled); ("config", config)])
     = own).
Proof.
  set (e := [("enabled", enabled); ("config", config)]).
  assert (Hf : Extension.name (spec_of name e) = PStr name /\
               Extension.enabled (spec_of name e) = enabled /\
               Extension.config (spec_of name e) = config) by (split; [|split]; reflexivity).
  split; [exact Hf|]. destruct Hf as (Hn & He & Hc).
  split; [|split; [|split]].
  - intros Hen p Hloc Hstay. rewrite load_extension_eq.
    unfold activation. fold e. rewrite He, Hen, Hloc. simpl negb. cbv iota.
    destruct (load_result W (spec_of name e) p) as [m|x|code];
      [| | now destruct (Hstay code)]; simpl;
      do 3 eexists; (split; [reflexivity|]);
      (split; [apply lookup_setitem_eq|]);
      repeat split; auto using keys_setitem_present;
      intros other Hne; apply lookup_setitem_ne; congruence.
  - intros Hen. rewrite load_extension_eq.
    unfold activation. fold e. rewrite He, Hen. reflexivity.
  - intros Hen Hloc. rewrite load_extension_eq.
    unfold activation. fold e. rewrite He, Hen, Hloc. reflexivity.
  - reflexivity.
Qed.

(** What the loop logs for a connector, and what it registers for one
    whose loading succeeds. *)
Lemma activation_log_error items name e p x :
  In (name, PDict e) items ->
  truthy (Extension.enabled (spec_of name e)) = true ->
  located W name = Returns (Some p) ->
  load_result W (spec_of name e) p = Raise x ->
  In (Log ERROR ("Error loading extension "
                   ++ format W (Extension.name (spec_of name e))
                   ++ ": " ++ exn_msg x))
     (activation_log W (mappings items)).
Proof.
  intros Hin Hen Hloc Hres. apply mappings_In in Hin.
  apply (activation_log_In _ _ _ _ Hin).
  unfold activation. rewrite Hen, Hloc, Hres. now left.
Qed.

Lemma activation_log_warning items name e :
  In (name, PDict e) items ->
  truthy (Extension.enabled (spec_of name e)) = true ->
  located W name = Returns None ->
  In (Log WARNING ("Extension " ++ name ++ " not found"))
     (activation_log W (mappings items)).
Proof.
  intros Hin Hen Hloc. apply mappings_In in Hin.
  apply (activation_log_In _ _ _ _ Hin).
  unfold activation. rewrite Hen, Hloc. now left.
Qed.

Lemma activated_lookup items1 name e items2 exts p module :
  ~ In name (keys items2) ->
  truthy (Extension.enabled (spec_of name e)) = true ->
  located W name = Returns (Some p) ->
  load_result W (spec_of name e) p = Ok module ->
  lookup (activated W (mappings (items1 ++ (name, PDict e) :: items2)) exts) name
  = Some (Extension.set_module (spec_of name e) module).
Proof.
  intros Hnot Hen Hloc Hres.
  rewrite mappings_app. simpl. unfold activated.
  rewrite assign_all_lookup
    by (intros Hk; apply Hnot; now apply mappings_keys).
  unfold registered, activation. now rewrite Hen, Hloc, Hres.
Qed.

Lemma load_extensions_eq self c items t :
  config self = PDict c ->
  get c "extensions" (PDict []) = PDict items ->
  settles W items ->
  load_extensions W self t =
  (Ok (set_extensions self (activated W (mappings items) (extensions self))),
   (t ++ activation_log W (mappings items))%list).
Proof.
  intros Hc Hitems Hs. unfold load_extensions, py_get. rewrite Hc.
  unfold bind at 1. unfold ret at 1. rewrite Hitems.
  unfold bind at 1. unfold py_items, ret at 1.
  unfold bind. now rewrite load_extensions_loop_eq.
Qed.

(** [load_extensions] over entries of which the first ones settle and the
    next one does not: the loop ends there. *)
Lemma load_extensions_stops self c items1 name e items2 t r :
  config self = PDict c ->
  get c "extensions" (PDict []) = PDict (items1 ++ (name, PDict e) :: items2) ->
  settles W items1 ->
  fst (activation W name e) = r ->
  (forall o, r <> Ok o) ->
  load_extensions W self t =
  (match r with
   | Ok _ => Ok self
   | Raise x => Raise x
   | SysExit code => SysExit code
   end,
   (t ++ activation_log W (mappings items1))%list).
Proof.
  intros Hc Hitems Hs Hr Hno. unfold load_extensions, py_get. rewrite Hc.
  unfold bind at 1. unfold ret at 1. rewrite Hitems.
  unfold bind at 1. unfold py_items, ret at 1.
  unfold bind at 1. rewrite load_extensions_loop_app by exact Hs.
  simpl. unfold bind at 1. rewrite load_extension_eq, Hr.
  assert (Hsnd : snd (activation W name e) = []).
  { revert Hr. unfold activation.
    destruct (negb (truthy (Extension.enabled (spec_of name e))));
      [intros <-; now destruct (Hno None)|].
    destruct (located W name) as [[p|]|x];
      [| intros <-; now destruct (Hno None) | reflexivity].
    destruct (load_result W (spec_of name e) p) as [m|x|code];
      [intros <-; now destruct (Hno (Some (Extension.set_module (spec_of name e) m)))
      | intros <-; now destruct (Hno (Some (spec_of name e)))
      | reflexivity]. }
  rewrite Hsnd, app_nil_r.
  destruct r as [o|x|code]; [now destruct (Hno o) | reflexivity | reflexivity].
Qed.

(** C6 (as amended).  What the loader catches is an [Exception] raised
    while the implementation file is executed or while the connector's
    [initialize] runs: it is logged as an error carrying the name of the
    extension record and the cause, and the loop goes on; a connector for
    which no file is found is logged as a warning.  Over a configuration
    in which every round comes to its end, [load_extensions] returns, and a
    connector whose own loading succeeds is registered with its module,
    whatever happened to the rest.  What the loader does not catch leaves
    [load_extensions] at that connector, after the rounds before it, and
    the connectors after it are not activated: the [OSError] of an
    existence check during location, a [sys.exit] in the connector's code,
    and the [TypeError] of an entry that is not a mapping. *)
Theorem load_failures_are_isolated self c items t :
  config self = PDict c ->
  get c "extensions" (PDict []) = PDict items ->
  (settles W items ->
   exists self' t',
     load_extensions W self t = (Ok self', t') /\
     (forall name e p x,
        In (name, PDict e) items ->
        truthy (Extension.enabled (spec_of name e)) = true ->
        located W name = Returns (Some p) ->
        load_result W (spec_of name e) p = Raise x ->
        In (Log ERROR ("Error loading extension "
                         ++ format W (Extension.name (spec_of name e))
                         ++ ": " ++ exn_msg x)) t') /\
     (forall name e,
        In (name, PDict e) items ->
        truthy (Extension.enabled (spec_of name e)) = true ->
        located W name = Returns None ->
        In (Log WARNING ("Extension " ++ name ++ " not found")) t') /\
     (forall items1 name e items2 p module,
        items = (items1 ++ (name, PDict e) :: items2)%list ->
        ~ In name (keys items2) ->
        truthy (Extension.enabled (spec_of name e)) = true ->
        located W name = Returns (Some p) ->
        load_result W (spec_of name e) p = Ok module ->
        lookup (extensions self') name
        = Some (Extension.set_module (spec_of name e) module))) /\
  (forall items1 name e items2,
     items = (items1 ++ (name, PDict e) :: items2)%list ->
     settles W items1 ->
     truthy (Extension.enabled (spec_of name e)) = true ->
     (forall x,
        located W name = Raises x ->
        load_extensions W self t
        = (Raise x, (t ++ activation_log W (mappings items1))%list)) /\
     (forall p code,
        located W name = Returns (Some p) ->
        load_result W (spec_of name e) p = SysExit code ->
        load_extensions W self t
        = (SysExit code, (t ++ activation_log W (mappings items1))%list))) /\
  (forall items1 name v items2,
     items = (items1 ++ (name, v) :: items2)%list ->
     settles W items1 ->
     (forall d, v <> PDict d) ->
     load_extensions W self t
     = (Raise (Exception ("'" ++ type_name v ++ "' object is not a mapping")),
        (t ++ activation_log W (mappings items1))%list)).
Proof.
  intros Hc Hitems. split; [|split].
  - intros Hs. rewrite (load_extensions_eq _ _ Hc Hitems Hs).
    do 2 eexists. split; [reflexivity|]. split; [|split].
    + intros name e p x Hin Hen Hloc Hres.
      apply in_or_app. right. now apply activation_log_error with (p := p).
    + intros name e Hin Hen Hloc.
      apply in_or_app. right. now apply activation_log_warning with (e := e).
    + intros items1 name e items2 p m -> Hnot Hen Hloc Hres. simpl.
      now apply activated_lookup with (p := p).
  - intros items1 name e items2 -> Hs Hen. split.
    + intros x Hloc.
      apply (@load_extensions_stops self c items1 name e items2 t (Raise x) Hc Hitems Hs);
        [|discriminate].
      unfold activation. now rewrite Hen, Hloc.
    + intros p code Hloc Hres.
      apply (@load_extensions_stops self c items1 name e items2 t (SysExit code)
               Hc Hitems Hs); [|discriminate].
      unfold activation. now rewrite Hen, Hloc, Hres.
  - intros items1 name v items2 -> Hs Hv. unfold load_extensions, py_get. rewrite Hc.
    unfold bind at 1. unfold ret at 1. rewrite Hitems.
    unfold bind at 1. unfold py_items, ret at 1.
    unfold bind at 1. rewrite load_extensions_loop_app by exact Hs.
    simpl. unfold bind, load_extension, py_unpack.
    destruct v; try reflexivity. now destruct (Hv d).
Qed.

(** [load_config] once the existence check of the configuration file has
    answered. *)
Lemma load_config_step self t b :
  config_file_exists W = Returns b ->
  load_config W self t =
  (self <- (if b then
              try_except
                (c <- call (json_load W) ;;
                 logger INFO ("Configuration loaded from " ++ config_file W) ;;;
                 ret (set_config self c))
                (fun e =>
                   logger ERROR ("Error loading configuration: " ++ exn_msg e) ;;;
                   ret (set_config self (create_default_config W)))
            else
              logger INFO "Configuration file not found, creating default" ;;;
              let self := set_config self (create_default_config W) in
              save_config W self ;;;
              ret self) ;;
   ai <- py_get (config self) "ai" (PDict []) ;;
   ai_config <- AIConfig.from_dict ai ;;
   ret (set_ai_config self ai_config)) t.
Proof. intros H. unfold load_config. rewrite H. reflexivity. Qed.

Lemma load_config_extensions self t self1 t1 :
  load_config W self t = (Ok self1, t1) -> extensions self1 = extensions self.
Proof.
  unfold load_config. intros H.
  apply bind_Ok in H. destruct H as (s0 & t0 & H0 & H).
  apply bind_Ok in H. destruct H as (ai & t2 & _ & H).
  apply bind_Ok in H. destruct H as (aic & t3 & _ & H).
  injection H as <- _. simpl.
  apply bind_Ok in H0. destruct H0 as (b & t4 & Hb & H0).
  destruct b.
  - unfold try_except, bind, call in H0.
    destruct (json_load W) as [c|x]; simpl in H0; now injection H0 as <- _.
  - unfold bind, logger, emit in H0.
    destruct (save_config _ _) as [[[]| |] t5]; try discriminate.
    now injection H0 as <- _.
Qed.

(** What [initialize] leaves in [self.extensions]: the result of the loop
    of [load_extensions] over the entries of the configuration it loaded. *)
Lemma initialize_extensions self t self' t' :
  initialized self = false ->
  initialize W self t = (Ok self', t') ->
  exists t1 t2,
    load_extensions_loop W (entries (config self')) (extensions self) t1
      = (Ok (extensions self'), t2).
Proof.
  unfold initialize. intros -> H.
  apply bind_Ok in H. destruct H as ([] & t0 & _ & H).
  apply bind_Ok in H. destruct H as ([] & t1 & _ & H).
  apply bind_Ok in H. destruct H as (self1 & t2 & Hcfg & H).
  apply bind_Ok in H. destruct H as ([] & t3 & _ & H).
  apply bind_Ok in H. destruct H as (self2 & t4 & Hext & H).
  apply bind_Ok in H. destruct H as ([] & t5 & _ & H).
  injection H as <- _. simpl.
  apply load_config_extensions in Hcfg. rewrite <- Hcfg.
  unfold load_extensions in Hext.
  apply bind_Ok in Hext. destruct Hext as (ec & t6 & Hget & Hext).
  apply bind_Ok in Hext. destruct Hext as (items & t7 & Hitems & Hext).
  apply bind_Ok in Hext. destruct Hext as (exts & t8 & Hloop & Hext).
  injection Hext as <- _. simpl.
  unfold entries. unfold py_get in Hget.
  destruct (config self1) as [| | | | |c]; try discriminate Hget.
  injection Hget as <- <-.
  unfold py_items in Hitems.
  destruct (get c "extensions" (PDict [])) as [| | | | |es]; try discriminate Hitems.
  injection Hitems as <- <-. eauto.
Qed.

(** C5.  After [initialize], a connector that the configuration switches
    off is not a key of [self.extensions], whatever files exist for it, and
    it is not a key of the data any later [collect_data] returns; such a
    round returns unless a connector ends it with [sys.exit]. *)
Theorem disabled_never_active self t self' t' name :
  initialized self = false ->
  ~ In name (keys (extensions self)) ->
  initialize W self t = (Ok self', t') ->
  disabled (config self') name ->
  ~ In name (keys (extensions self')) /\
  forall t2,
    (forall data t3, collect_data self' t2 = (Ok data, t3) -> contains data name = false) /\
    (completes (extensions self') ->
     exists data t3, collect_data self' t2 = (Ok data, t3) /\ contains data name = false).
Proof.
  intros Hinit Hfresh Hrun Hoff.
  assert (Hkeys : ~ In name (keys (extensions self'))).
  { destruct (initialize_extensions _ _ Hinit Hrun) as (t1 & t2 & Hloop).
    pose proof (@load_extensions_loop_Ok _ _ _ _ _ Hloop) as Hs.
    rewrite load_extensions_loop_eq in Hloop by exact Hs.
    injection Hloop as <- _. unfold activated.
    rewrite assign_all_keys. intros [H|(e & ext & Hin & Hact)]; [tauto|].
    apply registered_enabled in Hact.
    apply mappings_In in Hin. rewrite (Hoff e Hin) in Hact. discriminate. }
  split; [exact Hkeys|].
  assert (Hdata : forall t2 data t3,
            collect_data self' t2 = (Ok data, t3) -> contains data name = false).
  { intros t2 data t3 H. unfold collect_data in H.
    pose proof (@collect_data_loop_Ok _ _ _ _ _ H) as Hc.
    rewrite collect_data_loop_eq in H by exact Hc. injection H as <- _.
    destruct (contains _ name) eqn:E; auto.
    apply contains_keys in E. unfold collected_items in E.
    rewrite assign_all_keys in E. destruct E as [[]|(ext & v & Hin & _)].
    exfalso. apply Hkeys. change name with (fst (name, ext)). now apply in_map. }
  intros t2. split; [apply Hdata|].
  intros Hc. unfold collect_data. rewrite collect_data_loop_eq by exact Hc.
  do 2 eexists. split; [reflexivity|].
  apply (Hdata t2 _ (t2 ++ collect_logs (extensions self'))%list).
  unfold collect_data. now rewrite collect_data_loop_eq.
Qed.

End Loader.

(** An entry whose ["enabled"] value is falsy is switched off. *)
Lemma disabled_by_flag name e v :
  NoDup (keys e) -> lookup e "enabled" = Some v -> truthy v = false ->
  truthy (Extension.enabled (spec_of name e)) = false.
Proof.
  intros Hnd H Hv. unfold spec_of, Extension.from_dict, get. simpl.
  now rewrite lookup_update_present with (v := v).
Qed.

Lemma extensions_section_settles cfg :
  settles (Example.world cfg) Example.extensions_section.
Proof.
  intros name entry Hin. simpl in Hin.
  repeat (destruct Hin as [[= <- <-]|Hin];
          [unfold Example.entry; do 2 eexists; split; [reflexivity|]; reflexivity|]).
  destruct Hin.
Qed.


Lemma registry_read_after_write_witness :
  exists exts' t' extension,
    load_extension (Example.world PNone) [Example.loaded "mine" Example.quiet] "mine"
      (PDict [("enabled", PInt 1); ("config", PDict [("token", PStr "abc")])]) []
      = (Ok exts', t') /\
    lookup exts' "mine" = Some extension /\
    Extension.name extension = PStr "mine" /\
    Extension.enabled extension = PInt 1 /\
    Extension.config extension = PDict [("token", PStr "abc")] /\
    keys exts' = ["mine"].
Proof.
  destruct (@registry_read_after_write (Example.world PNone)
              [Example.loaded "mine" Example.quiet] "mine"
              (PInt 1) (PDict [("token", PStr "abc")]) [])
    as (_ & Hstored & _).
  destruct (Hstored eq_refl (UserExtensions "mine.py") eq_refl)
    as (exts' & t' & extension & H1 & H2 & H3 & H4 & H5 & _ & H7); [discriminate|].
  exists exts', t', extension. repeat split; try assumption.
  apply H7. now left.
Defined.

(** C9, as stated, fails: a spec registered with its flag off is not in
    the registry afterwards, although a file exists for it, and a later
    registration that is switched off does not overwrite the earlier one
    under the same name. *)
Lemma registry_forgets_disabled_spec :
  (exists exts' t',
     load_extension (Example.world PNone) [] "both"
       (PDict [("enabled", PBool false); ("config", PDict [("token", PStr "abc")])]) []
       = (Ok exts', t') /\
     path_exists (Example.world PNone) (builtin_path "both") = Returns true /\
     lookup exts' "both" = None) /\
  (exists exts' t' earlier,
     load_extension (Example.world PNone) [Example.loaded "mine" Example.quiet] "mine"
       (PDict [("enabled", PBool false); ("config", PDict [("token", PStr "abc")])]) []
       = (Ok exts', t') /\
     lookup exts' "mine" = Some earlier /\
     Extension.enabled earlier = PBool true /\
     Extension.config earlier = PDict []).
Proof.
  split.
  - do 2 eexists. split; [vm_compute; reflexivity|]. split; reflexivity.
  - do 3 eexists. split; [vm_compute; reflexivity|].
    split; [reflexivity|]. split; reflexivity.
Qed.

Lemma load_failures_are_isolated_witness :
  exists self' t',
    load_extensions (Example.world PNone)
      (set_config init (Example.configuration "local" PNone)) []
      = (Ok self', t') /\
    In (Log ERROR "Error loading extension syntax: invalid syntax") t' /\
    In (Log ERROR "Error loading extension badinit: no credentials") t' /\
    In (Log WARNING "Extension ghost not found") t' /\
    lookup (extensions self') "healthy"
      = Some (Extension.set_module (spec_of "healthy" [("enabled", PBool true);
                                                       ("config", PDict [])])
                                   Example.healthy).
Proof.
  destruct (@load_failures_are_isolated (Example.world PNone)
              (set_config init (Example.configuration "local" PNone))
              _ Example.extensions_section [] eq_refl eq_refl)
    as (Hcaught & _ & _).
  destruct (Hcaught (extensions_section_settles PNone))
    as (self' & t' & Hload & Herr & Hwarn & Hother).
  exists self', t'. split; [exact Hload|]. split; [|split; [|split]].
  - apply (Herr "syntax" [("enabled", PBool true); ("config", PDict [])]
             (BuiltinExtensions "syntax.py") (Exception "invalid syntax"));
      try reflexivity.
    simpl. unfold Example.entry. tauto.
  - apply (Herr "badinit" [("enabled", PBool true); ("config", PDict [])]
             (BuiltinExtensions "badinit.py") (Exception "no credentials"));
      try reflexivity.
    simpl. unfold Example.entry. tauto.
  - apply (Hwarn "ghost" [("enabled", PBool true); ("config", PDict [])]);
      try reflexivity.
    simpl. unfold Example.entry. tauto.
  - apply (Hother [] "healthy" [("enabled", PBool true); ("config", PDict [])]
             (tl Example.extensions_section) (BuiltinExtensions "healthy.py"));
      try reflexivity.
    simpl. intros H. repeat (destruct H as [H|H]; [discriminate H|]). exact H.
Defined.

(** C6, as stated, fails for a failure during location: the existence
    check of a connector whose name is too long for the file system raises,
    the exception leaves [load_extensions], and the healthy connector
    configured after it is never activated. *)
Lemma location_failure_leaves_loader :
  load_extensions (Example.world PNone)
    (set_config init
       (PDict [("extensions",
                PDict [(repeat_string "x" 256, Example.entry true []);
                       ("healthy", Example.entry true [])])]))
    []
  = (Raise (Exception ("[Errno 36] File name too long: '/opt/devassist/extensions/"
                         ++ repeat_string "x" 256 ++ ".py'")), []) /\
  load_extensions (Example.world PNone)
    (set_config init (PDict [("extensions", PDict [("healthy", Example.entry true [])])]))
    []
  = (Ok (set_extensions
           (set_config init
              (PDict [("extensions", PDict [("healthy", Example.entry true [])])]))
           [("healthy", Extension.set_module (spec_of "healthy" [("enabled", PBool true);
                                                                 ("config", PDict [])])
                          Example.healthy)]),
     [Log INFO "Loaded extension: healthy"]).
Proof. split; vm_compute; reflexivity. Qed.

(** Nor is a [sys.exit] in the body of a connector's module caught: it
    ends the loader, and here the process, before the next connector. *)
Lemma exit_during_load_leaves_loader :
  load_extensions (Example.world PNone)
    (set_config init
       (PDict [("extensions",
                PDict [("setup", Example.entry true []);
                       ("healthy", Example.entry true [])])]))
    []
  = (SysExit 3, []).
Proof. reflexivity. Qed.

Lemma disabled_never_active_witness :
  exists self' t',
    initialize (Example.world (Example.configuration "local" PNone)) init []
      = (Ok self', t') /\
    path_exists (Example.world PNone) (builtin_path "both") = Returns true /\
    ~ In "both" (keys (extensions self')) /\
    exists data t3, collect_data self' t' = (Ok data, t3) /\ contains data "both" = false.
Proof.
  destruct (initialize (Example.world (Example.configuration "local" PNone)) init [])
    as [[self'| |] t'] eqn:Hrun; try (vm_compute in Hrun; discriminate Hrun).
  destruct (@disabled_never_active (Example.world (Example.configuration "local" PNone))
              init [] self' t' "both" eq_refl (fun H => H) Hrun) as [Hkeys Hdata].
  - vm_compute in Hrun. injection Hrun as <- _.
    intros e Hin. simpl in Hin.
    repeat (destruct Hin as [Hin|Hin]; [try discriminate Hin|]); [|destruct Hin].
    injection Hin as <-. reflexivity.
  - exists self', t'. split; [reflexivity|]. split; [reflexivity|].
    split; [exact Hkeys|]. apply (Hdata t').
    vm_compute in Hrun. injection Hrun as <- _.
    intros n x Hin. simpl in Hin.
    repeat (destruct Hin as [[= <- <-]|Hin]; [reflexivity|]). destruct Hin.
Defined.

(** ** Prompt formatting *)

Lemma append_assoc (a b c : string) : (a ++ b) ++ c = a ++ (b ++ c).
Proof.
  induction a as [|ch a IH]; [reflexivity|].
  change (String ch ((a ++ b) ++ c) = String ch (a ++ (b ++ c))). now rewrite IH.
Qed.

Lemma append_empty (a : string) : a ++ "" = a.
Proof.
  induction a as [|ch a IH]; [reflexivity|].
  change (String ch (a ++ "") = String ch a). now rewrite IH.
Qed.

Lemma add_source_fold W items : forall context_str,
  fold_left (add_source W) items context_str =
  context_str ++ join (map (section_text W) items).
Proof.
  induction items as [|item items IH]; intros acc.
  - simpl. now rewrite append_empty.
  - cbn [fold_left map join]. rewrite IH. unfold add_source, section_text.
    now rewrite !append_assoc.
Qed.

(** C10.  With no context, [None] or an empty mapping, [_format_prompt]
    returns the prompt itself.  With a non-empty context it returns the
    line "Context:", then one section per key of the context, in order,
    each headed "=== key ===" and holding the JSON text of the key's value,
    then the prompt wrapped as "Task: ... Response:". *)
Theorem format_prompt_empty_or_sections W prompt :
  _format_prompt W prompt None = prompt /\
  _format_prompt W prompt (Some []) = prompt /\
  forall item context,
    _format_prompt W prompt (Some (item :: context)) =
    ("Context:" ++ nl)
      ++ join (map (section_text W) (item :: context))
      ++ nl ++ "Task: " ++ prompt ++ nl ++ nl ++ "Response:".
Proof.
  split; [reflexivity|]. split; [reflexivity|].
  intros item context. unfold _format_prompt.
  rewrite add_source_fold. now rewrite !append_assoc.
Qed.

(** ** The backends: [query_ai] *)

Section Backends.
Variable W : World.
Variables (self : DevAssist) (c : AIConfig.t).
Hypothesis Hconfig : ai_config self = Some c.

Lemma _query_local_llama_eq prompt t :
  _query_local_llama W self prompt t =
  (Ok (fst (answer W c Local prompt)), (t ++ snd (answer W c Local prompt))%list).
Proof.
  unfold _query_local_llama, answer, generated, completion, import_package,
    the_ai_config, try_except, bind, call, emit, logger, raise, ret.
  rewrite Hconfig. destruct (package_installed W Local); [|reflexivity].
  destruct (truthy (AIConfig.local_model_path c)); simpl;
    [| now rewrite app_nil_r].
  destruct (model_path_exists W _) as [[|]|x]; simpl;
    [| now rewrite app_nil_r | reflexivity].
  destruct (llama W _ _) as [text|x]; simpl; [reflexivity|].
  now rewrite <- app_assoc.
Qed.

Lemma _query_claude_eq prompt t :
  _query_claude W self prompt t =
  (Ok (fst (answer W c Claude prompt)), (t ++ snd (answer W c Claude prompt))%list).
Proof.
  unfold _query_claude, answer, generated, completion, import_package,
    the_ai_config, try_except, bind, call, emit, logger, raise, ret.
  rewrite Hconfig. destruct (package_installed W Claude); [|reflexivity].
  destruct (truthy (AIConfig.api_key c)); simpl; [| now rewrite app_nil_r].
  destruct (anthropic_messages_create W _ _ _) as [text|x]; simpl; [reflexivity|].
  now rewrite <- app_assoc.
Qed.

Lemma _query_openai_eq prompt t :
  _query_openai W self prompt t =
  (Ok (fst (answer W c OpenAI prompt)), (t ++ snd (answer W c OpenAI prompt))%list).
Proof.
  unfold _query_openai, answer, generated, completion, import_package,
    the_ai_config, try_except, bind, call, emit, logger, raise, ret.
  rewrite Hconfig. destruct (package_installed W OpenAI); [|reflexivity].
  destruct (truthy (AIConfig.api_key c)); simpl; [| now rewrite app_nil_r].
  destruct (openai_chat_completion_create W _ _ _) as [text|x]; simpl; [reflexivity|].
  now rewrite <- app_assoc.
Qed.

Lemma query_ai_eq prompt context t :
  query_ai W self prompt context t =
  match selected (AIConfig.provider c) with
  | Some b =>
      (Ok (fst (answer W c b (_format_prompt W prompt context))),
       (t ++ snd (answer W c b (_format_prompt W prompt context)))%list)
  | None =>
      (Ok "Error: Unable to query AI model",
       (t ++ [Log ERROR ("Unknown AI provider: " ++ format W (AIConfig.provider c))])%list)
  end.
Proof.
  unfold query_ai, selected, the_ai_config. rewrite Hconfig.
  unfold bind at 1. unfold ret at 1.
  destruct (eq_str (AIConfig.provider c) "local"); [apply _query_local_llama_eq|].
  destruct (eq_str (AIConfig.provider c) "claude"); [apply _query_claude_eq|].
  destruct (eq_str (AIConfig.provider c) "openai"); [apply _query_openai_eq|].
  reflexivity.
Qed.

Lemma generated_generates b prompt :
  generates (snd (generated W c b prompt)) = [b].
Proof. unfold generated. now destruct (completion W c b prompt). Qed.

Lemma generated_failure b prompt x :
  completion W c b prompt = Raises x ->
  fst (generated W c b prompt) = query_error b x.
Proof. unfold generated. now intros ->. Qed.

(** A backend makes its own completion call at most once, and answers with
    its error message when that call raises. *)
Lemma answer_generates b prompt :
  (generates (snd (answer W c b prompt)) = [] \/
   generates (snd (answer W c b prompt)) = [b]) /\
  forall b' x,
    In b' (generates (snd (answer W c b prompt))) ->
    completion W c b' prompt = Raises x ->
    fst (answer W c b prompt) = query_error b' x.
Proof.
  assert (Hgen : forall b' x,
            In b' (generates (snd (generated W c b prompt))) ->
            completion W c b' prompt = Raises x ->
            fst (generated W c b prompt) = query_error b' x).
  { intros b' x. rewrite generated_generates. intros [<-|[]].
    apply generated_failure. }
  unfold answer. destruct (package_installed W b); [|split; [now left | intros ? ? []]].
  destruct b.
  - destruct (truthy _); [|split; [now left | intros ? ? []]].
    destruct (model_path_exists W _) as [[|]|x];
      try (split; [now left | intros ? ? []]).
    split; [right; apply generated_generates | exact Hgen].
  - destruct (truthy _); [|split; [now left | intros ? ? []]].
    split; [right; apply generated_generates | exact Hgen].
  - destruct (truthy _); [|split; [now left | intros ? ? []]].
    split; [right; apply generated_generates | exact Hgen].
Qed.

(** At startup: the package of the selected backend is imported, and the
    process exits when there is no such backend or no such package. *)
Lemma load_ai_provider_eq t :
  fst (load_ai_provider W self t) =
  match selected (AIConfig.provider c) with
  | Some b => if package_installed W b then Ok tt else SysExit 1
  | None => SysExit 1
  end.
Proof.
  unfold load_ai_provider, selected, the_ai_config. rewrite Hconfig.
  unfold bind at 1. unfold ret at 1. cbv zeta.
  unfold try_except, import_package, bind, logger, emit, sys_exit, raise, ret.
  destruct (eq_str (AIConfig.provider c) "local");
    [now destruct (package_installed W Local)|].
  destruct (eq_str (AIConfig.provider c) "claude");
    [now destruct (package_installed W Claude)|].
  destruct (eq_str (AIConfig.provider c) "openai");
    [now destruct (package_installed W OpenAI)|].
  reflexivity.
Qed.

End Backends.

(** A backend that has what it needs makes its completion call. *)
Lemma answer_ready W c b prompt :
  ready W c b -> answer W c b prompt = generated W c b prompt.
Proof.
  intros [Hpkg Hready]. unfold answer. rewrite Hpkg. destruct b.
  - destruct Hready as [-> ->]. reflexivity.
  - now rewrite Hready.
  - now rewrite Hready.
Qed.

(** C8.  [query_ai] reads nothing of the application object but its
    [AIConfig], and it hands the formatted prompt to the implementation
    [AIConfig.provider] stands for: [_query_local_llama] for "local",
    [_query_claude] for "claude", [_query_openai] for "openai", and to none
    for any other value.  It always returns an answer; a completion call,
    if one is made, is that of the selected backend, and it is made at most
    once; when the selected backend has what it needs, its completion call
    is made exactly once and the answer is what that call returned, or
    that backend's error message when the call raised: no other backend is
    tried.  At startup [load_ai_provider] goes by the same selection: it
    returns when the provider stands for a backend whose package is
    installed and exits with status 1 otherwise. *)
Theorem backend_selection_is_static W self c prompt context t :
  ai_config self = Some c ->
  (forall self', ai_config self' = Some c ->
     query_ai W self' prompt context t = query_ai W self prompt context t) /\
  fst (load_ai_provider W self t) =
    match selected (AIConfig.provider c) with
    | Some b => if package_installed W b then Ok tt else SysExit 1
    | None => SysExit 1
    end /\
  query_ai W self prompt context t =
    match selected (AIConfig.provider c) with
    | Some Local => _query_local_llama W self (_format_prompt W prompt context) t
    | Some Claude => _query_claude W self (_format_prompt W prompt context) t
    | Some OpenAI => _query_openai W self (_format_prompt W prompt context) t
    | None =>
        (Ok "Error: Unable to query AI model",
         (t ++ [Log ERROR ("Unknown AI provider: " ++ format W (AIConfig.provider c))])%list)
    end /\
  exists r new,
    query_ai W self prompt context t = (Ok r, (t ++ new)%list) /\
    (generates new = [] \/
     exists b, selected (AIConfig.provider c) = Some b /\ generates new = [b]) /\
    (forall b,
       selected (AIConfig.provider c) = Some b ->
       ready W c b ->
       generates new = [b] /\
       r = match completion W c b (_format_prompt W prompt context) with
           | Returns text => text
           | Raises x => query_error b x
           end) /\
    (forall b x,
       In b (generates new) ->
       completion W c b (_format_prompt W prompt context) = Raises x ->
       r = query_error b x).
Proof.
  intros Hc. split; [|split; [|split]].
  - intros self' Hc'.
    now rewrite (@query_ai_eq W self c Hc), (@query_ai_eq W self' c Hc').
  - now apply load_ai_provider_eq.
  - unfold query_ai, selected, the_ai_config. rewrite Hc.
    unfold bind at 1. unfold ret at 1. cbv zeta.
    destruct (eq_str (AIConfig.provider c) "local"); [reflexivity|].
    destruct (eq_str (AIConfig.provider c) "claude"); [reflexivity|].
    destruct (eq_str (AIConfig.provider c) "openai"); reflexivity.
  - rewrite (@query_ai_eq W self c Hc).
    destruct (selected (AIConfig.provider c)) as [b|].
    + do 2 eexists. split; [reflexivity|].
      destruct (answer_generates W c b (_format_prompt W prompt context)) as [Hg Hx].
      split; [|split; [|exact Hx]].
      * destruct Hg as [Hg|Hg]; [now left | right; eauto].
      * intros b' [= <-] Hready. rewrite (answer_ready _ Hready).
        unfold generated.
        destruct (completion W c b (_format_prompt W prompt context)); auto.
    + do 2 eexists. split; [reflexivity|].
      split; [now left|]. split; [discriminate | intros ? ? []].
Qed.

Lemma backend_selection_is_static_witness :
  exists r new,
    query_ai (Example.world PNone)
      (set_ai_config init {| AIConfig.provider := PStr "openai"; AIConfig.model := PStr "";
                             AIConfig.api_key := PStr "sk-1"; AIConfig.api_url := PNone;
                             AIConfig.local_model_path := PNone |})
      "Summarize" None [] = (Ok r, new) /\
    generates new = [OpenAI] /\
    r = "Error querying OpenAI API: connection reset".
Proof.
  destruct (@backend_selection_is_static (Example.world PNone)
              (set_ai_config init {| AIConfig.provider := PStr "openai";
                                     AIConfig.model := PStr "";
                                     AIConfig.api_key := PStr "sk-1";
                                     AIConfig.api_url := PNone;
                                     AIConfig.local_model_path := PNone |})
              _ "Summarize" None [] eq_refl)
    as (_ & _ & _ & r & new & Hq & _ & Hready & _).
  destruct (Hready OpenAI eq_refl (conj eq_refl eq_refl)) as [Hgen Hr].
  exists r, new. split; [exact Hq|]. split; [exact Hgen | exact Hr].
Defined.

(** ** Computations that make no completion call *)

Lemma generates_app t1 t2 :
  generates (t1 ++ t2) = (generates t1 ++ generates t2)%list.
Proof. unfold generates. apply flat_map_app. Qed.

Lemma generates_Log t lvl msg : generates (t ++ [Log lvl msg]) = generates t.
Proof. rewrite generates_app. simpl. apply app_nil_r. Qed.

Lemma generates_printed t summary : generates (t ++ printed summary) = generates t.
Proof. rewrite generates_app. simpl. apply app_nil_r. Qed.

Lemma silent_ret {A} (a : A) : silent (ret a).
Proof. intros t. reflexivity. Qed.

Lemma silent_raise {A} (e : exn) : silent (@raise A e).
Proof. intros t. reflexivity. Qed.

Lemma silent_sys_exit {A} (n : Z) : silent (@sys_exit A n).
Proof. intros t. reflexivity. Qed.

Lemma silent_call {A} (r : result A) : silent (call r).
Proof. destruct r; intros t; reflexivity. Qed.

Lemma silent_run_code {A} (o : outcome A) : silent (run_code o).
Proof. intros t. reflexivity. Qed.

Lemma silent_logger lvl msg : silent (logger lvl msg).
Proof. intros t. apply generates_Log. Qed.

Lemma silent_bind {A B} (c : M A) (k : A -> M B) :
  silent c -> (forall a, silent (k a)) -> silent (bind c k).
Proof.
  intros Hc Hk t. unfold bind. specialize (Hc t).
  destruct (c t) as [[a| |] t1]; simpl in *; auto.
  now rewrite Hk.
Qed.

Lemma silent_try_except {A} (body : M A) (handler : exn -> M A) :
  silent body -> (forall e, silent (handler e)) -> silent (try_except body handler).
Proof.
  intros Hb Hh t. unfold try_except. specialize (Hb t).
  destruct (body t) as [[a|e|] t1]; simpl in *; auto.
  now rewrite Hh.
Qed.

Ltac silence :=
  cbv zeta;
  repeat first
    [ match goal with
      | H : forall _, _ |- silent _ => apply H
      | |- silent (if ?b then _ else _) => destruct b
      | |- silent (match ?x with _ => _ end) => destruct x
      end
    | apply silent_ret | apply silent_raise | apply silent_sys_exit
    | apply silent_call | apply silent_run_code | apply silent_logger
    | apply silent_bind; [|intros ?]
    | apply silent_try_except; [|intros ?] ].

Section Driver.
Variable W : World.

Lemma silent_py_get v k default : silent (py_get v k default).
Proof. unfold py_get. silence. Qed.

Lemma silent_load_config self : silent (load_config W self).
Proof.
  unfold load_config, save_config, AIConfig.from_dict.
  pose proof silent_py_get. silence.
Qed.

Lemma silent_load_ai_provider self : silent (load_ai_provider W self).
Proof. unfold load_ai_provider, the_ai_config, import_package. silence. Qed.

Lemma silent_load_extension exts name entry : silent (load_extension W exts name entry).
Proof. unfold load_extension, py_unpack, _load_extension_module. silence. Qed.

Lemma silent_load_extensions_loop items :
  forall exts, silent (load_extensions_loop W items exts).
Proof.
  induction items as [|[name entry] items IH]; intros exts; simpl.
  - apply silent_ret.
  - apply silent_bind; [apply silent_load_extension | intros; apply IH].
Qed.

Lemma silent_initialize self : silent (initialize W self).
Proof.
  unfold initialize, load_extensions, py_items.
  pose proof silent_py_get. pose proof silent_load_config.
  pose proof silent_load_ai_provider. pose proof silent_load_extensions_loop.
  silence.
Qed.

Lemma generates_collect_logs items : generates (collect_logs items) = [].
Proof.
  induction items as [|[name extension] items IH]; simpl; auto.
  rewrite generates_app, IH. unfold collect_log.
  now destruct (collect_failure extension).
Qed.

Lemma assign_all_none {A B} (f : string -> B -> option A) items : forall d,
  (forall name x, In (name, x) items -> f name x = None) ->
  assign_all f items d = d.
Proof.
  induction items as [|[name x] items IH]; intros d H; auto.
  rewrite assign_all_cons, (H name x) by now left.
  apply IH. intros n y Hin. apply H. now right.
Qed.

(** [initialize] returns on a configuration file of the documented shape
    that names a backend whose package is installed. *)
Lemma initialize_returns self t cfg ai b items :
  initialized self = false ->
  mkdir_config_dir W = Returns tt ->
  mkdir_extensions_dir W = Returns tt ->
  config_file_exists W = Returns true ->
  json_load W = Returns (PDict cfg) ->
  get cfg "ai" (PDict []) = PDict ai ->
  selected (get ai "provider" (PStr "local")) = Some b ->
  package_installed W b = true ->
  get cfg "extensions" (PDict []) = PDict items ->
  settles W items ->
  initialize W self t =
  (Ok {| config := PDict cfg;
         ai_config := Some (ai_config_of ai);
         extensions := activated W (mappings items) (extensions self);
         initialized := true |},
   (t ++ [Log INFO ("Configuration loaded from " ++ config_file W);
          Log INFO (using_line b)]
      ++ activation_log W (mappings items)
      ++ [Log INFO "DevAssist initialized"])%list).
Proof.
  intros Hinit Hm1 Hm2 Hex Hload Hai Hsel Hpkg Hitems Hwf.
  unfold initialize. rewrite Hinit, Hm1, Hm2.
  unfold bind at 1. unfold call at 1. unfold ret at 1.
  unfold bind at 1. unfold call at 1. unfold ret at 1.
  assert (Hcfg : load_config W self t =
                 (Ok (set_ai_config (set_config self (PDict cfg)) (ai_config_of ai)),
                  (t ++ [Log INFO ("Configuration loaded from " ++ config_file W)])%list)).
  { rewrite (@load_config_step W self t _ Hex). rewrite Hload.
    unfold try_except, bind, call, logger, emit, ret, py_get. simpl.
    now rewrite Hai. }
  unfold bind at 1. rewrite Hcfg.
  set (self1 := set_ai_config (set_config self (PDict cfg)) (ai_config_of ai)).
  set (t1 := (t ++ [Log INFO ("Configuration loaded from " ++ config_file W)])%list).
  assert (Hprov : load_ai_provider W self1 t1 = (Ok tt, (t1 ++ [Log INFO (using_line b)])%list)).
  { unfold load_ai_provider, the_ai_config. simpl.
    unfold bind at 1. unfold ret at 1. cbv zeta.
    change (AIConfig.provider (ai_config_of ai)) with (get ai "provider" (PStr "local")).
    unfold selected in Hsel.
    unfold try_except, import_package, bind, logger, emit, ret.
    destruct (eq_str (get ai "provider" (PStr "local")) "local");
      [injection Hsel as <-; now rewrite Hpkg|].
    destruct (eq_str (get ai "provider" (PStr "local")) "claude");
      [injection Hsel as <-; now rewrite Hpkg|].
    destruct (eq_str (get ai "provider" (PStr "local")) "openai");
      [injection Hsel as <-; now rewrite Hpkg | discriminate]. }
  unfold bind at 1. rewrite Hprov.
  unfold bind at 1.
  rewrite (@load_extensions_eq W self1 cfg items _ eq_refl Hitems Hwf).
  unfold bind, logger, emit, ret. simpl. f_equal.
  unfold t1. now rewrite <- !app_assoc.
Qed.

(** [run], once its three stages are known. *)
Lemma run_eq self0 t0 self t1 data t2 summary t3 :
  initialize W self0 t0 = (Ok self, t1) ->
  collect_data self t1 = (Ok data, t2) ->
  process_data W self data t2 = (Ok summary, t3) ->
  run W self0 t0 = (Ok tt, (t3 ++ printed summary)%list).
Proof.
  intros H1 H2 H3. unfold run.
  unfold bind. rewrite H1. cbv beta iota. rewrite H2. cbv beta iota. rewrite H3.
  unfold print, emit, printed. simpl. now rewrite <- !app_assoc.
Qed.

(** C2 (as amended).  When no connector yields data in a round (none is
    enabled, or every collection fails or comes back empty) and none ends
    the process, the result of [collect_data] is empty and the driver does
    not call the backend: [process_data] returns the fixed message without
    an event, [run] prints that message, and no completion call is made in
    the whole run. *)
Theorem no_data_skips_backend self0 t0 self t1 :
  initialize W self0 t0 = (Ok self, t1) ->
  (forall name extension,
     In (name, extension) (extensions self) -> collected extension = None) ->
  completes (extensions self) ->
  exists t2,
    collect_data self t1 = (Ok [], t2) /\
    process_data W self [] t2 = (Ok "No data collected from extensions.", t2) /\
    run W self0 t0 = (Ok tt, (t2 ++ printed "No data collected from extensions.")%list) /\
    generates (t2 ++ printed "No data collected from extensions.") = generates t0.
Proof.
  intros Hinit Hnone Hstay.
  assert (Hcollect : collect_data self t1 =
                     (Ok [], (t1 ++ collect_logs (extensions self))%list)).
  { unfold collect_data. rewrite collect_data_loop_eq by exact Hstay.
    unfold collected_items. now rewrite assign_all_none. }
  eexists. split; [exact Hcollect|]. split; [reflexivity|]. split.
  - eapply run_eq; [exact Hinit | exact Hcollect | reflexivity].
  - rewrite generates_printed, generates_app, generates_collect_logs, app_nil_r.
    pose proof (silent_initialize self0 t0) as Hs. now rewrite Hinit in Hs.
Qed.

(** C7 (as amended).  With a remote backend selected, its package
    installed and no API key configured, [query_ai] makes no completion
    call and answers with the backend's "API key not configured" error.
    That error is what [run] prints when the round collected data; when the
    round collected nothing, [run] prints the "no data" message instead and
    the backend is not asked at all. *)
Theorem missing_credential self0 t0 self t1 data t c b :
  initialize W self0 t0 = (Ok self, t1) ->
  collect_data self t1 = (Ok data, t) ->
  ai_config self = Some c ->
  selected (AIConfig.provider c) = Some b ->
  b <> Local ->
  package_installed W b = true ->
  truthy (AIConfig.api_key c) = false ->
  (forall prompt context t',
     query_ai W self prompt context t' = (Ok (not_configured b), t')) /\
  run W self0 t0 =
  (Ok tt, (t ++ printed (match data with
                         | [] => "No data collected from extensions."
                         | _ :: _ => not_configured b
                         end))%list).
Proof.
  intros Hinit Hcollect Hc Hsel Hremote Hpkg Hkey.
  assert (Hq : forall prompt context t',
             query_ai W self prompt context t' = (Ok (not_configured b), t')).
  { intros prompt context t'. rewrite (@query_ai_eq W self c Hc), Hsel.
    unfold answer. rewrite Hpkg.
    destruct b; [congruence| |]; rewrite Hkey; simpl; now rewrite app_nil_r. }
  split; [exact Hq|].
  eapply run_eq; [exact Hinit | exact Hcollect |].
  destruct data as [|item data]; [reflexivity|]. apply Hq.
Qed.

End Driver.

Lemma no_data_skips_backend_witness :
  exists t',
    run (Example.world (Example.all_disabled "local" PNone)) init [] = (Ok tt, t') /\
    In (Print "No data collected from extensions.") t' /\
    generates t' = [].
Proof.
  destruct (initialize (Example.world (Example.all_disabled "local" PNone)) init [])
    as [[self| |] t1] eqn:Hinit; try (vm_compute in Hinit; discriminate Hinit).
  destruct (@no_data_skips_backend (Example.world (Example.all_disabled "local" PNone))
              init [] self t1 Hinit) as (t2 & _ & _ & Hrun & Hgen).
  - vm_compute in Hinit. injection Hinit as <- _. intros name extension [].
  - vm_compute in Hinit. injection Hinit as <- _. intros name extension [].
  - eexists. split; [exact Hrun|]. split; [|exact Hgen].
    apply in_or_app. right. simpl. tauto.
Defined.

(** C2, as stated, fails: with no connector enabled and the Claude backend
    fully configured, the run makes no completion call at all; it prints
    the fixed "no data" message. *)
Lemma empty_round_backend_not_invoked :
  exists t',
    run (Example.world (Example.all_disabled "claude" (PStr "sk-1"))) init [] = (Ok tt, t') /\
    (forall b prompt, ~ In (Generate b prompt) t') /\
    In (Print "No data collected from extensions.") t'.
Proof.
  eexists. split; [vm_compute; reflexivity|]. split.
  - intros b prompt H. simpl in H.
    repeat (destruct H as [H|H]; [discriminate H|]). exact H.
  - simpl. tauto.
Qed.

Lemma missing_credential_witness :
  exists t',
    run (Example.world (Example.one_healthy "claude" PNone)) init [] = (Ok tt, t') /\
    In (Print "Error: Claude API key not configured") t'.
Proof.
  destruct (initialize (Example.world (Example.one_healthy "claude" PNone)) init [])
    as [[self| |] t1] eqn:Hinit; try (vm_compute in Hinit; discriminate Hinit).
  assert (Hself := Hinit). vm_compute in Hself. injection Hself as Hself _.
  destruct (collect_data self t1) as [[data| |] t] eqn:Hcollect;
    try (rewrite <- Hself in Hcollect; vm_compute in Hcollect; discriminate Hcollect).
  assert (Hdata : data <> []).
  { rewrite <- Hself in Hcollect. vm_compute in Hcollect.
    injection Hcollect as <- _. discriminate. }
  destruct (@missing_credential (Example.world (Example.one_healthy "claude" PNone))
              init [] self t1 data t
              {| AIConfig.provider := PStr "claude"; AIConfig.model := PStr "";
                 AIConfig.api_key := PNone; AIConfig.api_url := PNone;
                 AIConfig.local_model_path := PNone |}
              Claude Hinit Hcollect) as [_ Hrun];
    try reflexivity; try discriminate.
  - now rewrite <- Hself.
  - eexists. split; [exact Hrun|].
    apply in_or_app. right. destruct data; [congruence|]. simpl. tauto.
Defined.

(** C7, as stated, fails: with the Claude backend selected, no API key and
    no data collected, what the run prints is the "no data" message, not
    the credential error. *)
Lemma missing_credential_not_reported_without_data :
  exists t',
    run (Example.world (Example.all_disabled "claude" PNone)) init [] = (Ok tt, t') /\
    In (Print "No data collected from extensions.") t' /\
    ~ In (Print "Error: Claude API key not configured") t'.
Proof.
  eexists. split; [vm_compute; reflexivity|]. split.
  - simpl. tauto.
  - intros H. simpl in H.
    repeat (destruct H as [H|H]; [discriminate H|]). exact H.
Qed.

(** * Further properties of the driver *)

Section DriverMore.
Variable W : World.

Lemma initialize_initialized self t self' t' :
  initialize W self t = (Ok self', t') -> initialized self' = true.
Proof.
  unfold initialize. destruct (initialized self) eqn:Hi.
  - intros [= <- _]. exact Hi.
  - intros H.
    apply bind_Ok in H. destruct H as ([] & t0 & _ & H).
    apply bind_Ok in H. destruct H as ([] & t1 & _ & H).
    apply bind_Ok in H. destruct H as (self1 & t2 & _ & H).
    apply bind_Ok in H. destruct H as ([] & t3 & _ & H).
    apply bind_Ok in H. destruct H as (self2 & t4 & _ & H).
    apply bind_Ok in H. destruct H as ([] & t5 & _ & H).
    now injection H as <- _.
Qed.

(** X1.  Once [initialize] has returned, calling it again changes nothing:
    the object is returned as it is and nothing is logged, loaded or read
    again. *)
Theorem initialize_twice self t self' t' :
  initialize W self t = (Ok self', t') ->
  forall t2, initialize W self' t2 = (Ok self', t2).
Proof.
  intros H t2. apply initialize_initialized in H.
  unfold initialize. now rewrite H.
Qed.

Lemma default_ai_config_read self t :
  (ai <- py_get (config (set_config self (create_default_config W))) "ai" (PDict []) ;;
   ai_config <- AIConfig.from_dict ai ;;
   ret (set_ai_config (set_config self (create_default_config W)) ai_config)) t
  = (Ok (set_ai_config (set_config self (create_default_config W)) (default_ai_config W)),
     t).
Proof. reflexivity. Qed.

(** X2.  A configuration file that exists but cannot be parsed does not
    stop [load_config]: the error is logged, the default configuration is
    taken (provider "local", model "llama3") and nothing is saved over the
    unreadable file. *)
Theorem load_config_unreadable self t x :
  config_file_exists W = Returns true ->
  json_load W = Raises x ->
  load_config W self t =
  (Ok (set_ai_config (set_config self (create_default_config W)) (default_ai_config W)),
   (t ++ [Log ERROR ("Error loading configuration: " ++ exn_msg x)])%list).
Proof.
  intros Hex Hload. rewrite (@load_config_step W self t _ Hex).
  unfold bind at 1. unfold try_except, bind at 1, call. rewrite Hload.
  unfold raise, bind at 1, logger, emit, ret at 1.
  apply default_ai_config_read.
Qed.

(** X3.  Without a configuration file [load_config] takes the default
    configuration and tries to save it; it returns even when the file
    cannot be written, the failure being logged only. *)
Theorem load_config_missing self t :
  config_file_exists W = Returns false ->
  load_config W self t =
  (Ok (set_ai_config (set_config self (create_default_config W)) (default_ai_config W)),
   (t ++ [Log INFO "Configuration file not found, creating default";
          save_log W (create_default_config W)])%list).
Proof.
  intros Hex. rewrite (@load_config_step W self t _ Hex).
  unfold bind at 1. unfold bind at 1. unfold logger at 1, emit.
  unfold bind at 1. unfold save_config, save_log, try_except, bind at 1, call.
  change (config (set_config self (create_default_config W)))
    with (create_default_config W).
  destruct (json_dump W (create_default_config W)) as [[]|x];
    unfold raise, ret at 1, logger, emit, ret at 1; cbv beta iota;
    rewrite <- app_assoc; apply default_ai_config_read.
Qed.

(** X4.  A configuration file that parses to something other than an
    object, or whose "ai" section is not an object, is not caught by the
    handler of [load_config]: the [AttributeError] of [.get] propagates. *)
Theorem load_config_not_an_object self t v :
  config_file_exists W = Returns true ->
  (json_load W = Returns v \/
   exists cfg, json_load W = Returns (PDict cfg) /\ get cfg "ai" (PDict []) = v) ->
  (forall d, v <> PDict d) ->
  load_config W self t =
  (Raise (Exception ("'" ++ type_name v ++ "' object has no attribute 'get'")),
   (t ++ [Log INFO ("Configuration loaded from " ++ config_file W)])%list).
Proof.
  intros Hex Hload Hv. rewrite (@load_config_step W self t _ Hex).
  unfold bind at 1. unfold try_except, bind at 1, call.
  destruct Hload as [Hload|(cfg & Hload & Hai)]; rewrite Hload;
    unfold ret at 1, bind at 1, logger, emit, ret at 1; simpl config.
  - unfold bind, py_get. destruct v; try reflexivity. now destruct (Hv d).
  - unfold bind at 1. unfold py_get at 1. unfold ret at 1. rewrite Hai.
    unfold AIConfig.from_dict, bind, py_get.
    destruct v; try reflexivity. now destruct (Hv d).
Qed.

(** [load_config] on a file of the documented shape. *)
Lemma load_config_eq self t cfg ai :
  config_file_exists W = Returns true ->
  json_load W = Returns (PDict cfg) ->
  get cfg "ai" (PDict []) = PDict ai ->
  load_config W self t =
  (Ok (set_ai_config (set_config self (PDict cfg)) (ai_config_of ai)),
   (t ++ [Log INFO ("Configuration loaded from " ++ config_file W)])%list).
Proof.
  intros Hex Hload Hai. rewrite (@load_config_step W self t _ Hex). rewrite Hload.
  unfold try_except, bind, call, logger, emit, ret, py_get. simpl.
  now rewrite Hai.
Qed.

(** X5.  When the configured provider stands for no backend, or for one
    whose package cannot be imported, the run ends at startup with exit
    status 1: the error is logged, no extension is loaded, nothing is
    collected or printed. *)
Theorem run_exits_without_backend self t cfg ai :
  initialized self = false ->
  mkdir_config_dir W = Returns tt ->
  mkdir_extensions_dir W = Returns tt ->
  config_file_exists W = Returns true ->
  json_load W = Returns (PDict cfg) ->
  get cfg "ai" (PDict []) = PDict ai ->
  (forall b, selected (get ai "provider" (PStr "local")) = Some b ->
             package_installed W b = false) ->
  exists msg,
    run W self t =
    (SysExit 1,
     (t ++ [Log INFO ("Configuration loaded from " ++ config_file W);
            Log ERROR msg])%list).
Proof.
  intros Hinit Hm1 Hm2 Hex Hload Hai Hnone.
  unfold run, initialize. rewrite Hinit, Hm1, Hm2.
  unfold bind at 1. unfold bind at 1. unfold call at 1. unfold ret at 1.
  unfold bind at 1. unfold call at 1. unfold ret at 1.
  unfold bind at 1. rewrite (load_config_eq self t Hex Hload Hai).
  set (t1 := (t ++ [Log INFO ("Configuration loaded from " ++ config_file W)])%list).
  unfold bind at 1.
  unfold load_ai_provider, the_ai_config. simpl ai_config.
  unfold bind at 1. unfold ret at 1. cbv zeta.
  change (AIConfig.provider (ai_config_of ai)) with (get ai "provider" (PStr "local")).
  unfold selected in Hnone.
  unfold try_except, import_package, bind, logger, emit, sys_exit, raise, ret.
  destruct (eq_str (get ai "provider" (PStr "local")) "local").
  { rewrite (Hnone Local eq_refl). unfold t1. rewrite <- app_assoc. eexists. reflexivity. }
  destruct (eq_str (get ai "provider" (PStr "local")) "claude").
  { rewrite (Hnone Claude eq_refl). unfold t1. rewrite <- app_assoc. eexists. reflexivity. }
  destruct (eq_str (get ai "provider" (PStr "local")) "openai").
  { rewrite (Hnone OpenAI eq_refl). unfold t1. rewrite <- app_assoc. eexists. reflexivity. }
  unfold t1. rewrite <- app_assoc. eexists. reflexivity.
Qed.

End DriverMore.

Lemma initialize_twice_witness :
  exists self' t',
    initialize (Example.world (Example.configuration "local" PNone)) init []
      = (Ok self', t') /\
    initialize (Example.world (Example.configuration "local" PNone)) self' t'
      = (Ok self', t').
Proof.
  destruct (initialize (Example.world (Example.configuration "local" PNone)) init [])
    as [[self'| |] t'] eqn:Hrun; try (vm_compute in Hrun; discriminate Hrun).
  exists self', t'. split; [reflexivity|].
  exact (initialize_twice _ _ _ Hrun t').
Defined.

Lemma load_config_unreadable_witness :
  exists self' t',
    load_config
      (Scenario.world (Some (Raises (Exception "Expecting value: line 1 column 1 (char 0)")))
                      true (fun _ => true))
      init [] = (Ok self', t') /\
    ai_config self' =
      Some {| AIConfig.provider := PStr "local"; AIConfig.model := PStr "llama3";
              AIConfig.api_key := PNone; AIConfig.api_url := PNone;
              AIConfig.local_model_path := PStr "/home/dev/.cache/devassist/models/llama3" |} /\
    t' = [Log ERROR "Error loading configuration: Expecting value: line 1 column 1 (char 0)"].
Proof.
  do 2 eexists. split.
  - apply load_config_unreadable with
      (x := Exception "Expecting value: line 1 column 1 (char 0)"); reflexivity.
  - split; reflexivity.
Defined.

Lemma load_config_missing_witness :
  exists self',
    load_config (Scenario.world None false (fun _ => true)) init [] =
    (Ok self',
     [Log INFO "Configuration file not found, creating default";
      Log ERROR "Error saving configuration: Permission denied"]) /\
    config self' = create_default_config (Scenario.world None false (fun _ => true)).
Proof.
  eexists. split.
  - apply (@load_config_missing (Scenario.world None false (fun _ => true)) init []).
    reflexivity.
  - reflexivity.
Defined.

Lemma load_config_not_an_object_witness :
  load_config (Scenario.world (Some (Returns (PList []))) true (fun _ => true)) init [] =
  (Raise (Exception "'list' object has no attribute 'get'"),
   [Log INFO "Configuration loaded from /home/dev/.devassist/config.json"]).
Proof.
  apply (@load_config_not_an_object
           (Scenario.world (Some (Returns (PList []))) true (fun _ => true))
           init [] (PList [])).
  - reflexivity.
  - left. reflexivity.
  - discriminate.
Defined.

Lemma run_exits_without_backend_witness :
  exists msg,
    run (Scenario.world (Some (Returns (Example.configuration "claude" (PStr "sk-1"))))
                        true (Scenario.only Local))
        init [] =
    (SysExit 1,
     [Log INFO "Configuration loaded from /home/dev/.devassist/config.json";
      Log ERROR msg]).
Proof.
  apply (@run_exits_without_backend
           (Scenario.world (Some (Returns (Example.configuration "claude" (PStr "sk-1"))))
                           true (Scenario.only Local))
           init []
           [("ai", Example.ai "claude" (PStr "sk-1"));
            ("extensions", PDict Example.extensions_section)]
           [("provider", PStr "claude"); ("model", PStr ""); ("api_key", PStr "sk-1")]);
    try reflexivity.
  intros b Hb. vm_compute in Hb. injection Hb as <-. reflexivity.
Defined.

(** * Further properties of the loader and of the aggregator *)

Section LoaderMore.
Variable W : World.

(** X6.  An entry of the ["extensions"] section that is not a mapping stops
    [load_extensions]: the connectors before it have been handled, the
    [TypeError] of the dictionary display propagates, and the connectors
    after it are never looked at. *)
Theorem load_extensions_not_a_mapping self c items1 name v items2 t :
  config self = PDict c ->
  get c "extensions" (PDict []) = PDict (items1 ++ (name, v) :: items2) ->
  settles W items1 ->
  (forall d, v <> PDict d) ->
  load_extensions W self t =
  (Raise (Exception ("'" ++ type_name v ++ "' object is not a mapping")),
   (t ++ activation_log W (mappings items1))%list).
Proof.
  intros Hc Hitems Hs Hv. unfold load_extensions, py_get. rewrite Hc.
  unfold bind at 1. unfold ret at 1. rewrite Hitems.
  unfold bind at 1. unfold py_items, ret at 1.
  unfold bind at 1. rewrite load_extensions_loop_app by exact Hs.
  simpl. unfold bind, load_extension, py_unpack.
  destruct v; try reflexivity. now destruct (Hv d).
Qed.

(** X7.  A connector whose file is found but fails to load is still
    registered in [self.extensions], without a module; in a later round
    [collect_data] passes over it without calling or logging anything. *)
Theorem failed_load_is_registered_inert exts name e p x t :
  truthy (Extension.enabled (spec_of name e)) = true ->
  located W name = Returns (Some p) ->
  load_result W (spec_of name e) p = Raise x ->
  exists exts' t' extension,
    load_extension W exts name (PDict e) t = (Ok exts', t') /\
    lookup exts' name = Some extension /\
    Extension.module extension = None /\
    forall data t2, collect_extension data name extension t2 = (Ok data, t2).
Proof.
  intros Hen Hloc Hres. rewrite load_extension_eq.
  unfold activation. rewrite Hen, Hloc, Hres. simpl.
  do 3 eexists. split; [reflexivity|]. split; [apply lookup_setitem_eq|].
  split; [reflexivity|].
  intros data t2. unfold collect_extension. rewrite Hen. reflexivity.
Qed.

End LoaderMore.

Lemma load_extensions_not_a_mapping_witness :
  load_extensions (Example.world PNone)
    (set_config init (PDict [("extensions",
                              PDict [("healthy", Example.entry true []);
                                     ("github", PBool true);
                                     ("quiet", Example.entry true [])])]))
    [] =
  (Raise (Exception "'bool' object is not a mapping"),
   [Log INFO "Loaded extension: healthy"]).
Proof.
  apply (@load_extensions_not_a_mapping (Example.world PNone)
           (set_config init (PDict [("extensions",
                                     PDict [("healthy", Example.entry true []);
                                            ("github", PBool true);
                                            ("quiet", Example.entry true [])])]))
           _ [("healthy", Example.entry true [])] "github" (PBool true)
           [("quiet", Example.entry true [])] [] eq_refl eq_refl).
  - intros n en [[= <- <-]|[]]. unfold Example.entry.
    do 2 eexists. split; reflexivity.
  - discriminate.
Defined.

Lemma failed_load_is_registered_inert_witness :
  exists exts' t' extension,
    load_extension (Example.world PNone) [] "badinit" (Example.entry true []) []
      = (Ok exts', t') /\
    lookup exts' "badinit" = Some extension /\
    Extension.module extension = None /\
    collect_extension [] "badinit" extension t' = (Ok [], t').
Proof.
  destruct (@failed_load_is_registered_inert (Example.world PNone) [] "badinit"
              [("enabled", PBool true); ("config", PDict [])]
              (BuiltinExtensions "badinit.py") (Exception "no credentials") []
              eq_refl eq_refl eq_refl)
    as (exts' & t' & extension & H1 & H2 & H3 & H4).
  exists exts', t', extension. repeat split; auto.
Defined.

Section AggregatorMore.

Lemma setitem_fresh {A} (d : dict A) k v :
  ~ In k (keys d) -> setitem k v d = (d ++ [(k, v)])%list.
Proof.
  induction d as [|[k0 v0] d IH]; simpl; auto.
  intros H. destruct (String.eqb k k0) eqn:E.
  - apply String.eqb_eq in E. subst. tauto.
  - f_equal. apply IH. tauto.
Qed.

Lemma collected_items_successes items : forall data,
  NoDup (keys items) ->
  (forall k, In k (keys items) -> ~ In k (keys data)) ->
  collected_items items data = (data ++ successes items)%list.
Proof.
  unfold collected_items.
  induction items as [|[name extension] items IH]; intros data Hnd Hfresh.
  - simpl. now rewrite app_nil_r.
  - rewrite assign_all_cons. inversion Hnd as [|? ? Hnot Hnd']; subst.
    simpl successes. unfold assign.
    destruct (collected extension) as [v|].
    + rewrite setitem_fresh by (apply Hfresh; now left).
      rewrite IH; auto.
      * now rewrite <- app_assoc.
      * intros k Hk Hin. unfold keys in Hin. rewrite map_app in Hin.
        apply in_app_or in Hin. destruct Hin as [Hin|[<-|[]]].
        -- apply (Hfresh k); [now right | exact Hin].
        -- exact (Hnot Hk).
    + apply IH; auto. intros k Hk. apply Hfresh. now right.
Qed.

(** X8.  With one entry per name in [self.extensions], the data returned by
    [collect_data] lists the connectors that yielded a truthy value, each
    with exactly the value its [collect_data] returned, in the order in
    which they were registered; the round returns that data unless a
    connector ends it with [sys.exit]. *)
Theorem collect_data_in_registration_order (self : DevAssist) (t : list event) :
  NoDup (keys (extensions self)) ->
  (forall data t',
     collect_data self t = (Ok data, t') -> data = successes (extensions self)) /\
  (completes (extensions self) ->
   exists t', collect_data self t = (Ok (successes (extensions self)), t')).
Proof.
  intros Hnd.
  assert (Heq : completes (extensions self) ->
                collect_data self t =
                (Ok (successes (extensions self)),
                 (t ++ collect_logs (extensions self))%list)).
  { intros Hc. unfold collect_data. rewrite collect_data_loop_eq by exact Hc.
    rewrite collected_items_successes; auto. }
  split.
  - intros data t' H.
    assert (Hc : completes (extensions self))
      by exact (@collect_data_loop_Ok _ _ _ _ _ H).
    rewrite (Heq Hc) in H. now injection H as <- _.
  - intros Hc. rewrite (Heq Hc). eauto.
Qed.

End AggregatorMore.

Lemma collect_data_in_registration_order_witness :
  exists t',
    collect_data
      (set_extensions init [Example.loaded "slack" Example.healthy;
                            Example.loaded "quiet" Example.quiet;
                            Example.loaded "broken" Example.broken;
                            Example.loaded "github" Example.github]) [] =
    (Ok [("slack", PDict [("items", PList [PInt 1])]);
         ("github", PDict [("error", PStr "GitHub extension not properly initialized")])],
     t').
Proof.
  apply (@collect_data_in_registration_order
           (set_extensions init [Example.loaded "slack" Example.healthy;
                                 Example.loaded "quiet" Example.quiet;
                                 Example.loaded "broken" Example.broken;
                                 Example.loaded "github" Example.github]) []).
  - simpl. repeat constructor; simpl; intuition discriminate.
  - intros n x Hin. simpl in Hin.
    repeat (destruct Hin as [[= <- <-]|Hin]; [reflexivity|]). destruct Hin.
Defined.

(** * Further properties of the backends and of the run *)

Section BackendsMore.
Variable W : World.

(** X9.  The local backend without a usable model file (no path
    configured, or no file at the path) answers with its configuration
    error; no model is loaded and no completion is attempted. *)
Theorem local_backend_without_model self c prompt context t :
  ai_config self = Some c ->
  selected (AIConfig.provider c) = Some Local ->
  package_installed W Local = true ->
  truthy (AIConfig.local_model_path c) = false \/
  model_path_exists W (AIConfig.local_model_path c) = Returns false ->
  query_ai W self prompt context t =
  (Ok "Error: Local model path not configured or model file not found", t).
Proof.
  intros Hc Hsel Hpkg Hpath. rewrite (@query_ai_eq W self c Hc), Hsel.
  unfold answer. rewrite Hpkg.
  destruct (truthy (AIConfig.local_model_path c)).
  - destruct Hpath as [Hpath|Hpath]; [discriminate|]. rewrite Hpath. simpl.
    now rewrite app_nil_r.
  - simpl. now rewrite app_nil_r.
Qed.

(** X10.  When the round collected data and the selected backend has what
    it needs, [run] makes exactly one completion call, on the prompt built
    from the fixed instructions and all the collected data, and prints what
    the call returned; when the call raises, the error is logged and the
    backend's error message is printed in place of a summary, the run
    still ending normally. *)
Theorem run_with_ready_backend self0 t0 self t1 data t2 c b :
  initialize W self0 t0 = (Ok self, t1) ->
  collect_data self t1 = (Ok data, t2) ->
  data <> [] ->
  ai_config self = Some c ->
  selected (AIConfig.provider c) = Some b ->
  ready W c b ->
  run W self0 t0 =
  (Ok tt,
   (t2 ++ Generate b (_format_prompt W summary_prompt (Some data))
       :: match completion W c b (_format_prompt W summary_prompt (Some data)) with
          | Returns text => printed text
          | Raises x => Log ERROR (query_error b x) :: printed (query_error b x)
          end)%list).
Proof.
  intros Hinit Hcollect Hdata Hc Hsel [Hpkg Hready].
  set (prompt := _format_prompt W summary_prompt (Some data)).
  assert (Hans : answer W c b prompt = generated W c b prompt).
  { unfold answer. rewrite Hpkg. destruct b.
    - destruct Hready as [-> ->]. reflexivity.
    - now rewrite Hready.
    - now rewrite Hready. }
  assert (Hproc : process_data W self data t2 =
                  (Ok (fst (generated W c b prompt)),
                   (t2 ++ snd (generated W c b prompt))%list)).
  { unfold process_data. destruct data as [|item data]; [congruence|].
    rewrite (@query_ai_eq W self c Hc), Hsel. fold prompt. now rewrite Hans. }
  rewrite (@run_eq W _ _ _ _ _ _ _ _ Hinit Hcollect Hproc).
  unfold generated. destruct (completion W c b prompt) as [text|x]; simpl;
    now rewrite <- app_assoc.
Qed.

End BackendsMore.

Lemma local_backend_without_model_witness :
  query_ai (Scenario.world None true (fun _ => true))
    (set_ai_config init {| AIConfig.provider := PStr "local"; AIConfig.model := PStr "llama3";
                           AIConfig.api_key := PNone; AIConfig.api_url := PNone;
                           AIConfig.local_model_path := PStr "/models/llama3" |})
    "Summarize" None [] =
  (Ok "Error: Local model path not configured or model file not found", []).
Proof.
  apply (@local_backend_without_model (Scenario.world None true (fun _ => true))
           (set_ai_config init {| AIConfig.provider := PStr "local";
                                  AIConfig.model := PStr "llama3";
                                  AIConfig.api_key := PNone; AIConfig.api_url := PNone;
                                  AIConfig.local_model_path := PStr "/models/llama3" |})
           _ "Summarize" None [] eq_refl eq_refl eq_refl).
  right. reflexivity.
Defined.

Lemma run_with_ready_backend_witness :
  exists t',
    run (Example.world (Example.one_healthy "openai" (PStr "sk-1"))) init [] = (Ok tt, t') /\
    generates t' = [OpenAI] /\
    In (Print "Error querying OpenAI API: connection reset") t'.
Proof.
  destruct (initialize (Example.world (Example.one_healthy "openai" (PStr "sk-1"))) init [])
    as [[self| |] t1] eqn:Hinit; try (vm_compute in Hinit; discriminate Hinit).
  assert (Hself := Hinit). vm_compute in Hself. injection Hself as Hself Ht1.
  destruct (collect_data self t1) as [[data| |] t2] eqn:Hcollect;
    try (rewrite <- Hself in Hcollect; vm_compute in Hcollect; discriminate Hcollect).
  assert (Hdata : data = [("healthy", PDict [("items", PList [PInt 1])])] /\ t2 = t1).
  { rewrite <- Hself, <- Ht1 in Hcollect. vm_compute in Hcollect.
    injection Hcollect as <- <-. now rewrite Ht1. }
  destruct Hdata as [Hdata ->].
  pose proof (@run_with_ready_backend
                (Example.world (Example.one_healthy "openai" (PStr "sk-1")))
                init [] self t1 data t1
                {| AIConfig.provider := PStr "openai"; AIConfig.model := PStr "";
                   AIConfig.api_key := PStr "sk-1"; AIConfig.api_url := PNone;
                   AIConfig.local_model_path := PNone |}
                OpenAI Hinit Hcollect) as Hrun.
  eexists. split.
  - apply Hrun.
    + rewrite Hdata. discriminate.
    + now rewrite <- Hself.
    + reflexivity.
    + split; reflexivity.
  - rewrite <- Ht1. split.
    + reflexivity.
    + simpl. tauto.
Defined.

(** * The Jira connector *)

Lemma rstrip_app_char ch s : rstrip ch (s ++ String ch "") = rstrip ch s.
Proof.
  induction s as [|c s IH]; simpl.
  - now rewrite Ascii.eqb_refl.
  - change (String c s ++ String ch "") with (String c (s ++ String ch "")).
    simpl. now rewrite IH.
Qed.

Lemma getr_sub v key default :
  falsy_or_mapping v ->
  getr (py_or v (PDict [])) key default = Returns (sub_name v key default).
Proof.
  unfold sub_name, py_or. intros [H|[d ->]].
  - now rewrite H.
  - now destruct (truthy (PDict d)).
Qed.

Lemma sub_name_falsy v key default :
  truthy v = false -> sub_name v key default = default.
Proof. unfold sub_name, py_or. now intros ->. Qed.

Section JiraFacts.
Variable repr : pyval -> string.
Variable iter_other : pyval -> result (list pyval).
Variable subscript_other : pyval -> string -> result pyval.
Variable first_other : pyval -> result pyval.
Variable b64 : string -> string.
Variable http : pyval -> string -> dict pyval -> result pyval.

(** [format_issue] on an issue it can read, in full. *)
Lemma format_issue_eq (g : Jira.vars) i f c u :
  get i "fields" (PDict []) = PDict f ->
  falsy_or_mapping (get f "assignee" PNone) ->
  falsy_or_mapping (get f "status" PNone) ->
  falsy_or_mapping (get f "priority" PNone) ->
  falsy_or_mapping (get f "issuetype" PNone) ->
  Jira._config g = PDict c ->
  get c "url" (PStr "") = PStr u ->
  Jira.format_issue repr g (PDict i) =
  Returns (PDict
    (assign "story_points"
       (if truthy (get f "customfield_10002" PNone)
        then Some (get f "customfield_10002" PNone) else None)
       (assign "epic"
          (if truthy (get f "customfield_10014" PNone)
           then Some (get f "customfield_10014" PNone) else None)
          [("id", get i "id" PNone); ("key", get i "key" PNone);
           ("summary", get f "summary" PNone);
           ("description", get f "description" PNone);
           ("status", sub_name (get f "status" PNone) "name" (PStr "Unknown"));
           ("priority", sub_name (get f "priority" PNone) "name" (PStr "None"));
           ("assignee", sub_name (get f "assignee" PNone) "displayName" (PStr "Unassigned"));
           ("created", get f "created" PNone); ("updated", get f "updated" PNone);
           ("due_date", get f "duedate" PNone);
           ("url", PStr (rstrip "/"%char u ++ "/browse/" ++ Jira.fmt repr (get i "key" PNone)));
           ("issue_type", sub_name (get f "issuetype" PNone) "name" (PStr "Unknown"));
           ("labels", get f "labels" (PList []))]))).
Proof.
  intros Hf Ha Hs Hp Ht Hc Hu. unfold Jira.format_issue.
  cbn [getr and_then]. rewrite Hf. cbn [getr and_then].
  rewrite (getr_sub _ _ Ha), (getr_sub _ _ Hs), (getr_sub _ _ Hp). cbn [and_then].
  rewrite Hc. cbn [getr and_then]. rewrite Hu. cbn [py_rstrip_slash and_then].
  rewrite (getr_sub _ _ Ht). cbn [and_then].
  destruct (truthy (get f "customfield_10014" PNone));
    destruct (truthy (get f "customfield_10002" PNone)); reflexivity.
Qed.

(** X11.  [format_issue] returns for every issue whose people and status
    sub-objects are missing, null or mappings: the result has the thirteen
    fixed keys, then "epic" exactly when the epic field is truthy, then
    "story_points" exactly when the story-point field is truthy, so that an
    estimate of 0 is left out like a missing one. *)
Theorem format_issue_keys (g : Jira.vars) i f c u :
  get i "fields" (PDict []) = PDict f ->
  falsy_or_mapping (get f "assignee" PNone) ->
  falsy_or_mapping (get f "status" PNone) ->
  falsy_or_mapping (get f "priority" PNone) ->
  falsy_or_mapping (get f "issuetype" PNone) ->
  Jira._config g = PDict c ->
  get c "url" (PStr "") = PStr u ->
  exists r,
    Jira.format_issue repr g (PDict i) = Returns (PDict r) /\
    keys r =
      (issue_keys
         ++ (if truthy (get f "customfield_10014" PNone) then ["epic"] else [])
         ++ (if truthy (get f "customfield_10002" PNone) then ["story_points"] else []))%list.
Proof.
  intros Hf Ha Hs Hp Ht Hc Hu.
  rewrite (format_issue_eq g i Hf Ha Hs Hp Ht Hc Hu).
  eexists. split; [reflexivity|].
  destruct (truthy (get f "customfield_10014" PNone));
    destruct (truthy (get f "customfield_10002" PNone)); reflexivity.
Qed.

(** X12.  In a formatted issue, an assignee, status, priority or issue type
    that is missing or null shows as "Unassigned", "Unknown", "None" and
    "Unknown"; one that is a mapping shows its display name, falling back
    to the same defaults when the mapping has none. *)
Theorem format_issue_defaults (g : Jira.vars) i f c u :
  get i "fields" (PDict []) = PDict f ->
  falsy_or_mapping (get f "assignee" PNone) ->
  falsy_or_mapping (get f "status" PNone) ->
  falsy_or_mapping (get f "priority" PNone) ->
  falsy_or_mapping (get f "issuetype" PNone) ->
  Jira._config g = PDict c ->
  get c "url" (PStr "") = PStr u ->
  exists r,
    Jira.format_issue repr g (PDict i) = Returns (PDict r) /\
    lookup r "assignee"
      = Some (sub_name (get f "assignee" PNone) "displayName" (PStr "Unassigned")) /\
    lookup r "status" = Some (sub_name (get f "status" PNone) "name" (PStr "Unknown")) /\
    lookup r "priority" = Some (sub_name (get f "priority" PNone) "name" (PStr "None")) /\
    lookup r "issue_type"
      = Some (sub_name (get f "issuetype" PNone) "name" (PStr "Unknown")) /\
    (truthy (get f "assignee" PNone) = false ->
     lookup r "assignee" = Some (PStr "Unassigned")) /\
    (truthy (get f "status" PNone) = false -> lookup r "status" = Some (PStr "Unknown")) /\
    (truthy (get f "priority" PNone) = false -> lookup r "priority" = Some (PStr "None")) /\
    (truthy (get f "issuetype" PNone) = false ->
     lookup r "issue_type" = Some (PStr "Unknown")).
Proof.
  intros Hf Ha Hs Hp Ht Hc Hu.
  rewrite (format_issue_eq g i Hf Ha Hs Hp Ht Hc Hu).
  eexists. split; [reflexivity|].
  assert (Hl : forall k d, k <> "epic" -> k <> "story_points" ->
            lookup
              (assign "story_points"
                 (if truthy (get f "customfield_10002" PNone)
                  then Some (get f "customfield_10002" PNone) else None)
                 (assign "epic"
                    (if truthy (get f "customfield_10014" PNone)
                     then Some (get f "customfield_10014" PNone) else None) d)) k
            = lookup d k).
  { intros k d He Hsp. unfold assign.
    destruct (truthy (get f "customfield_10002" PNone));
      destruct (truthy (get f "customfield_10014" PNone));
      rewrite ?lookup_setitem_ne by congruence; reflexivity. }
  rewrite !Hl by discriminate. cbn [lookup String.eqb Ascii.eqb Bool.eqb].
  repeat split; try reflexivity; intros H; now rewrite sub_name_falsy.
Qed.

(** X13.  The link of a formatted issue is the configured URL without its
    trailing slashes, then "/browse/" and the issue key; a trailing slash
    in the configured URL therefore changes nothing in the result. *)
Theorem format_issue_url (g g' : Jira.vars) i f c c' u :
  get i "fields" (PDict []) = PDict f ->
  falsy_or_mapping (get f "assignee" PNone) ->
  falsy_or_mapping (get f "status" PNone) ->
  falsy_or_mapping (get f "priority" PNone) ->
  falsy_or_mapping (get f "issuetype" PNone) ->
  Jira._config g = PDict c ->
  get c "url" (PStr "") = PStr u ->
  Jira._config g' = PDict c' ->
  get c' "url" (PStr "") = PStr (u ++ "/") ->
  Jira.format_issue repr g' (PDict i) = Jira.format_issue repr g (PDict i) /\
  exists r,
    Jira.format_issue repr g (PDict i) = Returns (PDict r) /\
    lookup r "url"
      = Some (PStr (rstrip "/"%char u ++ "/browse/" ++ Jira.fmt repr (get i "key" PNone))).
Proof.
  intros Hf Ha Hs Hp Ht Hc Hu Hc' Hu'.
  rewrite (format_issue_eq g i Hf Ha Hs Hp Ht Hc Hu).
  rewrite (format_issue_eq g' i Hf Ha Hs Hp Ht Hc' Hu').
  rewrite rstrip_app_char. split; [reflexivity|].
  eexists. split; [reflexivity|].
  unfold assign.
  destruct (truthy (get f "customfield_10002" PNone));
    destruct (truthy (get f "customfield_10014" PNone));
    rewrite ?lookup_setitem_ne by discriminate; reflexivity.
Qed.

End JiraFacts.

(** ** Computations that do not exit, handlers that return *)

Lemma no_exit_ret {A} (a : A) : no_exit (ret a).
Proof. intros t n t' H. discriminate H. Qed.

Lemma no_exit_raise {A} (e : exn) : no_exit (@raise A e).
Proof. intros t n t' H. discriminate H. Qed.

Lemma no_exit_call {A} (r : result A) : no_exit (call r).
Proof. destruct r; intros t n t' H; discriminate H. Qed.

Lemma no_exit_logger lvl msg : no_exit (logger lvl msg).
Proof. intros t n t' H. discriminate H. Qed.

Lemma no_exit_bind {A B} (c : M A) (k : A -> M B) :
  no_exit c -> (forall a, no_exit (k a)) -> no_exit (bind c k).
Proof.
  intros Hc Hk t n t'. unfold bind.
  destruct (c t) as [[a|e|m] t1] eqn:E.
  - apply Hk.
  - discriminate.
  - now destruct (Hc _ _ _ E).
Qed.

Lemma no_exit_try_except {A} (body : M A) (handler : exn -> M A) :
  no_exit body -> (forall e, no_exit (handler e)) -> no_exit (try_except body handler).
Proof.
  intros Hb Hh t n t'. unfold try_except.
  destruct (body t) as [[a|e|m] t1] eqn:E.
  - discriminate.
  - apply Hh.
  - now destruct (Hb _ _ _ E).
Qed.

Lemma returns_no_exit {A} (c : M A) : returns c -> no_exit c.
Proof. intros H t n t' E. destruct (H t) as (a & t1 & Ha). congruence. Qed.

(** A [try] whose body cannot exit and whose handler returns, returns. *)
Lemma returns_try_except {A} (body : M A) (handler : exn -> M A) :
  no_exit body -> (forall e, returns (handler e)) -> returns (try_except body handler).
Proof.
  intros Hb Hh t. unfold try_except.
  destruct (body t) as [[a|e|m] t1] eqn:E.
  - eauto.
  - apply Hh.
  - now destruct (Hb _ _ _ E).
Qed.

Lemma returns_ret {A} (a : A) : returns (ret a).
Proof. intros t. unfold ret. eauto. Qed.

Lemma returns_logger lvl msg : returns (logger lvl msg).
Proof. intros t. unfold logger, emit. eauto. Qed.

Lemma returns_bind {A B} (c : M A) (k : A -> M B) :
  returns c -> (forall a, returns (k a)) -> returns (bind c k).
Proof.
  intros Hc Hk t. unfold bind. destruct (Hc t) as (a & t1 & ->). apply Hk.
Qed.

Lemma bind_step {A B} (c : M A) (k : A -> M B) t a t1 :
  c t = (Ok a, t1) -> bind c k t = k a t1.
Proof. unfold bind. now intros ->. Qed.

Ltac no_exits :=
  cbv zeta;
  repeat first
    [ match goal with
      | H : forall _, _ |- no_exit _ => apply H
      | |- no_exit (if ?b then _ else _) => destruct b
      | |- no_exit (match ?x with _ => _ end) => destruct x
      end
    | apply no_exit_ret | apply no_exit_raise | apply no_exit_call
    | apply no_exit_logger
    | apply no_exit_bind; [|intros ?]
    | apply no_exit_try_except; [|intros ?] ].

Ltac handled :=
  apply returns_try_except;
  [ no_exits
  | intros ?; apply returns_bind; [apply returns_logger | intros ?; apply returns_ret] ].

Section JiraRequests.
Variable repr : pyval -> string.
Variable iter_other : pyval -> result (list pyval).
Variable subscript_other : pyval -> string -> result pyval.
Variable first_other : pyval -> result pyval.
Variable http : pyval -> string -> dict pyval -> result pyval.
Variable g : Jira.vars.

Lemma returns_get_sprint_issues jira_url project :
  returns (Jira.get_sprint_issues repr iter_other subscript_other first_other http g
             jira_url project).
Proof. unfold Jira.get_sprint_issues. handled. Qed.

Lemma returns_get_assigned_issues jira_url username :
  returns (Jira.get_assigned_issues repr iter_other http g jira_url username).
Proof. unfold Jira.get_assigned_issues. handled. Qed.

Lemma returns_get_watching_issues jira_url username :
  returns (Jira.get_watching_issues repr iter_other http g jira_url username).
Proof. unfold Jira.get_watching_issues. handled. Qed.

Lemma returns_get_recent_activity jira_url username :
  returns (Jira.get_recent_activity repr iter_other subscript_other http g
             jira_url username).
Proof. unfold Jira.get_recent_activity. handled. Qed.

(** X14.  The four searches of the Jira connector never raise: a failed
    request, an unexpected answer or an issue that cannot be read is
    caught inside the search, and the search returns. *)
Theorem jira_searches_return jira_url username project :
  returns (Jira.get_assigned_issues repr iter_other http g jira_url username) /\
  returns (Jira.get_watching_issues repr iter_other http g jira_url username) /\
  returns (Jira.get_sprint_issues repr iter_other subscript_other first_other http g
             jira_url project) /\
  returns (Jira.get_recent_activity repr iter_other subscript_other http g
             jira_url username).
Proof.
  split; [|split; [|split]].
  - apply returns_get_assigned_issues.
  - apply returns_get_watching_issues.
  - apply returns_get_sprint_issues.
  - apply returns_get_recent_activity.
Qed.

Lemma format_issues_Raises issues bad x :
  In bad issues ->
  Jira.format_issue repr g bad = Raises x ->
  exists y, Jira.format_issues repr g issues = Raises y.
Proof.
  induction issues as [|issue issues IH]; intros Hin Hbad; [destruct Hin|].
  simpl. destruct Hin as [->|Hin].
  - rewrite Hbad. simpl. eauto.
  - destruct (Jira.format_issue repr g issue) as [formatted|y]; simpl; [|eauto].
    destruct (IH Hin Hbad) as [y ->]. simpl. eauto.
Qed.

(** X15.  [get_assigned_issues] is all or nothing: when every issue of the
    answer can be formatted it returns them all, in order, and logs
    nothing; when a single one cannot, the whole list is dropped: the
    search returns the empty list and logs one error. *)
Theorem get_assigned_issues_all_or_nothing jira_url username session d issues t :
  Jira._session g = Some session ->
  http session (jira_url ++ "/rest/api/2/search")
    [("jql", PStr ("assignee = '" ++ Jira.fmt repr username
                     ++ "' AND resolution = Unresolved ORDER BY priority DESC, updated DESC"));
     ("maxResults", PInt 50)] = Returns (PDict d) ->
  get d "issues" (PList []) = PList issues ->
  (forall formatted,
     Jira.format_issues repr g issues = Returns formatted ->
     Jira.get_assigned_issues repr iter_other http g jira_url username t
     = (Ok formatted, t)) /\
  (forall bad x,
     In bad issues ->
     Jira.format_issue repr g bad = Raises x ->
     exists msg,
       Jira.get_assigned_issues repr iter_other http g jira_url username t
       = (Ok [], (t ++ [Log ERROR ("Error fetching assigned issues: " ++ msg)])%list)).
Proof.
  intros Hs Hhttp Hissues.
  assert (Hstep : forall r,
            Jira.format_issues repr g issues = r ->
            Jira.get_assigned_issues repr iter_other http g jira_url username t =
            match r with
            | Returns formatted => (Ok formatted, t)
            | Raises y =>
                (Ok [], (t ++ [Log ERROR ("Error fetching assigned issues: " ++ exn_msg y)])%list)
            end).
  { intros r Hr. unfold Jira.get_assigned_issues, Jira.request. rewrite Hs.
    cbv zeta. rewrite Hhttp.
    unfold try_except, bind, call, ret. cbn [getr and_then]. rewrite Hissues.
    cbn [iterate]. rewrite Hr. now destruct r. }
  split.
  - intros formatted Hf. now rewrite (Hstep _ Hf).
  - intros bad x Hin Hbad.
    destruct (format_issues_Raises _ _ Hin Hbad) as [y Hy].
    rewrite (Hstep _ Hy). eauto.
Qed.

End JiraRequests.

Section JiraCollect.
Variable repr : pyval -> string.
Variable iter_other : pyval -> result (list pyval).
Variable subscript_other : pyval -> string -> result pyval.
Variable first_other : pyval -> result pyval.
Variable b64 : string -> string.
Variable http : pyval -> string -> dict pyval -> result pyval.

Lemma returns_extend_sprint_issues g jira_url projects : forall sprint_issues,
  returns (Jira.extend_sprint_issues repr iter_other subscript_other first_other http g
             jira_url projects sprint_issues).
Proof.
  induction projects as [|project projects IH]; intros acc; simpl.
  - apply returns_ret.
  - apply returns_bind; [apply returns_get_sprint_issues | intros; apply IH].
Qed.

(** X16.  Once the Jira connector has a session, a URL that is a string and
    a list of projects, [collect_data] returns, whatever the server
    answers: the result is a mapping with the four keys "assigned_issues",
    "watching_issues", "sprint_issues" and "recent_activity", each holding
    a list. *)
Theorem jira_collect_data_shape g session c u projects t :
  Jira._session g = Some session ->
  Jira._config g = PDict c ->
  get c "url" (PStr "") = PStr u ->
  get c "projects" (PList []) = PList projects ->
  exists assigned watching sprint activity t',
    Jira.collect_data repr iter_other subscript_other first_other http g t =
    (Ok (PDict [("assigned_issues", PList assigned);
                ("watching_issues", PList watching);
                ("sprint_issues", PList sprint);
                ("recent_activity", PList activity)]), t').
Proof.
  intros Hs Hc Hu Hp. unfold Jira.collect_data. rewrite Hs, Hc.
  cbn [getr]. rewrite Hu, Hp. cbn [py_rstrip_slash iterate call].
  pose proof (returns_get_assigned_issues repr iter_other http g
                (rstrip "/"%char u) (get c "username" PNone)) as Ha.
  pose proof (returns_get_watching_issues repr iter_other http g
                (rstrip "/"%char u) (get c "username" PNone)) as Hw.
  pose proof (returns_get_recent_activity repr iter_other subscript_other http g
                (rstrip "/"%char u) (get c "username" PNone)) as Hact.
  do 4 (erewrite bind_step by reflexivity).
  destruct (Ha t) as (assigned & t1 & Ha'). erewrite bind_step by exact Ha'.
  destruct (Hw t1) as (watching & t2 & Hw'). erewrite bind_step by exact Hw'.
  erewrite bind_step by reflexivity.
  destruct (returns_extend_sprint_issues g (rstrip "/"%char u) projects [] t2)
    as (sprint & t3 & Hsp). erewrite bind_step by exact Hsp.
  destruct (Hact t3) as (activity & t4 & Hact'). erewrite bind_step by exact Hact'.
  unfold ret. eauto 10.
Qed.

(** X17.  A Jira configuration that lacks a truthy URL, user name or API
    token leaves the connector without a session: [collect_data] then
    returns its error marker and sends no request.  With all three
    present, [initialize] sets up a session whose credentials are the user
    name and the token. *)
Theorem jira_session_needs_full_configuration d :
  (truthy (get d "url" PNone) && truthy (get d "username" PNone)
     && truthy (get d "api_token" PNone) = false ->
   exists g,
     Jira.initialize repr b64 (PDict d) Jira.initial = Returns g /\
     Jira._session g = None /\
     forall t,
       Jira.collect_data repr iter_other subscript_other first_other http g t =
       (Ok (PDict [("error", PStr "Jira extension not properly initialized")]), t)) /\
  (truthy (get d "url" PNone) && truthy (get d "username" PNone)
     && truthy (get d "api_token" PNone) = true ->
   Jira.initialize repr b64 (PDict d) Jira.initial =
   Returns {| Jira._config := PDict d;
              Jira._session :=
                Some (PStr ("Basic " ++ b64 (Jira.fmt repr (get d "username" PNone) ++ ":"
                                               ++ Jira.fmt repr (get d "api_token" PNone)))) |}).
Proof.
  split; intros H; unfold Jira.initialize; cbn [getr and_then]; rewrite H; simpl negb.
  - eexists. split; [reflexivity|]. split; [reflexivity|]. intros t. reflexivity.
  - reflexivity.
Qed.

End JiraCollect.

Lemma format_issue_keys_witness :
  exists r,
    Jira.format_issue type_name JiraExample.vars (PDict JiraExample.open_issue)
      = Returns (PDict r) /\
    keys r = (issue_keys ++ ["epic"])%list /\
    lookup r "story_points" = None.
Proof.
  destruct (@format_issue_keys type_name JiraExample.vars JiraExample.open_issue
              _ _ "https://jira.example.com/" eq_refl
              (or_introl eq_refl) (or_intror (ex_intro _ _ eq_refl))
              (or_introl eq_refl) (or_introl eq_refl) eq_refl eq_refl)
    as (r & Hr & Hk).
  exists r. split; [exact Hr|]. split; [exact Hk|].
  vm_compute in Hr. injection Hr as <-. reflexivity.
Defined.

Lemma format_issue_defaults_witness :
  exists r,
    Jira.format_issue type_name JiraExample.vars (PDict JiraExample.open_issue)
      = Returns (PDict r) /\
    lookup r "assignee" = Some (PStr "Unassigned") /\
    lookup r "status" = Some (PStr "In Progress") /\
    lookup r "priority" = Some (PStr "None").
Proof.
  destruct (@format_issue_defaults type_name JiraExample.vars JiraExample.open_issue
              _ _ "https://jira.example.com/" eq_refl
              (or_introl eq_refl) (or_intror (ex_intro _ _ eq_refl))
              (or_introl eq_refl) (or_introl eq_refl) eq_refl eq_refl)
    as (r & Hr & _ & Hs & _ & _ & Ha & _ & Hp & _).
  exists r. split; [exact Hr|]. split; [exact (Ha eq_refl)|].
  split; [exact Hs | exact (Hp eq_refl)].
Defined.

Lemma format_issue_url_witness :
  exists r,
    Jira.format_issue type_name JiraExample.vars (PDict JiraExample.open_issue)
      = Returns (PDict r) /\
    lookup r "url" = Some (PStr "https://jira.example.com/browse/CORE-1").
Proof.
  destruct (@format_issue_url type_name
              {| Jira._config := PDict [("url", PStr "https://jira.example.com")];
                 Jira._session := None |}
              JiraExample.vars JiraExample.open_issue
              _ _ _ "https://jira.example.com" eq_refl
              (or_introl eq_refl) (or_intror (ex_intro _ _ eq_refl))
              (or_introl eq_refl) (or_introl eq_refl) eq_refl eq_refl eq_refl eq_refl)
    as (Hsame & r & Hr & Hurl).
  exists r. split; [now rewrite Hsame | exact Hurl].
Defined.

Lemma get_assigned_issues_all_or_nothing_witness :
  Jira.format_issue type_name JiraExample.vars (PDict JiraExample.open_issue)
    <> Raises (Exception "") /\
  exists msg,
    Jira.get_assigned_issues type_name JiraExample.not_iterable JiraExample.http
      JiraExample.vars "https://jira.example.com" (PStr "dev") []
    = (Ok [], [Log ERROR ("Error fetching assigned issues: " ++ msg)]).
Proof.
  split; [discriminate|].
  destruct (@get_assigned_issues_all_or_nothing type_name JiraExample.not_iterable
              JiraExample.http JiraExample.vars "https://jira.example.com" (PStr "dev")
              (PStr "Basic b64:dev:secret") _
              [PDict JiraExample.open_issue; JiraExample.odd_issue] []
              eq_refl eq_refl eq_refl) as [_ Hbad].
  apply (Hbad JiraExample.odd_issue
           (Exception "'str' object has no attribute 'get'")).
  - right. now left.
  - reflexivity.
Defined.

Lemma jira_collect_data_shape_witness :
  exists assigned watching sprint activity t',
    Jira.collect_data type_name JiraExample.not_iterable JiraExample.not_subscriptable
      JiraExample.no_first_item JiraExample.http JiraExample.vars [] =
    (Ok (PDict [("assigned_issues", PList assigned);
                ("watching_issues", PList watching);
                ("sprint_issues", PList sprint);
                ("recent_activity", PList activity)]), t').
Proof.
  exact (@jira_collect_data_shape type_name JiraExample.not_iterable
           JiraExample.not_subscriptable JiraExample.no_first_item JiraExample.http
           JiraExample.vars (PStr "Basic b64:dev:secret") _ "https://jira.example.com/"
           [PStr "CORE"] [] eq_refl eq_refl eq_refl eq_refl).
Defined.

Lemma jira_session_needs_full_configuration_witness :
  Jira.initialize type_name JiraExample.b64 JiraExample.config Jira.initial
    = Returns JiraExample.vars /\
  exists g,
    Jira.initialize type_name JiraExample.b64
      (PDict [("url", PStr "https://jira.example.com/"); ("username", PStr "dev");
              ("api_token", PStr "")]) Jira.initial = Returns g /\
    Jira.collect_data type_name JiraExample.not_iterable JiraExample.not_subscriptable
      JiraExample.no_first_item JiraExample.http g [] =
    (Ok (PDict [("error", PStr "Jira extension not properly initialized")]), []).
Proof.
  destruct (@jira_session_needs_full_configuration type_name
              JiraExample.not_iterable JiraExample.not_subscriptable
              JiraExample.no_first_item JiraExample.b64 JiraExample.http
              [("url", PStr "https://jira.example.com/"); ("username", PStr "dev");
               ("api_token", PStr "")]) as [Hno _].
  destruct (@jira_session_needs_full_configuration type_name
              JiraExample.not_iterable JiraExample.not_subscriptable
              JiraExample.no_first_item JiraExample.b64 JiraExample.http
              [("url", PStr "https://jira.example.com/"); ("username", PStr "dev");
               ("api_token", PStr "secret"); ("projects", PList [PStr "CORE"])])
    as [_ Hyes].
  split; [exact (Hyes eq_refl)|].
  destruct (Hno eq_refl) as (g & Hg & _ & Hmarker).
  exists g. split; [exact Hg | apply Hmarker].
Defined.

(** * The GitHub connector *)

(** X18.  Without a truthy token in its configuration the GitHub connector
    gets no session, and [collect_data] then returns its error marker
    without sending any request; with a token, [collect_data] goes on to
    the requests.  A session obtained earlier survives a later
    [initialize] that brings no token. *)
Theorem github_session_needs_token (fetch : pyval -> pyval -> result pyval) d :
  (truthy (get d "token" PNone) = false ->
   exists g,
     GitHub.initialize (PDict d) GitHub.initial = Returns g /\
     GitHub.collect_data fetch g =
     Returns (PDict [("error", PStr "GitHub extension not properly initialized")])) /\
  (truthy (get d "token" PNone) = true ->
   exists g,
     GitHub.initialize (PDict d) GitHub.initial = Returns g /\
     GitHub.collect_data fetch g = fetch (get d "token" PNone) (PDict d)) /\
  (forall g0 session,
     GitHub._session g0 = Some session ->
     truthy (get d "token" PNone) = false ->
     exists g,
       GitHub.initialize (PDict d) g0 = Returns g /\
       GitHub.collect_data fetch g = fetch session (PDict d)).
Proof.
  split; [|split].
  - intros H. unfold GitHub.initialize. rewrite H. simpl. eauto.
  - intros H. unfold GitHub.initialize. rewrite H. simpl. eauto.
  - intros g0 session Hs H. unfold GitHub.initialize. rewrite H. simpl.
    eexists. split; [reflexivity|]. unfold GitHub.collect_data. simpl.
    now rewrite Hs.
Qed.

Lemma github_session_needs_token_witness :
  GitHub.collect_data (fun _ _ => Returns (PDict []))
    {| GitHub._config := PDict [("token", PStr ""); ("repositories", PList [])];
       GitHub._session := None |} =
  Returns (PDict [("error", PStr "GitHub extension not properly initialized")]).
Proof.
  destruct (@github_session_needs_token (fun _ _ => Returns (PDict []))
              [("token", PStr ""); ("repositories", PList [])]) as [H _].
  destruct (H eq_refl) as (g & Hg & Hc).
  injection Hg as <-. exact Hc.
Defined.

Lemma split_slash_length s : forall cur,
  length (split_slash s cur) = S (count_slash s).
Proof.
  induction s as [|c s IH]; intros cur; simpl; auto.
  destruct (Ascii.eqb c "/"%char); simpl; now rewrite IH.
Qed.

Lemma split_slash_none s : forall cur,
  count_slash s = 0 -> split_slash s cur = [cur ++ s].
Proof.
  induction s as [|c s IH]; intros cur H; simpl in *.
  - now rewrite append_empty.
  - destruct (Ascii.eqb c "/"%char); [discriminate|].
    rewrite IH by exact H. now rewrite append_assoc.
Qed.

(** The two parts of a split, joined with a slash again, give the string. *)
Lemma split_slash_two s : forall cur owner repo_name,
  split_slash s cur = [owner; repo_name] ->
  (cur ++ s = owner ++ "/" ++ repo_name) /\ count_slash repo_name = 0.
Proof.
  induction s as [|c s IH]; intros cur owner repo_name H; simpl in H.
  - discriminate.
  - destruct (Ascii.eqb c "/"%char) eqn:E.
    + apply Ascii.eqb_eq in E. subst c.
      injection H as -> Hrest.
      assert (Hcount : count_slash s = 0).
      { assert (Hlen : length (split_slash s "") = 1) by now rewrite Hrest.
        rewrite split_slash_length in Hlen. now injection Hlen. }
      rewrite split_slash_none in Hrest by exact Hcount.
      injection Hrest as <-. split; [reflexivity | exact Hcount].
    + destruct (IH _ _ _ H) as [Heq Hc]. split; [|exact Hc].
      rewrite <- Heq. now rewrite append_assoc.
Qed.

Lemma count_slash_app a b : count_slash (a ++ b) = count_slash a + count_slash b.
Proof.
  induction a as [|c a IH]; simpl; auto.
  change (String c a ++ b) with (String c (a ++ b)). simpl.
  rewrite IH. lia.
Qed.

Lemma returns_attempt {A} (c : M A) : no_exit c -> returns (attempt c).
Proof.
  intros Hc. unfold attempt. apply returns_try_except.
  - apply no_exit_bind; [exact Hc | intros; apply no_exit_ret].
  - intros e. apply returns_ret.
Qed.

Section GitHubFacts.
Variable repr : pyval -> string.
Variable iter_other : pyval -> result (list pyval).
Variable subscript_other : pyval -> string -> result pyval.
Variable contains_other : pyval -> string -> result bool.
Variable unpack_error : nat -> exn.
Variable http : pyval -> string -> dict pyval -> result pyval.
Variable since : string.
Variable g : GitHub.vars.

Local Abbreviation repo_round :=
  (GitHubApi.repo_round repr iter_other subscript_other contains_other unpack_error http g).
Local Abbreviation repo_rounds :=
  (GitHubApi.repo_rounds repr iter_other subscript_other contains_other unpack_error http g).
Local Abbreviation append_pull_requests :=
  (GitHubApi.append_pull_requests repr iter_other subscript_other http g).
Local Abbreviation append_issues :=
  (GitHubApi.append_issues iter_other subscript_other contains_other).
Local Abbreviation issue_entry :=
  (GitHubApi.issue_entry iter_other subscript_other contains_other).

Lemma split_repo_one_slash s :
  count_slash s = 1 ->
  exists owner repo_name,
    GitHubApi.split_repo unpack_error (PStr s) = Returns (owner, repo_name) /\
    s = owner ++ "/" ++ repo_name /\
    count_slash owner = 0 /\ count_slash repo_name = 0.
Proof.
  intros H. unfold GitHubApi.split_repo.
  pose proof (split_slash_length s "") as Hlen. rewrite H in Hlen.
  destruct (split_slash s "") as [|owner [|repo_name [|]]] eqn:E; try discriminate Hlen.
  destruct (split_slash_two _ _ E) as [Heq Hn].
  change ("" ++ s) with s in Heq.
  exists owner, repo_name. repeat split; auto.
  rewrite Heq, count_slash_app in H.
  change ("/" ++ repo_name) with (String "/"%char repo_name) in H. simpl in H. lia.
Qed.

Lemma split_repo_other s :
  count_slash s <> 1 ->
  GitHubApi.split_repo unpack_error (PStr s) = Raises (unpack_error (S (count_slash s))).
Proof.
  intros H. unfold GitHubApi.split_repo.
  pose proof (split_slash_length s "") as Hlen.
  destruct (split_slash s "") as [|a [|b [|c l]]]; simpl in Hlen;
    try (now rewrite <- Hlen).
  injection Hlen as Hlen. congruence.
Qed.

(** X19.  A configured repository is read as owner and name exactly when it
    contains one slash, and the two parts joined by a slash are the
    repository again.  Any other string is not requested at all: one error
    is logged for it and what has been collected so far is left as it
    is. *)
Theorem repository_names s acc t :
  (count_slash s = 1 ->
   exists owner repo_name,
     GitHubApi.split_repo unpack_error (PStr s) = Returns (owner, repo_name) /\
     s = owner ++ "/" ++ repo_name /\
     count_slash owner = 0 /\ count_slash repo_name = 0) /\
  (count_slash s <> 1 ->
   repo_round (PStr s) acc t =
   (Ok acc,
    (t ++ [Log ERROR ("Error fetching data for " ++ s ++ ": "
                        ++ exn_msg (unpack_error (S (count_slash s))))])%list)).
Proof.
  split; [apply split_repo_one_slash|].
  intros H. unfold GitHubApi.repo_round. rewrite (split_repo_other _ H).
  reflexivity.
Qed.

Lemma no_exit_pull_request_entry repo owner repo_name pr :
  no_exit (GitHubApi.pull_request_entry repr iter_other subscript_other http g
             repo owner repo_name pr).
Proof.
  unfold GitHubApi.pull_request_entry, GitHubApi.get_pr_reviews. no_exits.
Qed.

Lemma append_pull_requests_extends repo owner repo_name items : forall acc t,
  exists d o t',
    append_pull_requests repo owner repo_name items acc t = (Ok ((acc ++ d)%list, o), t').
Proof.
  induction items as [|pr items IH]; intros acc t; simpl.
  - exists [], None, t. now rewrite app_nil_r.
  - destruct (returns_attempt (no_exit_pull_request_entry repo owner repo_name pr) t)
      as ([entry|e] & t1 & Ha); erewrite bind_step by exact Ha.
    + destruct (IH (acc ++ [entry])%list t1) as (d & o & t' & ->).
      exists (entry :: d), o, t'. now rewrite <- app_assoc.
    + exists [], (Some e), t1. now rewrite app_nil_r.
Qed.

Lemma append_issues_extends repo items : forall acc,
  exists d o, append_issues repo items acc = ((acc ++ d)%list, o).
Proof.
  induction items as [|issue items IH]; intros acc; simpl.
  - exists [], None. now rewrite app_nil_r.
  - destruct (issue_entry repo issue) as [[entry|]|e].
    + destruct (IH (acc ++ [entry])%list) as (d & o & ->).
      exists (entry :: d), o. now rewrite <- app_assoc.
    + apply IH.
    + exists [], (Some e). now rewrite app_nil_r.
Qed.

Lemma returns_get_pull_requests owner repo_name :
  returns (GitHubApi.get_pull_requests http g owner repo_name).
Proof. unfold GitHubApi.get_pull_requests. handled. Qed.

Lemma returns_get_issues owner repo_name :
  returns (GitHubApi.get_issues http g owner repo_name).
Proof. unfold GitHubApi.get_issues. handled. Qed.

Lemma returns_get_notifications :
  returns (GitHubApi.get_notifications http since g).
Proof. unfold GitHubApi.get_notifications. handled. Qed.

Lemma repo_round_extends repo acc t :
  exists dp di t',
    repo_round repo acc t = (Ok ((fst acc ++ dp)%list, (snd acc ++ di)%list), t').
Proof.
  destruct acc as [pull_requests issues]. unfold GitHubApi.repo_round.
  assert (Hfailed : forall e dp di t0,
            exists dp' di' t',
              GitHubApi.failed repr repo e ((pull_requests ++ dp)%list, (issues ++ di)%list) t0
              = (Ok ((pull_requests ++ dp')%list, (issues ++ di')%list), t')).
  { intros e dp di t0. unfold GitHubApi.failed, bind, logger, emit, ret. eauto. }
  destruct (GitHubApi.split_repo unpack_error repo) as [[owner repo_name]|e].
  2:{ destruct (Hfailed e [] [] t) as (dp & di & t' & H).
      rewrite !app_nil_r in H. eauto. }
  destruct (returns_get_pull_requests owner repo_name t) as (prs & t1 & Hprs).
  erewrite bind_step by exact Hprs. cbn [fst snd].
  assert (Hr : exists dp o t2,
            (if truthy prs
             then match iterate iter_other prs with
                  | Returns items => append_pull_requests repo owner repo_name items pull_requests
                  | Raises e => ret (pull_requests, Some e)
                  end
             else ret (pull_requests, None)) t1
            = (Ok ((pull_requests ++ dp)%list, o), t2)).
  { destruct (truthy prs).
    - destruct (iterate iter_other prs) as [items|e].
      + apply append_pull_requests_extends.
      + exists [], (Some e), t1. unfold ret. now rewrite app_nil_r.
    - exists [], None, t1. unfold ret. now rewrite app_nil_r. }
  destruct Hr as (dp & o & t2 & Hr). erewrite bind_step by exact Hr.
  destruct o as [e|].
  { destruct (Hfailed e dp [] t2) as (dp' & di' & t' & H).
    rewrite (app_nil_r issues) in H. eauto. }
  destruct (returns_get_issues owner repo_name t2) as (answer & t3 & Hissues).
  erewrite bind_step by exact Hissues. cbv zeta.
  assert (Hi : exists di o,
            (if truthy answer
             then match iterate iter_other answer with
                  | Returns items => append_issues repo items issues
                  | Raises e => (issues, Some e)
                  end
             else (issues, None)) = ((issues ++ di)%list, o)).
  { destruct (truthy answer).
    - destruct (iterate iter_other answer) as [items|e].
      + apply append_issues_extends.
      + exists [], (Some e). now rewrite app_nil_r.
    - exists [], None. now rewrite app_nil_r. }
  destruct Hi as (di & o & ->). destruct o as [e|].
  - apply Hfailed.
  - unfold ret. eauto.
Qed.

Lemma repo_rounds_extend_aux repos : forall acc t,
  exists acc' t', repo_rounds repos acc t = (Ok acc', t').
Proof.
  induction repos as [|repo repos IH]; intros acc t; simpl.
  - unfold ret. eauto.
  - destruct (repo_round_extends repo acc t) as (dp & di & t1 & H1).
    erewrite bind_step by exact H1. apply IH.
Qed.

(** X20.  The loop over the repositories never raises, whatever the
    repositories are and whatever the server answers, and it only ever
    appends: the pull requests and issues collected before a repository,
    or before a failure inside it, are all still there afterwards, in the
    same order. *)
Theorem repo_rounds_extend repos : forall acc t,
  exists dp di t',
    repo_rounds repos acc t = (Ok ((fst acc ++ dp)%list, (snd acc ++ di)%list), t').
Proof.
  induction repos as [|repo repos IH]; intros acc t; simpl.
  - exists [], [], t. rewrite !app_nil_r. now destruct acc.
  - destruct (repo_round_extends repo acc t) as (dp & di & t1 & H1).
    erewrite bind_step by exact H1.
    destruct (IH ((fst acc ++ dp)%list, (snd acc ++ di)%list) t1) as (dp' & di' & t' & ->).
    cbn [fst snd]. rewrite <- !app_assoc. eauto.
Qed.

Lemma issue_entry_pull_request repo d :
  contains d "pull_request" = true -> issue_entry repo (PDict d) = Returns None.
Proof. intros H. unfold GitHubApi.issue_entry. simpl. now rewrite H. Qed.

(** X21.  An item of the issues answer that carries a "pull_request" key is
    passed over before any of its fields is read: it adds nothing, it
    cannot make the round fail, and the issues collected are the same as
    if the server had not sent it. *)
Theorem pull_requests_are_not_issues repo issues1 d issues2 acc :
  contains d "pull_request" = true ->
  issue_entry repo (PDict d) = Returns None /\
  append_issues repo (issues1 ++ PDict d :: issues2) acc =
  append_issues repo (issues1 ++ issues2) acc.
Proof.
  intros H. split; [now apply issue_entry_pull_request|].
  revert acc. induction issues1 as [|issue issues1 IH]; intros acc; simpl.
  - now rewrite (issue_entry_pull_request repo d H).
  - destruct (issue_entry repo issue) as [[entry|]|e]; auto.
Qed.

(** X22.  The notifications are not protected the way the repositories are:
    when one notification of the answer lacks a field, [collect_data]
    raises, and the pull requests and issues already collected are lost
    with it. *)
Theorem bad_notification_loses_everything session c repos items bad x t :
  GitHub._session g = Some session ->
  GitHub._config g = PDict c ->
  get c "repositories" (PList []) = PList repos ->
  http session (GitHubApi.API_BASE ++ "/notifications")
    [("all", PStr "false"); ("since", PStr since)] = Returns (PList items) ->
  In bad items ->
  GitHubApi.notification_entry subscript_other bad = Raises x ->
  exists y t',
    GitHubApi.collect repr iter_other subscript_other contains_other unpack_error http
      since g t = (Raise y, t').
Proof.
  intros Hs Hc Hrepos Hhttp Hin Hbad. unfold GitHubApi.collect.
  rewrite Hc. cbn [getr call]. erewrite bind_step by reflexivity.
  rewrite Hrepos.
  assert (Hwarn : exists t0,
            (if negb (truthy (PList repos))
             then logger WARNING "No repositories configured" else ret tt) t
            = (Ok tt, t0)).
  { destruct (negb (truthy (PList repos))); unfold logger, emit, ret; eauto. }
  destruct Hwarn as (t0 & Hwarn). erewrite bind_step by exact Hwarn.
  cbn [iterate call]. erewrite bind_step by reflexivity.
  destruct (repo_rounds_extend_aux repos ([], []) t0) as (acc & t1 & Hacc).
  erewrite bind_step by exact Hacc.
  assert (Hn : GitHubApi.get_notifications http since g t1 = (Ok (PList items), t1)).
  { unfold GitHubApi.get_notifications, GitHubApi.request. rewrite Hs.
    cbv zeta. now rewrite Hhttp. }
  erewrite bind_step by exact Hn.
  assert (Hentries : exists y,
            GitHubApi.notification_entries subscript_other items = Raises y).
  { clear - Hin Hbad. induction items as [|n items IH]; [destruct Hin|].
    simpl. destruct Hin as [->|Hin].
    - rewrite Hbad. simpl. eauto.
    - destruct (GitHubApi.notification_entry subscript_other n); simpl; [|eauto].
      destruct (IH Hin) as [y ->]. simpl. eauto. }
  destruct Hentries as [y Hy].
  assert (Ht : truthy (PList items) = true) by (destruct items; [destruct Hin | reflexivity]).
  rewrite Ht. cbn [iterate call]. unfold bind at 1.
  unfold bind at 1. unfold ret at 1. rewrite Hy. unfold call, raise. eauto.
Qed.

End GitHubFacts.

Lemma repository_names_witness :
  GitHubApi.split_repo GitHubExample.unpack_error (PStr "octo/app") = Returns ("octo", "app") /\
  GitHubApi.repo_round type_name JiraExample.not_iterable JiraExample.not_subscriptable
    (fun _ _ => Returns false) GitHubExample.unpack_error GitHubExample.http
    GitHubExample.vars (PStr "octo-app") ([PInt 1], []) [] =
  (Ok ([PInt 1], []),
   [Log ERROR "Error fetching data for octo-app: wrong number of values to unpack (expected 2)"]).
Proof.
  split.
  - destruct (@repository_names type_name JiraExample.not_iterable
                JiraExample.not_subscriptable (fun _ _ => Returns false)
                GitHubExample.unpack_error GitHubExample.http GitHubExample.vars
                "octo/app" ([], []) []) as [H _].
    destruct (H eq_refl) as (owner & repo_name & Hsplit & _).
    rewrite Hsplit. vm_compute in Hsplit. now injection Hsplit as <- <-.
  - destruct (@repository_names type_name JiraExample.not_iterable
                JiraExample.not_subscriptable (fun _ _ => Returns false)
                GitHubExample.unpack_error GitHubExample.http GitHubExample.vars
                "octo-app" ([PInt 1], []) []) as [_ H].
    apply H. discriminate.
Defined.

Lemma pull_requests_are_not_issues_witness :
  GitHubApi.append_issues JiraExample.not_iterable JiraExample.not_subscriptable
    (fun _ _ => Returns false) (PStr "octo/app")
    [PDict GitHubExample.pull_request_item; GitHubExample.issue_item] [] =
  GitHubApi.append_issues JiraExample.not_iterable JiraExample.not_subscriptable
    (fun _ _ => Returns false) (PStr "octo/app") [GitHubExample.issue_item] [].
Proof.
  apply (@pull_requests_are_not_issues JiraExample.not_iterable
           JiraExample.not_subscriptable (fun _ _ => Returns false)
           (PStr "octo/app") [] GitHubExample.pull_request_item
           [GitHubExample.issue_item] []).
  reflexivity.
Defined.

Lemma bad_notification_loses_everything_witness :
  exists y t',
    GitHubApi.collect type_name JiraExample.not_iterable JiraExample.not_subscriptable
      (fun _ _ => Returns false) GitHubExample.unpack_error GitHubExample.http
      "2025-01-01T00:00:00" GitHubExample.vars [] = (Raise y, t').
Proof.
  apply (@bad_notification_loses_everything type_name JiraExample.not_iterable
           JiraExample.not_subscriptable (fun _ _ => Returns false)
           GitHubExample.unpack_error GitHubExample.http "2025-01-01T00:00:00"
           GitHubExample.vars (PStr "ghp_1") _ [PStr "octo/app"]
           [GitHubExample.bare_notification] GitHubExample.bare_notification
           (Exception "'repository'") [] eq_refl eq_refl eq_refl eq_refl).
  - now left.
  - reflexivity.
Defined.

(** * The Slack connector *)

Section SlackFacts.
Variable lower : string -> string.
Variable py_eq : pyval -> pyval -> bool.
Variable iter_other : pyval -> result (list pyval).
Variable len_other : pyval -> result nat.
Variable in_other : pyval -> pyval -> result bool.
Variable positive_other : pyval -> result bool.
Variable _config : pyval.

Local Abbreviation is_important_message :=
  (Slack.is_important_message lower py_eq iter_other len_other in_other positive_other
     _config).

(** X23.  A message that has any reaction at all is important, whatever the
    reactions are called and whatever else the message holds: the test on
    the list of reactions answers before the names of the reactions, the
    text or the thread are looked at. *)
Theorem any_reaction_is_important m reaction reactions user_id :
  lookup m "reactions" = Some (PList (reaction :: reactions)) ->
  is_important_message (PDict m) user_id = Returns true.
Proof.
  intros H. unfold Slack.is_important_message. cbn [getr and_then].
  unfold get. rewrite H. reflexivity.
Qed.

Lemma existsb_In {A} (f : A -> bool) l x : In x l -> f x = true -> existsb f l = true.
Proof. intros Hin Hf. apply existsb_exists. eauto. Qed.

(** X24.  A message without reactions is important as soon as its text, put
    in lower case, contains one of the urgent keywords anywhere, also
    inside a longer word; neither the thread nor the sender is looked at
    then. *)
Theorem urgent_keyword_is_important m s keyword user_id :
  lookup m "reactions" = None ->
  lookup m "text" = Some (PStr s) ->
  In keyword Slack.urgent_keywords ->
  substring keyword (lower s) = true ->
  is_important_message (PDict m) user_id = Returns true.
Proof.
  intros Hr Ht Hk Hsub. unfold Slack.is_important_message. cbn [getr and_then].
  unfold get. rewrite Hr, Ht. cbn [truthy and_then iterate Slack.marked].
  now rewrite (existsb_In (fun k => substring k (lower s)) _ _ Hk Hsub).
Qed.

End SlackFacts.

Lemma any_reaction_is_important_witness :
  Slack.is_important_message SlackExample.lower SlackExample.py_eq
    SlackExample.not_iterable SlackExample.no_len SlackExample.not_a_container
    SlackExample.not_ordered (PDict [])
    (PDict [("text", PNone);
            ("reactions", PList [PDict [("name", PStr "thumbsup"); ("count", PInt 1)]])])
    (PStr "U1") = Returns true.
Proof.
  apply (@any_reaction_is_important SlackExample.lower SlackExample.py_eq
           SlackExample.not_iterable SlackExample.no_len SlackExample.not_a_container
           SlackExample.not_ordered (PDict []) _
           (PDict [("name", PStr "thumbsup"); ("count", PInt 1)]) [] (PStr "U1")).
  reflexivity.
Defined.

Lemma urgent_keyword_is_important_witness :
  Slack.is_important_message SlackExample.lower SlackExample.py_eq
    SlackExample.not_iterable SlackExample.no_len SlackExample.not_a_container
    SlackExample.not_ordered (PDict [])
    (PDict [("text", PStr "That was Unhelpful"); ("user", PStr "U2")])
    (PStr "U1") = Returns true.
Proof.
  apply (@urgent_keyword_is_important SlackExample.lower SlackExample.py_eq
           SlackExample.not_iterable SlackExample.no_len SlackExample.not_a_container
           SlackExample.not_ordered (PDict []) _ "That was Unhelpful" "help"
           (PStr "U1"));
    try reflexivity.
  simpl. tauto.
Defined.

(** * [install_extension] *)

Section InstallFacts.
Variable W : World.
Variable write_text : path -> string -> result unit.
Variable path_str : path -> string.
Variable in_other : string -> pyval -> result bool.
Variable setitem_error : pyval -> exn.

Local Abbreviation install :=
  (install_extension W write_text path_str in_other setitem_error).

(** X25.  When a file for the extension is already in the user's extension
    directory, [install_extension] says so and stops: nothing is written,
    and the configuration is the one [initialize] loaded. *)
Theorem install_extension_existing app name t app1 t1 :
  initialize W app t = (Ok app1, t1) ->
  path_exists W (user_path name) = Returns true ->
  install app name t =
  (Ok app1,
   (t1 ++ [Print ("Installing extension: " ++ name);
           Print ("Extension " ++ name ++ " already exists")])%list).
Proof.
  intros Hinit Hex. unfold install_extension.
  erewrite bind_step by exact Hinit. cbv zeta. rewrite Hex.
  unfold bind, print, emit, call, ret. now rewrite <- app_assoc.
Qed.

(** X26.  When the template cannot be written, the exception of the write
    propagates out of [install_extension]; the configuration has not been
    touched or saved by then. *)
Theorem install_extension_unwritable app name t app1 t1 x :
  initialize W app t = (Ok app1, t1) ->
  path_exists W (user_path name) = Returns false ->
  write_text (user_path name) (template name) = Raises x ->
  install app name t =
  (Raise x, (t1 ++ [Print ("Installing extension: " ++ name)])%list).
Proof.
  intros Hinit Hex Hw. unfold install_extension.
  erewrite bind_step by exact Hinit. cbv zeta. rewrite Hex, Hw.
  reflexivity.
Qed.

Lemma get_extensions_section c es :
  get c "extensions" (PDict []) = PDict es ->
  get (if contains c "extensions" then c else setitem "extensions" (PDict []) c)
      "extensions" PNone = PDict es /\
  (contains c "extensions" = false -> es = []).
Proof.
  unfold get, contains. intros H.
  destruct (lookup c "extensions") as [v|] eqn:E.
  - rewrite E. split; [exact H | discriminate].
  - rewrite lookup_setitem_eq. split; [exact H | intros _; now injection H].
Qed.

(** X27.  Installing a new extension writes the template to the user's
    extension directory and then looks at the configuration.  An extension
    that is configured already keeps its entry as it is, a disabled one
    staying disabled, and nothing is saved.  One that is not configured
    gets the entry "enabled: true" with an empty config, added after the
    existing entries, which are untouched, as are the other sections of the
    configuration; the result is saved. *)
Theorem install_extension_new app name t app1 t1 c es :
  initialize W app t = (Ok app1, t1) ->
  path_exists W (user_path name) = Returns false ->
  write_text (user_path name) (template name) = Returns tt ->
  config app1 = PDict c ->
  get c "extensions" (PDict []) = PDict es ->
  (contains es name = true ->
   install app name t =
   (Ok app1,
    (t1 ++ [Print ("Installing extension: " ++ name);
            Print ("Extension template created at " ++ path_str (user_path name));
            Print "Edit this file to implement your extension functionality"])%list)) /\
  (contains es name = false ->
   exists c',
     install app name t =
     (Ok (set_config app1 (PDict c')),
      (t1 ++ [Print ("Installing extension: " ++ name);
              Print ("Extension template created at " ++ path_str (user_path name));
              Print "Edit this file to implement your extension functionality";
              save_log W (PDict c');
              Print ("Added " ++ name ++ " to configuration")])%list) /\
     entries (PDict c') = (es ++ [(name, new_entry)])%list /\
     forall k, k <> "extensions" -> lookup c' k = lookup c k).
Proof.
  intros Hinit Hex Hw Hc Hes.
  assert (Hstart : forall k : DevAssist -> M DevAssist,
            install app name t =
            (extensions <- py_get (config app1) "extensions" (PDict []) ;;
             present <- call (configured in_other name extensions) ;;
             if (present : bool) then ret app1
             else
               cfg <- add_to_config setitem_error (config app1) name ;;
               save_config W (set_config app1 cfg) ;;;
               print ("Added " ++ name ++ " to configuration") ;;;
               ret (set_config app1 cfg))
              (t1 ++ [Print ("Installing extension: " ++ name);
                      Print ("Extension template created at " ++ path_str (user_path name));
                      Print "Edit this file to implement your extension functionality"])%list).
  { intros _. unfold install_extension.
    erewrite bind_step by exact Hinit. cbv zeta. rewrite Hex, Hw.
    unfold bind at 1. unfold print at 1, emit.
    unfold bind at 1. unfold call at 1, ret at 1.
    unfold bind at 1. unfold call at 1, ret at 1.
    unfold bind at 1. unfold print at 1, emit.
    unfold bind at 1. unfold print at 1, emit.
    now rewrite <- !app_assoc. }
  rewrite (Hstart (fun a => ret a)). clear Hstart.
  rewrite Hc. unfold py_get. erewrite bind_step by reflexivity.
  rewrite Hes. cbn [configured call].
  split; intros Hin; rewrite Hin; erewrite bind_step by reflexivity.
  - reflexivity.
  - destruct (get_extensions_section c Hes) as [Hget Hempty].
    exists (setitem "extensions" (PDict (setitem name new_entry es))
              (if contains c "extensions" then c else setitem "extensions" (PDict []) c)).
    split; [|split].
    + unfold add_to_config. cbv zeta.
      match goal with
      | |- context [match ?x with PDict _ => _ | _ => _ end] =>
          replace x with (PDict es) by (symmetry; exact Hget)
      end.
      erewrite bind_step by reflexivity.
      unfold bind, save_config, save_log, try_except, call, logger, print, emit, ret.
      cbn [config set_config].
      destruct (json_dump W _) as [[]|x]; cbn; now rewrite <- !app_assoc.
    + unfold entries, get. rewrite lookup_setitem_eq.
      apply setitem_fresh. apply lookup_None_keys.
      unfold contains in Hin. now destruct (lookup es name).
    + intros k Hk. rewrite lookup_setitem_ne by congruence.
      destruct (contains c "extensions"); [reflexivity|].
      apply lookup_setitem_ne. congruence.
Qed.

End InstallFacts.

Lemma install_extension_existing_witness :
  exists app1 t',
    install_extension (Example.world (Example.configuration "local" PNone))
      InstallExample.read_only InstallExample.path_str
      InstallExample.not_a_container InstallExample.no_item_assignment
      init "mine" [] = (Ok app1, t') /\
    config app1 = Example.configuration "local" PNone /\
    In (Print "Extension mine already exists") t'.
Proof.
  destruct (initialize (Example.world (Example.configuration "local" PNone)) init [])
    as [[app1| |] t1] eqn:Hinit; try (vm_compute in Hinit; discriminate Hinit).
  exists app1. eexists. split.
  - apply (@install_extension_existing
             (Example.world (Example.configuration "local" PNone))
             InstallExample.read_only InstallExample.path_str
             InstallExample.not_a_container InstallExample.no_item_assignment
             init "mine" [] app1 t1 Hinit eq_refl).
  - split.
    + vm_compute in Hinit. now injection Hinit as <- _.
    + apply in_or_app. right. simpl. tauto.
Defined.

Lemma install_extension_unwritable_witness :
  exists t',
    install_extension (Example.world (Example.configuration "local" PNone))
      InstallExample.read_only InstallExample.path_str
      InstallExample.not_a_container InstallExample.no_item_assignment
      init "fresh" [] = (Raise (Exception "Permission denied"), t').
Proof.
  destruct (initialize (Example.world (Example.configuration "local" PNone)) init [])
    as [[app1| |] t1] eqn:Hinit; try (vm_compute in Hinit; discriminate Hinit).
  eexists.
  apply (@install_extension_unwritable
           (Example.world (Example.configuration "local" PNone))
           InstallExample.read_only InstallExample.path_str
           InstallExample.not_a_container InstallExample.no_item_assignment
           init "fresh" [] app1 t1 (Exception "Permission denied") Hinit eq_refl eq_refl).
Defined.

Lemma install_extension_new_witness :
  exists app2 t',
    install_extension (Example.world (Example.all_disabled "local" PNone))
      InstallExample.writable InstallExample.path_str
      InstallExample.not_a_container InstallExample.no_item_assignment
      init "fresh" [] = (Ok app2, t') /\
    entries (config app2) =
      [("healthy", Example.entry false []);
       ("fresh", PDict [("enabled", PBool true); ("config", PDict [])])] /\
    In (Print "Added fresh to configuration") t'.
Proof.
  destruct (initialize (Example.world (Example.all_disabled "local" PNone)) init [])
    as [[app1| |] t1] eqn:Hinit; try (vm_compute in Hinit; discriminate Hinit).
  assert (Hcfg : config app1 = Example.all_disabled "local" PNone).
  { vm_compute in Hinit. now injection Hinit as <- _. }
  destruct (@install_extension_new
              (Example.world (Example.all_disabled "local" PNone))
              InstallExample.writable InstallExample.path_str
              InstallExample.not_a_container InstallExample.no_item_assignment
              init "fresh" [] app1 t1 _ [("healthy", Example.entry false [])]
              Hinit eq_refl eq_refl Hcfg eq_refl) as [_ Hnew].
  destruct (Hnew eq_refl) as (c' & Hrun & Hentries & _).
  do 2 eexists. split; [exact Hrun|]. split; [exact Hentries|].
  apply in_or_app. right. simpl. tauto.
Defined.

(** * The Slack connector: [collect_data] *)

Section SlackCollectFacts.
Variable repr : pyval -> string.
Variable lower : string -> string.
Variable py_eq : pyval -> pyval -> bool.
Variable iter_other : pyval -> result (list pyval).
Variable subscript_other : pyval -> string -> result pyval.
Variable len_other : pyval -> result nat.
Variable in_other : pyval -> pyval -> result bool.
Variable positive_other : pyval -> result bool.
Variable add_error : pyval -> exn.
Variable http : pyval -> string -> dict pyval -> result pyval.
Variable oldest : string.
Variable iso_time : pyval -> result string.
Variable g : SlackApi.vars.

Local Abbreviation collect_data :=
  (SlackApi.collect_data repr lower py_eq iter_other subscript_other len_other in_other
     positive_other add_error http oldest iso_time g).
Local Abbreviation message_round :=
  (SlackApi.message_round repr lower py_eq iter_other len_other in_other positive_other
     add_error iso_time g).
Local Abbreviation message_rounds :=
  (SlackApi.message_rounds repr lower py_eq iter_other len_other in_other positive_other
     add_error iso_time g).
Local Abbreviation conversation_round :=
  (SlackApi.conversation_round repr lower py_eq iter_other subscript_other len_other
     in_other positive_other add_error http oldest iso_time g).
Local Abbreviation conversation_rounds :=
  (SlackApi.conversation_rounds repr lower py_eq iter_other subscript_other len_other
     in_other positive_other add_error http oldest iso_time g).

(** X28.  With a session, a failing identity request ends the collection at
    once: the failure is logged, then the missing identity, and the result
    is the error marker; no conversation is asked for. *)
Theorem collect_data_without_user_id session e t :
  SlackApi._session g = Some session ->
  http session "https://slack.com/api/auth.test" [] = Raises e ->
  collect_data t
  = (Ok (PDict [("error", PStr "Could not get Slack user ID")]),
     (t ++ [Log ERROR ("Error getting user ID: " ++ exn_msg e);
            Log ERROR "Could not get Slack user ID"])%list).
Proof.
  intros Hs Hh. unfold SlackApi.collect_data. rewrite Hs.
  assert (Hid : SlackApi.get_user_id repr http g t
                = (Ok PNone, (t ++ [Log ERROR ("Error getting user ID: " ++ exn_msg e)])%list)).
  { unfold SlackApi.get_user_id, try_except, bind at 1, SlackApi.request.
    rewrite Hs, Hh. reflexivity. }
  erewrite bind_step by exact Hid. cbn [truthy negb].
  unfold bind, logger, emit, ret. now rewrite <- app_assoc.
Qed.

Lemma message_rounds_app user_id conversation channel_id channel_name before after res :
  message_rounds user_id conversation channel_id channel_name (before ++ after) res
  = and_then (message_rounds user_id conversation channel_id channel_name before res)
      (fun res' => message_rounds user_id conversation channel_id channel_name after res').
Proof.
  revert res. induction before as [|message before IH]; intros res; [reflexivity|].
  cbn [app SlackApi.message_rounds].
  destruct (message_round _ _ _ _ message res) as [res'|x]; [apply IH|reflexivity].
Qed.

Lemma message_round_skipped user_id conversation channel_id channel_name m subtype res :
  lookup m "subtype" = Some (PStr subtype) ->
  In subtype SlackApi.skipped_subtypes ->
  message_round user_id conversation channel_id channel_name (PDict m) res = Returns res.
Proof.
  intros Hm Hin. unfold SlackApi.message_round. cbn [getr and_then].
  unfold get. rewrite Hm.
  replace (existsb (eq_str (PStr subtype)) SlackApi.skipped_subtypes) with true;
    [reflexivity|].
  symmetry. apply existsb_exists. exists subtype. split; [exact Hin|].
  cbn [eq_str]. apply String.eqb_refl.
Qed.

(** X29.  A message of a bot, or one that announces that somebody joined or
    left, counts for nothing: the lists are what they would be had the
    history not held it, whatever else the message holds and wherever in
    the history it stands. *)
Theorem system_messages_are_skipped
    user_id conversation channel_id channel_name m subtype before after res :
  lookup m "subtype" = Some (PStr subtype) ->
  In subtype SlackApi.skipped_subtypes ->
  message_rounds user_id conversation channel_id channel_name
    (before ++ PDict m :: after) res
  = message_rounds user_id conversation channel_id channel_name (before ++ after) res.
Proof.
  intros Hm Hin. rewrite !message_rounds_app.
  destruct (message_rounds _ _ _ _ before res) as [res'|x]; [|reflexivity].
  cbn [and_then SlackApi.message_rounds].
  now rewrite (message_round_skipped _ _ _ _ _ _ Hm Hin).
Qed.

Lemma bind_bind {A B C} (c : M A) (k : A -> M B) (k' : B -> M C) t :
  bind (bind c k) k' t = bind c (fun a => bind (k a) k') t.
Proof. unfold bind. now destruct (c t) as [[a|x|n] t']. Qed.

Lemma bind_ext {A B} (c : M A) (k k' : A -> M B) t :
  (forall a t', k a t' = k' a t') -> bind c k t = bind c k' t.
Proof. intros H. unfold bind. destruct (c t) as [[a|x|n] t']; auto. Qed.

Lemma conversation_rounds_app user_id channels before after res t :
  conversation_rounds user_id channels (before ++ after) res t
  = bind (conversation_rounds user_id channels before res)
      (fun res' => conversation_rounds user_id channels after res') t.
Proof.
  revert res t. induction before as [|conversation before IH]; intros res t; [reflexivity|].
  cbn [app SlackApi.conversation_rounds]. rewrite bind_bind. apply bind_ext.
  intros res' t'. apply IH.
Qed.

Lemma conversation_round_unlisted user_id listed c channel_id res t :
  listed <> [] ->
  lookup c "id" = Some channel_id ->
  existsb (py_eq (get c "name" (PStr "DM"))) listed = false ->
  truthy (get c "is_im" PNone) = false ->
  conversation_round user_id (PList listed) (PDict c) res t = (Ok res, t).
Proof.
  intros Hne Hid Hname Him. unfold SlackApi.conversation_round.
  cbn [getitem getr]. rewrite Hid. cbv beta iota delta [bind call ret].
  unfold SlackApi.filtered_out, Slack.py_in.
  destruct listed as [|x listed']; [congruence|].
  cbn [truthy getr and_then]. rewrite Hname. cbn [and_then]. rewrite Him.
  reflexivity.
Qed.

(** X30.  With a list of channels configured, a conversation that is not a
    direct message and whose name is not on the list adds nothing and logs
    nothing: the round goes as if the conversation had not been listed.
    The conversation must carry an identifier, which is read before the
    list is consulted. *)
Theorem unlisted_channels_are_passed_over
    user_id listed c channel_id before after res t :
  listed <> [] ->
  lookup c "id" = Some channel_id ->
  existsb (py_eq (get c "name" (PStr "DM"))) listed = false ->
  truthy (get c "is_im" PNone) = false ->
  conversation_rounds user_id (PList listed) (before ++ PDict c :: after) res t
  = conversation_rounds user_id (PList listed) (before ++ after) res t.
Proof.
  intros Hne Hid Hname Him. rewrite !conversation_rounds_app. apply bind_ext.
  intros res' t'. cbn [SlackApi.conversation_rounds].
  erewrite bind_step by exact (@conversation_round_unlisted user_id _ _ _ res' t' Hne Hid Hname Him).
  reflexivity.
Qed.

End SlackCollectFacts.

Lemma collect_data_without_user_id_witness :
  SlackApi.collect_data type_name SlackExample.lower SlackExample.py_eq
    SlackExample.not_iterable JiraExample.not_subscriptable SlackExample.no_len
    SlackExample.not_a_container SlackExample.not_ordered SlackApiExample.add_error
    SlackApiExample.http SlackApiExample.oldest SlackApiExample.iso_time
    SlackApiExample.vars []
  = (Ok (PDict [("error", PStr "Could not get Slack user ID")]),
     [Log ERROR "Error getting user ID: 401 Client Error";
      Log ERROR "Could not get Slack user ID"]).
Proof.
  exact (@collect_data_without_user_id type_name SlackExample.lower SlackExample.py_eq
           SlackExample.not_iterable JiraExample.not_subscriptable SlackExample.no_len
           SlackExample.not_a_container SlackExample.not_ordered SlackApiExample.add_error
           SlackApiExample.http SlackApiExample.oldest SlackApiExample.iso_time
           SlackApiExample.vars (PStr "xoxp-1") (Exception "401 Client Error") []
           eq_refl eq_refl).
Defined.

Lemma system_messages_are_skipped_witness :
  SlackApi.message_rounds type_name SlackExample.lower SlackExample.py_eq
    SlackExample.not_iterable SlackExample.no_len SlackExample.not_a_container
    SlackExample.not_ordered SlackApiExample.add_error SlackApiExample.iso_time
    SlackApiExample.vars (PStr "U1") SlackApiExample.direct_conversation (PStr "D1")
    (PStr "DM")
    [SlackApiExample.direct_message; PDict SlackApiExample.bot_message]
    SlackApiExample.empty
  = SlackApi.message_rounds type_name SlackExample.lower SlackExample.py_eq
      SlackExample.not_iterable SlackExample.no_len SlackExample.not_a_container
      SlackExample.not_ordered SlackApiExample.add_error SlackApiExample.iso_time
      SlackApiExample.vars (PStr "U1") SlackApiExample.direct_conversation (PStr "D1")
      (PStr "DM") [SlackApiExample.direct_message] SlackApiExample.empty.
Proof.
  exact (@system_messages_are_skipped type_name SlackExample.lower SlackExample.py_eq
           SlackExample.not_iterable SlackExample.no_len SlackExample.not_a_container
           SlackExample.not_ordered SlackApiExample.add_error SlackApiExample.iso_time
           SlackApiExample.vars (PStr "U1") SlackApiExample.direct_conversation
           (PStr "D1") (PStr "DM") SlackApiExample.bot_message "bot_message"
           [SlackApiExample.direct_message] [] SlackApiExample.empty
           eq_refl (or_introl eq_refl)).
Defined.

Lemma unlisted_channels_are_passed_over_witness :
  SlackApi.conversation_rounds type_name SlackExample.lower SlackExample.py_eq
    SlackExample.not_iterable JiraExample.not_subscriptable SlackExample.no_len
    SlackExample.not_a_container SlackExample.not_ordered SlackApiExample.add_error
    SlackApiExample.http SlackApiExample.oldest SlackApiExample.iso_time
    SlackApiExample.vars (PStr "U1") (PList [PStr "general"])
    [PDict SlackApiExample.random_channel] SlackApiExample.empty []
  = (Ok SlackApiExample.empty, []).
Proof.
  apply (@unlisted_channels_are_passed_over type_name SlackExample.lower
           SlackExample.py_eq SlackExample.not_iterable JiraExample.not_subscriptable
           SlackExample.no_len SlackExample.not_a_container SlackExample.not_ordered
           SlackApiExample.add_error SlackApiExample.http SlackApiExample.oldest
           SlackApiExample.iso_time SlackApiExample.vars (PStr "U1") [PStr "general"]
           SlackApiExample.random_channel (PStr "C2") [] [] SlackApiExample.empty []);
    [discriminate | reflexivity | reflexivity | reflexivity].
Defined.
